(** * OPcache exporter: a shallow embedding of [cmd/exporter/exporter.go]

    The collector core of the exporter is embedded function by function:
    [newMetric], [boolMetric], [intMetric], [NewExporter], [Describe],
    [Collect] and [getOpcacheStatus], and so is [run] of the main package.
    Go pointers are options, Go's multiple return values are pairs, and the
    effects of the code (sending on a channel, logging, the FastCGI round
    trip, taking the mutex) are events written to a trace by a small monad
    that also carries run-time panics.  Of the libraries, the parts whose
    behaviour the exporter relies on are embedded too: the validation
    [prometheus.NewDesc] performs and the panic of [MustNewConstMetric] on
    an invalid descriptor, [utf8.ValidString], and the parameters
    [client.Get] of the FastCGI client adds to a request. *)

From Stdlib Require Import String Ascii List ZArith Bool Lia.
From Stdlib Require Import Floats.SpecFloat.
Import ListNotations.

Local Open Scope Z_scope.
Local Open Scope list_scope.
Local Open Scope string_scope.

(** ** Go basics *)

(** A Go pointer [*T]: [None] is [nil]. *)
Definition ptr (A : Type) : Type := option A.

(** [[]byte] and [string] are both byte sequences; [string(content)] copies
    the bytes unchanged. *)
Definition bytes : Type := string.
Definition string_of_bytes (content : bytes) : string := content.

(** The [error] interface, observed through its [Error()] message. *)
Record error : Type := errorString { Error : string }.

(** [errors.New] *)
Definition errors_New (text : string) : error := errorString text.

(** [int64], as an integer in the two's complement range. *)
Definition int64 : Type := Z.
Definition int64_min : Z := - 2 ^ 63.
Definition int64_max : Z := 2 ^ 63 - 1.
Definition is_int64 (v : Z) : Prop := int64_min <= v <= int64_max.

(** [float64]: IEEE 754 binary64, as specified by the standard library. *)
Definition float64 : Type := spec_float.
Definition float64_prec : Z := 53.
Definition float64_emax : Z := 1024.

(** The conversion [float64(v)] of an integer: round to nearest, ties to
    even. *)
Definition float64_of_int64 (v : int64) : float64 :=
  binary_normalize float64_prec float64_emax v 0 false.

Definition float64_zero : float64 := S754_zero false.
Definition float64_one : float64 := S754_finite false 4503599627370496 (-52).

(** The integer a float stands for, when it stands for one: the float
    [(-1)^s * m * 2^e] is the integer [v] when scaling both sides by
    [2^1074] (the smallest binary64 exponent is [-1074]) gives the same
    number. *)
Definition float64_is_int (f : float64) (v : Z) : Prop :=
  match f with
  | S754_zero _ => v = 0
  | S754_finite s m e =>
      -1074 <= e /\
      cond_Zopp s (Zpos m) * 2 ^ (e + 1074) = v * 2 ^ 1074
  | _ => False
  end.

(** The number a finite float stands for, scaled by [2^1074] so that it is
    an integer; infinities and NaN stand for no number. *)
Definition float64_scaled (f : float64) : option Z :=
  match f with
  | S754_zero _ => Some 0
  | S754_finite s m e => Some (cond_Zopp s (Zpos m) * 2 ^ (e + 1074))
  | _ => None
  end.

(** The floats the binary64 format holds: a mantissa of at most 53 bits at
    an exponent from [-1074] to [971], of full width above [-1074]. *)
Definition is_float64 (f : float64) : bool :=
  valid_binary float64_prec float64_emax f.

(** [strings.Contains] *)
Fixpoint strings_Contains (s substr : string) : bool :=
  prefix substr s ||
  match s with
  | EmptyString => false
  | String _ s' => strings_Contains s' substr
  end.

(** [strings.HasPrefix] *)
Definition strings_HasPrefix (s pre : string) : bool := prefix pre s.

(** ** [unicode/utf8] *)

(** Whether the byte [c] lies between [lo] and [hi]. *)
Definition byte_between (lo hi : N) (c : ascii) : bool :=
  (N.leb lo (N_of_ascii c) && N.leb (N_of_ascii c) hi)%bool.

(** The tables [first] and [acceptRanges]: for the leading byte of a
    sequence of several bytes, the length of the sequence and the range its
    second byte must lie in; [None] for a byte that cannot lead
    ([0x80]-[0xC1] and [0xF5]-[0xFF]). *)
Definition utf8_first (c : ascii) : option (nat * N * N) :=
  let b := N_of_ascii c in
  if N.ltb b 194 then None
  else if N.leb b 223 then Some (2%nat, 128%N, 191%N)
  else if N.eqb b 224 then Some (3%nat, 160%N, 191%N)
  else if N.leb b 236 then Some (3%nat, 128%N, 191%N)
  else if N.eqb b 237 then Some (3%nat, 128%N, 159%N)
  else if N.leb b 239 then Some (3%nat, 128%N, 191%N)
  else if N.eqb b 240 then Some (4%nat, 144%N, 191%N)
  else if N.leb b 243 then Some (4%nat, 128%N, 191%N)
  else if N.eqb b 244 then Some (4%nat, 128%N, 143%N)
  else None.

(** [utf8.ValidString]: the string is a sequence of well-formed encodings.
    A byte below [0x80] stands alone; a leading byte is followed by one to
    three continuation bytes, the first of them in the range of the
    table, the others in [0x80]-[0xBF]. *)
Fixpoint utf8_ValidString (s : string) : bool :=
  match s with
  | EmptyString => true
  | String c s1 =>
      if N.ltb (N_of_ascii c) 128 then utf8_ValidString s1
      else
        match utf8_first c with
        | None => false
        | Some (size, lo, hi) =>
            match s1 with
            | EmptyString => false
            | String c1 s2 =>
                if negb (byte_between lo hi c1) then false
                else if Nat.eqb size 2 then utf8_ValidString s2
                else
                  match s2 with
                  | EmptyString => false
                  | String c2 s3 =>
                      if negb (byte_between 128 191 c2) then false
                      else if Nat.eqb size 3 then utf8_ValidString s3
                      else
                        match s3 with
                        | EmptyString => false
                        | String c3 s4 =>
                            if negb (byte_between 128 191 c3) then false
                            else utf8_ValidString s4
                        end
                  end
            end
        end
  end.

(** ** [github.com/prometheus/common/model], legacy name validation *)

Definition is_letter (c : ascii) : bool :=
  (byte_between 97 122 c || byte_between 65 90 c)%bool.

Definition is_digit (c : ascii) : bool := byte_between 48 57 c.

(** Whether every byte of [s] passes [ok], which is told whether the byte
    is the first one. *)
Fixpoint all_bytes (ok : ascii -> bool -> bool) (s : string) (first : bool)
  : bool :=
  match s with
  | EmptyString => true
  | String c s' => (ok c first && all_bytes ok s' false)%bool
  end.

(** [model.IsValidMetricName]: [[a-zA-Z_:][a-zA-Z0-9_:]*]. *)
Definition IsValidMetricName (n : string) : bool :=
  (negb (String.eqb n "") &&
   all_bytes (fun c first =>
                is_letter c || Ascii.eqb c "_" || Ascii.eqb c ":"
                || (is_digit c && negb first)) n true)%bool.

(** [model.LabelName.IsValid]: [[a-zA-Z_][a-zA-Z0-9_]*]. *)
Definition LabelName_IsValid (ln : string) : bool :=
  (negb (String.eqb ln "") &&
   all_bytes (fun c first =>
                is_letter c || Ascii.eqb c "_" || (is_digit c && negb first))
     ln true)%bool.

(** A boolean test for lists of names without repetition. *)
Fixpoint distinct_names (l : list string) : bool :=
  match l with
  | [] => true
  | x :: l' => negb (existsb (String.eqb x) l') && distinct_names l'
  end.

(** ** The Prometheus client library, as far as the exporter uses it *)

(** [prometheus.Labels]: the exporter builds one-entry maps only. *)
Definition Labels : Type := list (string * string).

(** [prometheus.Desc]: what [NewDesc] stores.  [constLabels] stands for the
    field [constLabelPairs], [err] for the verdict of the validation:
    [None] is a nil error. *)
Record Desc : Type := mkDesc {
  fqName : string;
  help : string;
  variableLabels : list string;
  constLabels : Labels;
  err : option error
}.

Inductive ValueType : Type := CounterValue | GaugeValue | UntypedValue.

(** [prometheus.Metric] as built by [NewConstMetric]. *)
Record Metric : Type := constMetric {
  desc : Desc;
  valType : ValueType;
  val : float64
}.

(** [prometheus.BuildFQName] *)
Definition BuildFQName (namespace subsystem name : string) : string :=
  if String.eqb name "" then ""
  else if negb (String.eqb namespace "") && negb (String.eqb subsystem "")
       then namespace ++ "_" ++ subsystem ++ "_" ++ name
  else if negb (String.eqb namespace "") then namespace ++ "_" ++ name
  else if negb (String.eqb subsystem "") then subsystem ++ "_" ++ name
  else name.

(** [checkLabelName]: a valid label name that is not reserved. *)
Definition checkLabelName (l : string) : bool :=
  (LabelName_IsValid l && negb (strings_HasPrefix l "__"))%bool.

(** [validateLabelValues]: the number of values is the expected one and
    every value is valid UTF-8.  (The library quotes the offending value in
    the message with [%q]; the quoting is left out here.) *)
Definition validateLabelValues (vals : list string)
  (expectedNumberOfValues : nat) : option error :=
  if negb (Nat.eqb (List.length vals) expectedNumberOfValues) then
    Some (errors_New "inconsistent label cardinality")
  else
    match find (fun val => negb (utf8_ValidString val)) vals with
    | Some val =>
        Some (errors_New ("label value " ++ val ++ " is not valid UTF-8"))
    | None => None
    end.

(** [prometheus.NewDesc] always returns a descriptor.  It validates the
    metric name, the names of the constant labels, the name and the values
    of the constant labels as label values, the names of the variable
    labels, and that no label name occurs twice.  At the first check that
    fails it returns the descriptor with the error set and without label
    pairs; otherwise the descriptor holds the labels and a nil error.
    (The library visits the constant labels in the order of their names;
    the exporter passes one label.) *)
Definition NewDesc (fqName help : string) (variableLabels : list string)
  (constLabels : Labels) : ptr Desc :=
  let invalid (e : error) :=
    Some (mkDesc fqName help variableLabels [] (Some e)) in
  if negb (IsValidMetricName fqName) then
    invalid (errors_New (fqName ++ " is not a valid metric name"))
  else
    match find (fun l => negb (checkLabelName (fst l))) constLabels with
    | Some l =>
        invalid (errors_New (fst l ++ " is not a valid label name for metric "
                             ++ fqName))
    | None =>
        let labelValues := (fqName :: map snd constLabels)%list in
        match validateLabelValues labelValues (List.length labelValues) with
        | Some e => invalid e
        | None =>
            match find (fun l => negb (checkLabelName l)) variableLabels with
            | Some l =>
                invalid (errors_New
                           (l ++ " is not a valid label name for metric "
                            ++ fqName))
            | None =>
                if negb (distinct_names
                           (map fst constLabels ++ variableLabels)%list)
                then
                  invalid (errors_New
                             ("duplicate label names in constant and variable labels for metric "
                              ++ fqName))
                else
                  Some (mkDesc fqName help variableLabels constLabels None)
            end
        end
    end.

(** ** [net/url] *)

(** The fields of [url.URL] the exporter reads. *)
Record URL : Type := mkURL {
  Scheme : string;
  Host : string;
  Path : string
}.

(** ** The status record *)

(** Modelled from the spec: the declaration of [OPcacheStatus] and of its
    three sub-records is not among the sources; the fields are the ones
    [Collect] reads, with the types [boolMetric], [intMetric] and
    [MustNewConstMetric] take, plus the string count of the interned-strings
    sub-record that section 3 of the specification lists and that the
    descriptor [interned_strings_usage_number_of_strings] is named after. *)
Module MemoryUsage.
Record t : Type := mk {
  UsedMemory : int64;
  FreeMemory : int64;
  WastedMemory : int64;
  CurrentWastedPercentage : float64
}.
Definition zero : t := mk 0 0 0 float64_zero.
End MemoryUsage.

Module InternedStringsUsage.
Record t : Type := mk {
  BufferSize : int64;
  UsedMemory : int64;
  FreeMemory : int64;
  NumberOfStrings : int64
}.
Definition zero : t := mk 0 0 0 0.
End InternedStringsUsage.

Module OPcacheStatistics.
Record t : Type := mk {
  NumCachedScripts : int64;
  NumCachedKeys : int64;
  MaxCachedKeys : int64;
  Hits : int64;
  StartTime : int64;
  LastRestartTime : int64;
  OOMRestarts : int64;
  HashRestarts : int64;
  ManualRestarts : int64;
  Misses : int64;
  BlacklistMisses : int64;
  BlacklistMissRatio : float64;
  OPcacheHitRate : float64
}.
Definition zero : t := mk 0 0 0 0 0 0 0 0 0 0 0 float64_zero float64_zero.
End OPcacheStatistics.

Record OPcacheStatus : Type := mkStatus {
  OPcacheEnabled : bool;
  CacheFull : bool;
  RestartPending : bool;
  RestartInProgress : bool;
  MemoryUsage : MemoryUsage.t;
  InternedStringsUsage : InternedStringsUsage.t;
  OPcacheStatistics : OPcacheStatistics.t
}.

(** [new(OPcacheStatus)]: every field at its zero value. *)
Definition new_OPcacheStatus : OPcacheStatus :=
  mkStatus false false false false
    MemoryUsage.zero InternedStringsUsage.zero OPcacheStatistics.zero.

(** ** Effects *)

(** The FastCGI client library ([fcgi_client]) and [io]: a client is a
    connection, a response carries a body, and reading a body to its end
    yields the bytes read and possibly an error. *)
Record FCGIClient : Type := mkClient { conn_id : nat }.
Record Reader : Type := mkReader { stream : bytes; stream_err : option error }.
Record Response : Type := mkResponse { Body : Reader }.

(** The parameter environment of a request, [map[string]string]. *)
Definition Env : Type := list (string * string).

(** [m[key] = value] on a Go map: the entry of [key] is replaced, or added
    when there is none.  (A Go map has no order; the order of the list is
    the order in which the keys were first set.) *)
Fixpoint map_set (m : Env) (key value : string) : Env :=
  match m with
  | [] => [(key, value)]
  | (k, v) :: m' =>
      if String.eqb k key then (key, value) :: m'
      else (k, v) :: map_set m' key value
  end.

(** How the outside world answers during one poll.  [Dial] and [Request]
    return either a value or an error, as their library contracts say;
    [Request] is given the parameters and the body ([None] is a nil
    reader) written to the connection. *)
Record Network : Type := mkNetwork {
  Dial : string -> string -> FCGIClient + error;
  Request : FCGIClient -> Env -> option Reader -> Response + error
}.

(** The parameters [client.Get] of [fcgi_client] sends for the map [p] it
    is given: it sets [REQUEST_METHOD] and [CONTENT_LENGTH] in [p]. *)
Definition Get_params (p : Env) : Env :=
  map_set (map_set p "REQUEST_METHOD" "GET") "CONTENT_LENGTH" "0".

(** The answer to [client.Get(p)]: that to the request it sends, which has
    no body. *)
Definition Get (net : Network) (client : FCGIClient) (p : Env)
  : Response + error :=
  Request net client (Get_params p) None.

(** What the code does to the outside world. *)
Inductive Event : Type :=
| EvLock
| EvUnlock
| EvDial (network address : string)
| EvRequest (client : FCGIClient) (params : Env) (body : option Reader)
| EvReadAll (r : Reader)
| EvLog (err : error)
| EvSendDesc (d : ptr Desc)
| EvSend (m : Metric).

(** A call either returns or panics. *)
Inductive outcome (A : Type) : Type :=
| Returned (a : A)
| Panic (msg : string).
Arguments Returned {A} a.
Arguments Panic {A} msg.

(** A computation: its outcome and the events it performed, in order. *)
Definition Go (A : Type) : Type := outcome A * list Event.

Definition ret {A : Type} (a : A) : Go A := (Returned a, []).

Definition bind {A B : Type} (c : Go A) (k : A -> Go B) : Go B :=
  match fst c with
  | Returned a => let r := k a in (fst r, (snd c ++ snd r)%list)
  | Panic msg => (Panic msg, snd c)
  end.

Definition emit (ev : Event) : Go unit := (Returned tt, [ev]).

Definition panic {A : Type} (msg : string) : Go A := (Panic msg, []).

Notation "x <- c ;; k" := (bind c (fun x => k))
  (at level 61, c at next level, right associativity).
Notation "c ;; k" := (bind c (fun _ => k))
  (at level 61, right associativity).

(** Reading a field through a pointer. *)
Definition deref {A : Type} (p : ptr A) : Go A :=
  match p with
  | Some a => ret a
  | None => panic "invalid memory address or nil pointer dereference"
  end.

(** [mu.Lock(); defer mu.Unlock()]: the deferred unlock runs when the body
    returns and when it panics. *)
Definition locked {A : Type} (body : Go A) : Go A :=
  (fst body, ([EvLock] ++ snd body ++ [EvUnlock])%list).

(** [log.Print] *)
Definition log_Print (err : error) : Go unit := emit (EvLog err).

(** [io.ReadAll] *)
Definition io_ReadAll (r : Reader) : Go (bytes * option error) :=
  emit (EvReadAll r) ;; ret (stream r, stream_err r).

(** [prometheus.MustNewConstMetric]: it reads the descriptor through its
    pointer, and panics with the error of [NewConstMetric], which is the
    error of the descriptor if it has one and otherwise that of the label
    values given for its variable labels. *)
Definition MustNewConstMetric (d : ptr Desc) (valueType : ValueType)
  (value : float64) (labelValues : list string) : Go Metric :=
  d' <- deref d ;;
  match err d' with
  | Some e => panic (Error e)
  | None =>
      match validateLabelValues labelValues
              (List.length (variableLabels d')) with
      | Some e => panic (Error e)
      | None => ret (constMetric d' valueType value)
      end
  end.

(** The samples and the descriptors sent during a run. *)
Fixpoint sent (t : list Event) : list Metric :=
  match t with
  | [] => []
  | EvSend m :: t' => m :: sent t'
  | _ :: t' => sent t'
  end.

Fixpoint described (t : list Event) : list (ptr Desc) :=
  match t with
  | [] => []
  | EvSendDesc d :: t' => d :: described t'
  | _ :: t' => described t'
  end.

Fixpoint logged (t : list Event) : list error :=
  match t with
  | [] => []
  | EvLog err :: t' => err :: logged t'
  | _ :: t' => logged t'
  end.

(** ** The exporter *)

Definition namespace : string := "opcache".

Definition newMetric (metricName metricDesc : string) (fcgiURI : string)
  : ptr Desc :=
  let labels := [("fcgi_uri", fcgiURI)] in
  NewDesc (BuildFQName namespace "" metricName) metricDesc [] labels.

(** Indexing a Go map: the zero value when the key is absent. *)
Fixpoint map_index (m : list (bool * float64)) (key : bool) : float64 :=
  match m with
  | [] => float64_zero
  | (k, v) :: m' => if Bool.eqb k key then v else map_index m' key
  end.

Definition boolMetric (value : bool) : float64 :=
  map_index [(true, float64_one); (false, float64_zero)] value.

Definition intMetric (value : int64) : float64 :=
  float64_of_int64 value.

(** The [mutex] field has no value of its own here: taking and releasing it
    are the events [EvLock] and [EvUnlock]. *)
Record Exporter : Type := mkExporter {
  uri : ptr URL;
  scriptPath : string;

  enabledDesc : ptr Desc;
  cacheFullDesc : ptr Desc;
  restartPendingDesc : ptr Desc;
  restartInProgressDesc : ptr Desc;
  memoryUsageUsedMemoryDesc : ptr Desc;
  memoryUsageFreeMemoryDesc : ptr Desc;
  memoryUsageWastedMemoryDesc : ptr Desc;
  memoryUsageCurrentWastedPercentageDesc : ptr Desc;
  internedStringsUsageBufferSizeDesc : ptr Desc;
  internedStringsUsageUsedMemoryDesc : ptr Desc;
  internedStringsUsageUsedFreeMemory : ptr Desc;
  internedStringsUsageUsedNumerOfStrings : ptr Desc;
  statisticsNumCachedScripts : ptr Desc;
  statisticsNumCachedKeys : ptr Desc;
  statisticsMaxCachedKeys : ptr Desc;
  statisticsHits : ptr Desc;
  statisticsStartTime : ptr Desc;
  statisticsLastRestartTime : ptr Desc;
  statisticsOOMRestarts : ptr Desc;
  statisticsHashRestarts : ptr Desc;
  statisticsManualRestarts : ptr Desc;
  statisticsMisses : ptr Desc;
  statisticsBlacklistMisses : ptr Desc;
  statisticsBlacklistMissRatio : ptr Desc;
  statisticsHitRate : ptr Desc
}.

Section Exporter.

(** [url.Parse] and [json.Unmarshal] belong to the Go standard library; the
    exporter is embedded over any implementation of them.  [url_Parse]
    returns the URL pointer and the error; [json_Unmarshal content status]
    returns the record [status] points to after the call, and the error. *)
Variable url_Parse : string -> ptr URL * option error.
Variable json_Unmarshal : bytes -> OPcacheStatus -> OPcacheStatus * option error.

(** The dials and requests of one poll are answered by [net]. *)
Variable net : Network.

Definition fcgiclient_Dial (network address : string)
  : Go (FCGIClient + error) :=
  emit (EvDial network address) ;; ret (Dial net network address).

(** [client.Request]: the parameters and the body are written to the
    connection. *)
Definition client_Request (client : FCGIClient) (p : Env)
  (req : option Reader) : Go (Response + error) :=
  emit (EvRequest client p req) ;; ret (Request net client p req).

(** [client.Get]: a request without a body, for the parameters given and
    the two it sets. *)
Definition client_Get (client : FCGIClient) (p : Env)
  : Go (Response + error) :=
  let p := map_set p "REQUEST_METHOD" "GET" in
  let p := map_set p "CONTENT_LENGTH" "0" in
  client_Request client p None.

Definition NewExporter (rawUri : string) (scriptPath : string)
  : ptr Exporter * option error :=
  let rawUri := if negb (strings_Contains rawUri "://")
                then "tcp://" ++ rawUri else rawUri in
  let '(parsedUri, err) := url_Parse rawUri in
  let exporter := Some {|
    uri := parsedUri;
    scriptPath := scriptPath;

    enabledDesc := newMetric "enabled" "Is OPcache enabled." rawUri;
    cacheFullDesc := newMetric "cache_full" "Is OPcache full." rawUri;
    restartPendingDesc :=
      newMetric "restart_pending" "Is restart pending." rawUri;
    restartInProgressDesc :=
      newMetric "restart_in_progress" "Is restart in progress." rawUri;

    memoryUsageUsedMemoryDesc :=
      newMetric "memory_usage_used_memory" "OPcache used memory." rawUri;
    memoryUsageFreeMemoryDesc :=
      newMetric "memory_usage_free_memory" "OPcache free memory." rawUri;
    memoryUsageWastedMemoryDesc :=
      newMetric "memory_usage_wasted_memory" "OPcache wasted memory." rawUri;
    memoryUsageCurrentWastedPercentageDesc :=
      newMetric "memory_usage_current_wasted_percentage"
        "OPcache current wasted percentage." rawUri;

    internedStringsUsageBufferSizeDesc :=
      newMetric "interned_strings_usage_buffer_size"
        "OPcache interned string buffer size." rawUri;
    internedStringsUsageUsedMemoryDesc :=
      newMetric "interned_strings_usage_used_memory"
        "OPcache interned string used memory." rawUri;
    internedStringsUsageUsedFreeMemory :=
      newMetric "interned_strings_usage_free_memory"
        "OPcache interned string free memory." rawUri;
    internedStringsUsageUsedNumerOfStrings :=
      newMetric "interned_strings_usage_number_of_strings"
        "OPcache interned string number of strings." rawUri;

    statisticsNumCachedScripts :=
      newMetric "statistics_num_cached_scripts"
        "OPcache statistics, number of cached scripts." rawUri;
    statisticsNumCachedKeys :=
      newMetric "statistics_num_cached_keys"
        "OPcache statistics, number of cached keys." rawUri;
    statisticsMaxCachedKeys :=
      newMetric "statistics_max_cached_keys"
        "OPcache statistics, max cached keys." rawUri;
    statisticsHits :=
      newMetric "statistics_hits" "OPcache statistics, hits." rawUri;
    statisticsStartTime :=
      newMetric "statistics_start_time"
        "OPcache statistics, start time." rawUri;
    statisticsLastRestartTime :=
      newMetric "statistics_last_restart_time"
        "OPcache statistics, last restart time" rawUri;
    statisticsOOMRestarts :=
      newMetric "statistics_oom_restarts"
        "OPcache statistics, oom restarts" rawUri;
    statisticsHashRestarts :=
      newMetric "statistics_hash_restarts"
        "OPcache statistics, hash restarts" rawUri;
    statisticsManualRestarts :=
      newMetric "statistics_manual_restarts"
        "OPcache statistics, manual restarts" rawUri;
    statisticsMisses :=
      newMetric "statistics_misses" "OPcache statistics, misses" rawUri;
    statisticsBlacklistMisses :=
      newMetric "statistics_blacklist_misses"
        "OPcache statistics, blacklist misses" rawUri;
    statisticsBlacklistMissRatio :=
      newMetric "statistics_blacklist_miss_ratio"
        "OPcache statistics, blacklist miss ratio" rawUri;
    statisticsHitRate :=
      newMetric "statistics_hit_rate"
        "OPcache statistics, opcache hit rate" rawUri
  |} in
  (exporter, err).

(** [ch <- d] on the descriptor channel. *)
Definition send_desc (d : ptr Desc) : Go unit := emit (EvSendDesc d).

(** [ch <- m] on the metric channel. *)
Definition send (m : Metric) : Go unit := emit (EvSend m).

Definition Describe (e : Exporter) : Go unit :=
  send_desc (enabledDesc e) ;;
  send_desc (cacheFullDesc e) ;;
  send_desc (restartPendingDesc e) ;;
  send_desc (restartInProgressDesc e) ;;
  send_desc (memoryUsageUsedMemoryDesc e) ;;
  send_desc (memoryUsageFreeMemoryDesc e) ;;
  send_desc (memoryUsageWastedMemoryDesc e) ;;
  send_desc (memoryUsageCurrentWastedPercentageDesc e) ;;
  send_desc (internedStringsUsageBufferSizeDesc e) ;;
  send_desc (internedStringsUsageUsedMemoryDesc e) ;;
  send_desc (internedStringsUsageUsedFreeMemory e) ;;
  send_desc (internedStringsUsageUsedNumerOfStrings e) ;;
  send_desc (statisticsNumCachedScripts e) ;;
  send_desc (statisticsNumCachedKeys e) ;;
  send_desc (statisticsMaxCachedKeys e) ;;
  send_desc (statisticsHits e) ;;
  send_desc (statisticsStartTime e) ;;
  send_desc (statisticsLastRestartTime e) ;;
  send_desc (statisticsOOMRestarts e) ;;
  send_desc (statisticsHashRestarts e) ;;
  send_desc (statisticsManualRestarts e) ;;
  send_desc (statisticsMisses e) ;;
  send_desc (statisticsBlacklistMisses e) ;;
  send_desc (statisticsBlacklistMissRatio e) ;;
  send_desc (statisticsHitRate e).

Definition getOpcacheStatus (e : Exporter)
  : Go (ptr OPcacheStatus * option error) :=
  u <- deref (uri e) ;;
  let host := Host u in
  let host := if String.eqb (Scheme u) "unix" then Path u else host in
  r <- fcgiclient_Dial (Scheme u) host ;;
  match r with
  | inr err => ret (None, Some err)
  | inl client =>
      let env := [("SCRIPT_FILENAME", scriptPath e)] in
      r <- client_Get client env ;;
      match r with
      | inr err => ret (None, Some err)
      | inl resp =>
          r <- io_ReadAll (Body resp) ;;
          let '(content, err) := r in
          match err with
          | Some err => ret (None, Some err)
          | None =>
              let status := new_OPcacheStatus in
              let '(status, err) := json_Unmarshal content status in
              match err with
              | Some _ =>
                  ret (None, Some (errors_New (string_of_bytes content)))
              | None => ret (Some status, None)
              end
          end
      end
  end.

(** The sends of [Collect], for the status [status] points to. *)
Definition publish (e : Exporter) (status : ptr OPcacheStatus) : Go unit :=
  let gauge (d : ptr Desc) (v : OPcacheStatus -> float64) : Go unit :=
    s <- deref status ;;
    m <- MustNewConstMetric d GaugeValue (v s) [] ;;
    send m in
  let mu := MemoryUsage in
  let isu := InternedStringsUsage in
  let st := OPcacheStatistics in
  gauge (enabledDesc e) (fun s => boolMetric (OPcacheEnabled s)) ;;
  gauge (cacheFullDesc e) (fun s => boolMetric (CacheFull s)) ;;
  gauge (restartPendingDesc e) (fun s => boolMetric (RestartPending s)) ;;
  gauge (restartInProgressDesc e)
    (fun s => boolMetric (RestartInProgress s)) ;;
  gauge (memoryUsageUsedMemoryDesc e)
    (fun s => intMetric (MemoryUsage.UsedMemory (mu s))) ;;
  gauge (memoryUsageFreeMemoryDesc e)
    (fun s => intMetric (MemoryUsage.FreeMemory (mu s))) ;;
  gauge (memoryUsageWastedMemoryDesc e)
    (fun s => intMetric (MemoryUsage.WastedMemory (mu s))) ;;
  gauge (memoryUsageCurrentWastedPercentageDesc e)
    (fun s => MemoryUsage.CurrentWastedPercentage (mu s)) ;;
  gauge (internedStringsUsageBufferSizeDesc e)
    (fun s => intMetric (InternedStringsUsage.BufferSize (isu s))) ;;
  gauge (internedStringsUsageUsedMemoryDesc e)
    (fun s => intMetric (InternedStringsUsage.UsedMemory (isu s))) ;;
  gauge (internedStringsUsageUsedFreeMemory e)
    (fun s => intMetric (InternedStringsUsage.FreeMemory (isu s))) ;;
  gauge (statisticsNumCachedScripts e)
    (fun s => intMetric (OPcacheStatistics.NumCachedScripts (st s))) ;;
  gauge (statisticsNumCachedKeys e)
    (fun s => intMetric (OPcacheStatistics.NumCachedKeys (st s))) ;;
  gauge (statisticsMaxCachedKeys e)
    (fun s => intMetric (OPcacheStatistics.MaxCachedKeys (st s))) ;;
  gauge (statisticsHits e)
    (fun s => intMetric (OPcacheStatistics.Hits (st s))) ;;
  gauge (statisticsStartTime e)
    (fun s => intMetric (OPcacheStatistics.StartTime (st s))) ;;
  gauge (statisticsLastRestartTime e)
    (fun s => intMetric (OPcacheStatistics.LastRestartTime (st s))) ;;
  gauge (statisticsOOMRestarts e)
    (fun s => intMetric (OPcacheStatistics.OOMRestarts (st s))) ;;
  gauge (statisticsHashRestarts e)
    (fun s => intMetric (OPcacheStatistics.HashRestarts (st s))) ;;
  gauge (statisticsManualRestarts e)
    (fun s => intMetric (OPcacheStatistics.ManualRestarts (st s))) ;;
  gauge (statisticsMisses e)
    (fun s => intMetric (OPcacheStatistics.Misses (st s))) ;;
  gauge (statisticsBlacklistMisses e)
    (fun s => intMetric (OPcacheStatistics.BlacklistMisses (st s))) ;;
  gauge (statisticsBlacklistMissRatio e)
    (fun s => OPcacheStatistics.BlacklistMissRatio (st s)) ;;
  gauge (statisticsHitRate e)
    (fun s => OPcacheStatistics.OPcacheHitRate (st s)).

Definition Collect (e : Exporter) : Go unit :=
  locked (
    r <- getOpcacheStatus e ;;
    let '(status, err) := r in
    status <- match err with
              | Some err => log_Print err ;; ret (Some new_OPcacheStatus)
              | None => ret status
              end ;;
    publish e status).

End Exporter.

(** ** Instances for the examples *)

(** A parser for the target grammar of the exporter, [scheme://host[:port]]
    and [scheme:///path]: the scheme is what precedes the first ["://"], the
    host runs to the next ["/"], the path is the rest.  As [url.Parse] does,
    it refuses a host with a space in it; it also refuses a string without
    ["://"], which [NewExporter] never passes. *)
Definition example_url_Parse (rawURL : string) : ptr URL * option error :=
  match index 0 "://" rawURL with
  | None => (None, Some (errors_New "missing protocol scheme"))
  | Some i =>
      let scheme := substring 0 i rawURL in
      let rest :=
        substring (i + 3) (String.length rawURL - (i + 3)) rawURL in
      let '(host, path) :=
        match index 0 "/" rest with
        | None => (rest, "")
        | Some j => (substring 0 j rest,
                     substring j (String.length rest - j) rest)
        end in
      if strings_Contains host " "
      then (None, Some (errors_New "invalid character in host name"))
      else (Some (mkURL scheme host path), None)
  end.

(** The double quote character. *)
Definition dquote : string := String (ascii_of_nat 34) EmptyString.

(** The JSON object whose only member is [opcache_enabled], set to true. *)
Definition enabled_document : bytes :=
  "{" ++ dquote ++ "opcache_enabled" ++ dquote ++ ":true}".

(** A decoder that knows two documents: the empty object, which leaves the
    record as it is, and [enabled_document], which sets [OPcacheEnabled];
    it refuses every other input. *)
Definition example_json_Unmarshal (content : bytes) (status : OPcacheStatus)
  : OPcacheStatus * option error :=
  if String.eqb content "{}" then (status, None)
  else if String.eqb content enabled_document then
    (mkStatus true (CacheFull status) (RestartPending status)
       (RestartInProgress status) (MemoryUsage status)
       (InternedStringsUsage status) (OPcacheStatistics status), None)
  else (status,
        Some (errors_New "invalid character looking for beginning of value")).

(** A target that answers every request with the body [content]. *)
Definition net_serving (content : bytes) : Network :=
  mkNetwork (fun _ _ => inl (mkClient 0))
            (fun _ _ _ => inl (mkResponse (mkReader content None))).

(** A target that refuses the connection. *)
Definition net_refusing : Network :=
  mkNetwork (fun _ _ => inr (errors_New "dial tcp: connection refused"))
            (fun _ _ _ => inr (errors_New "unreachable")).

(** A target that accepts the connection and fails the request. *)
Definition net_resetting : Network :=
  mkNetwork (fun _ _ => inl (mkClient 0))
            (fun _ _ _ => inr (errors_New "connection reset by peer")).

(** A target whose body breaks off with an error after [content]. *)
Definition net_truncating (content : bytes) : Network :=
  mkNetwork (fun _ _ => inl (mkClient 0))
            (fun _ _ _ => inl (mkResponse (mkReader content
                         (Some (errors_New "unexpected EOF"))))).

(** ** The struct's descriptor fields, in declaration order *)

Definition desc_fields (e : Exporter) : list (ptr Desc) :=
  [ enabledDesc e; cacheFullDesc e; restartPendingDesc e;
    restartInProgressDesc e; memoryUsageUsedMemoryDesc e;
    memoryUsageFreeMemoryDesc e; memoryUsageWastedMemoryDesc e;
    memoryUsageCurrentWastedPercentageDesc e;
    internedStringsUsageBufferSizeDesc e;
    internedStringsUsageUsedMemoryDesc e;
    internedStringsUsageUsedFreeMemory e;
    internedStringsUsageUsedNumerOfStrings e;
    statisticsNumCachedScripts e; statisticsNumCachedKeys e;
    statisticsMaxCachedKeys e; statisticsHits e; statisticsStartTime e;
    statisticsLastRestartTime e; statisticsOOMRestarts e;
    statisticsHashRestarts e; statisticsManualRestarts e;
    statisticsMisses e; statisticsBlacklistMisses e;
    statisticsBlacklistMissRatio e; statisticsHitRate e ].

(** The label value a descriptor carries under [fcgi_uri]. *)
Definition fcgi_uri_label (d : ptr Desc) : option string :=
  match d with
  | Some d' =>
      match constLabels d' with
      | [(name, value)] =>
          if String.eqb name "fcgi_uri" then Some value else None
      | _ => None
      end
  | None => None
  end.

(** The name of a descriptor, the empty string for [nil]. *)
Definition desc_name (d : ptr Desc) : string :=
  match d with
  | Some d' => fqName d'
  | None => ""
  end.

(** ** The rows of [Collect] *)

(** The three kinds of field a snapshot has. *)
Inductive field : Type :=
| BoolField (b : bool)
| CounterField (v : int64)
| RatioField (r : float64).

(** The value [Collect] passes to [MustNewConstMetric] for a field. *)
Definition gauge_of (f : field) : float64 :=
  match f with
  | BoolField b => boolMetric b
  | CounterField v => intMetric v
  | RatioField r => r
  end.

(** The sends of [Collect] as a table: the descriptor field and the
    snapshot field of each [ch <-] line, in order. *)
Definition collected_fields (e : Exporter) (s : OPcacheStatus)
  : list (ptr Desc * field) :=
  let mu := MemoryUsage s in
  let isu := InternedStringsUsage s in
  let st := OPcacheStatistics s in
  [ (enabledDesc e, BoolField (OPcacheEnabled s));
    (cacheFullDesc e, BoolField (CacheFull s));
    (restartPendingDesc e, BoolField (RestartPending s));
    (restartInProgressDesc e, BoolField (RestartInProgress s));
    (memoryUsageUsedMemoryDesc e, CounterField (MemoryUsage.UsedMemory mu));
    (memoryUsageFreeMemoryDesc e, CounterField (MemoryUsage.FreeMemory mu));
    (memoryUsageWastedMemoryDesc e,
     CounterField (MemoryUsage.WastedMemory mu));
    (memoryUsageCurrentWastedPercentageDesc e,
     RatioField (MemoryUsage.CurrentWastedPercentage mu));
    (internedStringsUsageBufferSizeDesc e,
     CounterField (InternedStringsUsage.BufferSize isu));
    (internedStringsUsageUsedMemoryDesc e,
     CounterField (InternedStringsUsage.UsedMemory isu));
    (internedStringsUsageUsedFreeMemory e,
     CounterField (InternedStringsUsage.FreeMemory isu));
    (statisticsNumCachedScripts e,
     CounterField (OPcacheStatistics.NumCachedScripts st));
    (statisticsNumCachedKeys e,
     CounterField (OPcacheStatistics.NumCachedKeys st));
    (statisticsMaxCachedKeys e,
     CounterField (OPcacheStatistics.MaxCachedKeys st));
    (statisticsHits e, CounterField (OPcacheStatistics.Hits st));
    (statisticsStartTime e, CounterField (OPcacheStatistics.StartTime st));
    (statisticsLastRestartTime e,
     CounterField (OPcacheStatistics.LastRestartTime st));
    (statisticsOOMRestarts e,
     CounterField (OPcacheStatistics.OOMRestarts st));
    (statisticsHashRestarts e,
     CounterField (OPcacheStatistics.HashRestarts st));
    (statisticsManualRestarts e,
     CounterField (OPcacheStatistics.ManualRestarts st));
    (statisticsMisses e, CounterField (OPcacheStatistics.Misses st));
    (statisticsBlacklistMisses e,
     CounterField (OPcacheStatistics.BlacklistMisses st));
    (statisticsBlacklistMissRatio e,
     RatioField (OPcacheStatistics.BlacklistMissRatio st));
    (statisticsHitRate e, RatioField (OPcacheStatistics.OPcacheHitRate st)) ].

(** A sample as the exposition layer sees it: descriptor, type, value. *)
Definition sample_view (m : Metric) : ptr Desc * ValueType * float64 :=
  (Some (desc m), valType m, val m).

Definition row_view (r : ptr Desc * field) : ptr Desc * ValueType * float64 :=
  (fst r, GaugeValue, gauge_of (snd r)).

(** The snapshot [Collect] publishes for a result of the poll. *)
Definition substituted (r : ptr OPcacheStatus * option error)
  : ptr OPcacheStatus :=
  match snd r with
  | Some _ => Some new_OPcacheStatus
  | None => fst r
  end.

(** The address [getOpcacheStatus] dials. *)
Definition dial_address (u : URL) : string :=
  if String.eqb (Scheme u) "unix" then Path u else Host u.

(** A decoder double that decodes every body to the snapshot [s]. *)
Definition json_yielding (s : OPcacheStatus) (content : bytes)
  (status : OPcacheStatus) : OPcacheStatus * option error :=
  (s, None).

(** A snapshot whose hit counter is [2^53 + 1]. *)
Definition busy_status : OPcacheStatus :=
  mkStatus true false false false
    MemoryUsage.zero InternedStringsUsage.zero
    (OPcacheStatistics.mk 0 0 0 9007199254740993 0 0 0 0 0 0 0
       float64_zero float64_zero).

(** A snapshot that counts seven interned strings. *)
Definition seven_strings_status : OPcacheStatus :=
  mkStatus true false false false
    MemoryUsage.zero (InternedStringsUsage.mk 0 0 0 7)
    OPcacheStatistics.zero.

(** The snapshot of the example in section 8 of the specification:
    enabled, not full, 100 bytes used, 50 free, 10 wasted (6.67 percent),
    900 hits, 100 misses, hit rate 90.0. *)
Definition float64_6_67 : float64 := S754_finite false 7509752378640302 (-50).
Definition float64_90 : float64 := S754_finite false 6333186975989760 (-46).
Definition float64_100 : float64 := S754_finite false 7036874417766400 (-46).

Definition section8_status : OPcacheStatus :=
  mkStatus true false false false
    (MemoryUsage.mk 100 50 10 float64_6_67)
    InternedStringsUsage.zero
    (OPcacheStatistics.mk 0 0 0 900 0 0 0 0 0 100 0 float64_zero float64_90).

(** The exporter the examples poll: built from the old default value, a
    bare [host:port]. *)
Definition example_exporter : Exporter :=
  match fst (NewExporter example_url_Parse "127.0.0.1:9000" "/opcache.php") with
  | Some e => e
  | None => mkExporter None "" None None None None None None None None None
              None None None None None None None None None None None None
              None None None None
  end.

(** The exporter of a Unix-domain socket. *)
Definition unix_exporter : Exporter :=
  match fst (NewExporter example_url_Parse "unix:///run/php-fpm.sock"
               "/opcache.php") with
  | Some e => e
  | None => example_exporter
  end.

(** A target whose address is not valid UTF-8: the byte [0xFF] before the
    port.  The example parser, like [url.Parse], accepts it. *)
Definition latin1_uri : string := String (ascii_of_nat 255) ":9000".

Definition latin1_exporter : Exporter :=
  match fst (NewExporter example_url_Parse latin1_uri "/opcache.php") with
  | Some e => e
  | None => example_exporter
  end.

(** ** Concurrent scrapes *)

(** Several goroutines call [Collect] on one exporter.  Each call is the
    sequence of events [Collect] performs; the scheduler picks any
    goroutine that has events left and runs its next event.
    [sync.RWMutex.Lock] can run only while no goroutine holds the mutex and
    makes the caller the holder; [Unlock] releases it; every other event
    can run at any time. *)
Record Scheduler : Type := mkScheduler {
  holder : option nat;
  pending : list (list Event);
  history : list (nat * Event)
}.

(** The events goroutine [i] has left. *)
Definition remaining (st : Scheduler) (i : nat) : list Event :=
  nth i (pending st) [].

Fixpoint replace_nth {A : Type} (i : nat) (x : A) (l : list A) : list A :=
  match l, i with
  | [], _ => []
  | _ :: l', O => x :: l'
  | y :: l', S i' => y :: replace_nth i' x l'
  end.

Definition is_lock_event (ev : Event) : bool :=
  match ev with
  | EvLock | EvUnlock => true
  | _ => false
  end.

Definition can_run (h : option nat) (ev : Event) : bool :=
  match ev, h with
  | EvLock, Some _ => false
  | _, _ => true
  end.

Definition holder_after (h : option nat) (i : nat) (ev : Event)
  : option nat :=
  match ev with
  | EvLock => Some i
  | EvUnlock => None
  | _ => h
  end.

(** Goroutine [i] runs its next event, if it has one and it can run. *)
Definition advance (st : Scheduler) (i : nat) : option Scheduler :=
  match remaining st i with
  | [] => None
  | ev :: rest =>
      if can_run (holder st) ev then
        Some {| holder := holder_after (holder st) i ev;
                pending := replace_nth i rest (pending st);
                history := (history st ++ [(i, ev)])%list |}
      else None
  end.

Inductive step : Scheduler -> Scheduler -> Prop :=
| step_run (st : Scheduler) (i : nat) (st' : Scheduler) :
    advance st i = Some st' -> step st st'.

Inductive reachable (init : Scheduler) : Scheduler -> Prop :=
| reach_init : reachable init init
| reach_step (st st' : Scheduler) :
    reachable init st -> step st st' -> reachable init st'.

(** A schedule names the goroutine to run at each turn. *)
Fixpoint run (schedule : list nat) (st : Scheduler) : option Scheduler :=
  match schedule with
  | [] => Some st
  | i :: schedule' =>
      match advance st i with
      | Some st' => run schedule' st'
      | None => None
      end
  end.

(** The events of goroutine [i]. *)
Definition tag (i : nat) (t : list Event) : list (nat * Event) :=
  map (pair i) t.

Definition lock_free (t : list Event) : Prop :=
  Forall (fun ev => is_lock_event ev = false) t.

(** A call that takes the mutex first, releases it last and does not touch
    it in between; the empty sequence stands for no call. *)
Definition bracketed (t : list Event) : Prop :=
  t = [] \/
  exists body, t = (EvLock :: body ++ [EvUnlock])%list /\ lock_free body.

(** Nothing has run yet, nobody holds the mutex. *)
Definition start (calls : list (list Event)) : Scheduler :=
  {| holder := None; pending := calls; history := [] |}.

(** One scrape of the exporter [e] per element of [nets]; scrape [i] is
    answered by the [i]-th of them. *)
Definition scrapes
  (json_Unmarshal : bytes -> OPcacheStatus -> OPcacheStatus * option error)
  (e : Exporter) (nets : list Network) : list (list Event) :=
  map (fun net => snd (Collect json_Unmarshal net e)) nets.

(** What the scheduler maintains: the history is a sequence of whole calls
    followed by the part the holder of the mutex has run so far; every
    other goroutine has run all of its call or none of it. *)
Definition serialized (calls : list (list Event)) (st : Scheduler) : Prop :=
  exists (finished : list nat) (running : list (nat * Event)),
    history st
      = (flat_map (fun i => tag i (nth i calls [])) finished ++ running)%list /\
    NoDup finished /\
    (forall i, In i finished -> remaining st i = [] /\ nth i calls [] <> []) /\
    match holder st with
    | None =>
        running = [] /\
        forall i, ~ In i finished -> remaining st i = nth i calls []
    | Some k =>
        ~ In k finished /\
        (exists done rest,
           running = tag k (EvLock :: done) /\
           remaining st k = (rest ++ [EvUnlock])%list /\
           nth k calls [] = (EvLock :: done ++ rest ++ [EvUnlock])%list /\
           lock_free rest) /\
        forall i, i <> k -> ~ In i finished -> remaining st i = nth i calls []
    end.

(** Two overlapping scrapes of the example exporter: the first meets a
    target that refuses the connection, the second one that answers. *)
Definition two_nets : list Network := [net_refusing; net_serving "{}"].

Definition two_scrapes : list (list Event) :=
  scrapes example_json_Unmarshal example_exporter two_nets.

(** The second scrape runs from its lock to its unlock (29 events), then
    the first takes the mutex and dials. *)
Definition second_then_first : list nat :=
  (repeat 1%nat 29 ++ [0%nat; 0%nat])%list.

Definition first_scrape_dialling : Scheduler :=
  match run second_then_first (start two_scrapes) with
  | Some st => st
  | None => start two_scrapes
  end.

(** ** The program around the exporter *)

(** [strings.Split] for a separator that is not empty: the pieces between
    the occurrences of [sep], found from left to right without overlap.
    [skip] counts the bytes of an occurrence still to pass over, [cur] is
    the piece being read.  (For the empty separator Go splits after each
    UTF-8 sequence; the exporter never passes it, and this model then
    splits after each byte.) *)
Fixpoint split_from (sep s : string) (skip : nat) (cur : string)
  : list string :=
  match s with
  | EmptyString => [cur]
  | String c s' =>
      match skip with
      | S k => split_from sep s' k cur
      | O =>
          if prefix sep s
          then cur :: split_from sep s' (String.length sep - 1) ""
          else split_from sep s' 0 (cur ++ String c "")
      end
  end.

Definition strings_Split (s sep : string) : list string :=
  split_from sep s 0 "".

(** [strings.Join] *)
Fixpoint strings_Join (elems : list string) (sep : string) : string :=
  match elems with
  | [] => ""
  | [x] => x
  | x :: elems' => x ++ sep ++ strings_Join elems' sep
  end.

(** The line feed. *)
Definition newline : string := String (ascii_of_nat 10) EmptyString.

Module Main.

(** [*os.File], known by its name. *)
Record File : Type := mkFile { Name : string }.

(** What [run] registers: the version collector and the exporters. *)
Inductive Collector : Type :=
| VersionCollector (program : string)
| ExporterCollector (e : ptr Exporter).

(** What [run] mounts on the HTTP multiplexer. *)
Inductive Handler : Type :=
| MetricsHandler
| PageHandler (page : string).

(** The calls [run] makes to the operating system and to the libraries. *)
Inductive Call : Type :=
| CreateTemp (dir pattern : string)
| Chmod (f : File) (mode : Z)
| WriteString (f : File) (s : string)
| Close (f : File)
| Remove (name : string)
| Register (c : Collector)
| Handle (pattern : string) (h : Handler)
| ListenAndServe (addr : string).

(** How the outside answers, given the calls made so far: [os.CreateTemp]
    gives a file or an error, [WriteString] and [prometheus.Register] may
    give an error, [http.Handle] may refuse a pattern (it then panics with
    the message given), and [http.ListenAndServe], when it returns, returns
    its error. *)
Record Host : Type := mkHost {
  os_CreateTemp : list Call -> string -> string -> File + error;
  file_WriteString : list Call -> File -> string -> option error;
  prometheus_Register : list Call -> Collector -> option error;
  mux_refuses : list Call -> string -> option string;
  http_ListenAndServe : list Call -> string -> option error
}.

(** A computation of [run]: from the calls made so far to its outcome and
    the calls made by its end. *)
Definition Boot (A : Type) : Type := list Call -> outcome A * list Call.

Definition ret {A : Type} (a : A) : Boot A := fun t => (Returned a, t).

Definition bind {A B : Type} (c : Boot A) (k : A -> Boot B) : Boot B :=
  fun t =>
    match c t with
    | (Returned a, t') => k a t'
    | (Panic msg, t') => (Panic msg, t')
    end.

Definition panic {A : Type} (msg : string) : Boot A :=
  fun t => (Panic msg, t).

(** Make the call [c] and read the answer [answer] gives after the calls
    made before it. *)
Definition call {A : Type} (c : Call) (answer : list Call -> A) : Boot A :=
  fun t => (Returned (answer t), (t ++ [c])%list).

(** [defer d]: [d] runs when the rest of the function returns and when it
    panics. *)
Definition deferring {A : Type} (d : Boot unit) (rest : Boot A) : Boot A :=
  fun t => let r := rest t in (fst r, snd (d (snd r))).

Declare Scope boot_scope.
Notation "x <- c ;; k" := (bind c (fun x => k))
  (at level 61, c at next level, right associativity) : boot_scope.
Notation "c ;; k" := (bind c (fun _ => k))
  (at level 61, right associativity) : boot_scope.
Local Open Scope boot_scope.

Section Run.

Variable url_Parse : string -> ptr URL * option error.
Variable host : Host.

(** [prometheus.MustRegister]: it panics with the error of [Register]. *)
Definition MustRegister (c : Collector) : Boot unit :=
  r <- call (Register c) (fun t => prometheus_Register host t c) ;;
  match r with
  | Some err => panic (Error err)
  | None => ret tt
  end.

(** [http.Handle] and [http.HandleFunc]. *)
Definition http_Handle (pattern : string) (h : Handler) : Boot unit :=
  r <- call (Handle pattern h) (fun t => mux_refuses host t pattern) ;;
  match r with
  | Some msg => panic msg
  | None => ret tt
  end.

(** The script [run] writes when it is given none. *)
Definition payload : string :=
  "<?php" ++ newline ++ "echo(json_encode(opcache_get_status()));" ++ newline.

(** The page served at [/]. *)
Definition html (metricsPath : string) : string :=
  strings_Join
    [ "<html>";
      "  <head>";
      "    <title>OPcache Exporter</title>";
      "  </head>";
      "  <body>";
      "    <h1>OPcache Exporter</h1>";
      "    <p>";
      "      <a href=" ++ dquote ++ metricsPath ++ dquote ++ ">Metrics</a>";
      "    </p>";
      "  </body>";
      "</html>" ]
    newline.

(** The collector [run] registers for the URI [uri]. *)
Definition collector_of (scriptPath uri : string) : Collector :=
  ExporterCollector (fst (NewExporter url_Parse uri scriptPath)).

(** The loop over the URIs: it returns from [run] with the first error of
    [NewExporter]. *)
Fixpoint register_exporters (uris : list string) (scriptPath : string)
  : Boot (option error) :=
  match uris with
  | [] => ret None
  | uri :: uris' =>
      let '(exporter, err) := NewExporter url_Parse uri scriptPath in
      match err with
      | Some err => ret (Some err)
      | None =>
          MustRegister (ExporterCollector exporter) ;;
          register_exporters uris' scriptPath
      end
  end.

(** [run] from the registration of the version collector on, with the
    script path settled. *)
Definition serve (listenAddress metricsPath fcgiURI scriptPath : string)
  : Boot (option error) :=
  MustRegister (VersionCollector "opcache_exporter") ;;
  r <- register_exporters (strings_Split fcgiURI ";") scriptPath ;;
  match r with
  | Some err => ret (Some err)
  | None =>
      let html := html metricsPath in
      http_Handle metricsPath MetricsHandler ;;
      http_Handle "/" (PageHandler html) ;;
      call (ListenAndServe listenAddress)
        (fun t => http_ListenAndServe host t listenAddress)
  end.

Definition run (listenAddress metricsPath fcgiURI scriptPath scriptDir : string)
  : Boot (option error) :=
  if Nat.eqb (String.length scriptPath) 0 then
    r <- call (CreateTemp scriptDir "opcache.*.php")
           (fun t => os_CreateTemp host t scriptDir "opcache.*.php") ;;
    match r with
    | inr err => ret (Some err)
    | inl file =>
        call (Chmod file 511) (fun _ => tt) ;;
        w <- call (WriteString file payload)
               (fun t => file_WriteString host t file payload) ;;
        match w with
        | Some err => ret (Some err)
        | None =>
            let scriptPath := Name file in
            deferring (call (Close file) (fun _ => tt))
              (deferring (call (Remove (Name file)) (fun _ => tt))
                 (serve listenAddress metricsPath fcgiURI scriptPath))
        end
    end
  else serve listenAddress metricsPath fcgiURI scriptPath.

End Run.

(** The collectors registered, the files touched and the server calls in a
    sequence of calls. *)
Fixpoint registered (t : list Call) : list Collector :=
  match t with
  | [] => []
  | Register c :: t' => c :: registered t'
  | _ :: t' => registered t'
  end.

(** The exporters among the collectors registered. *)
Fixpoint exporters (cs : list Collector) : list (ptr Exporter) :=
  match cs with
  | [] => []
  | ExporterCollector e :: cs' => e :: exporters cs'
  | VersionCollector _ :: cs' => exporters cs'
  end.

Definition is_file_call (c : Call) : bool :=
  match c with
  | CreateTemp _ _ | Chmod _ _ | WriteString _ _ | Close _ | Remove _ => true
  | _ => false
  end.

Definition is_server_call (c : Call) : bool :=
  match c with
  | Handle _ _ | ListenAndServe _ => true
  | _ => false
  end.

(** A host on which everything succeeds: the temporary file is
    [dir/opcache.1.php], and the server runs until it is closed. *)
Definition host_ok : Host :=
  mkHost (fun _ dir _ => inl (mkFile (dir ++ "/opcache.1.php")))
         (fun _ _ _ => None)
         (fun _ _ => None)
         (fun _ _ => None)
         (fun _ _ => Some (errors_New "http: Server closed")).

(** A host whose disk is full: the file is created, the write fails. *)
Definition host_disk_full : Host :=
  mkHost (fun _ dir _ => inl (mkFile (dir ++ "/opcache.1.php")))
         (fun _ _ _ => Some (errors_New "no space left on device"))
         (fun _ _ => None)
         (fun _ _ => None)
         (fun _ _ => Some (errors_New "http: Server closed")).

(** A registry that refuses a collector equal to the one registered just
    before it. *)
Definition host_strict : Host :=
  mkHost (fun _ dir _ => inl (mkFile (dir ++ "/opcache.1.php")))
         (fun _ _ _ => None)
         (fun t c =>
            match rev (registered t), c with
            | ExporterCollector (Some e1) :: _, ExporterCollector (Some e2) =>
                if String.eqb (desc_name (enabledDesc e1))
                     (desc_name (enabledDesc e2))
                   && match fcgi_uri_label (enabledDesc e1),
                            fcgi_uri_label (enabledDesc e2) with
                      | Some l1, Some l2 => String.eqb l1 l2
                      | _, _ => false
                      end
                then Some (errors_New "duplicate metrics collector registration attempted")
                else None
            | _, _ => None
            end)
         (fun _ _ => None)
         (fun _ _ => Some (errors_New "http: Server closed")).

End Main.

(** * Properties *)

(** ** Traces *)

Lemma sent_app (t1 t2 : list Event) :
  sent (t1 ++ t2) = (sent t1 ++ sent t2)%list.
Proof.
  induction t1 as [|ev t1 IH]; [reflexivity|].
  destruct ev; cbn; rewrite ?IH; reflexivity.
Qed.

Lemma described_app (t1 t2 : list Event) :
  described (t1 ++ t2) = (described t1 ++ described t2)%list.
Proof.
  induction t1 as [|ev t1 IH]; [reflexivity|].
  destruct ev; cbn; rewrite ?IH; reflexivity.
Qed.

Lemma logged_app (t1 t2 : list Event) :
  logged (t1 ++ t2) = (logged t1 ++ logged t2)%list.
Proof.
  induction t1 as [|ev t1 IH]; [reflexivity|].
  destruct ev; cbn; rewrite ?IH; reflexivity.
Qed.

Lemma distinct_names_NoDup (l : list string) :
  distinct_names l = true -> NoDup l.
Proof.
  induction l as [|x l IH]; cbn; intros H; constructor.
  - apply andb_prop in H as [H _].
    intros Hin. apply negb_true_iff in H.
    assert (existsb (String.eqb x) l = true) as E.
    { apply existsb_exists. exists x. split; [exact Hin|apply String.eqb_refl]. }
    congruence.
  - apply IH. apply andb_prop in H as [_ H]. exact H.
Qed.

Lemma NoDup_of_map {A B : Type} (f : A -> B) (l : list A) :
  NoDup (map f l) -> NoDup l.
Proof.
  induction l as [|x l IH]; cbn; intros H; constructor;
    inversion H as [|? ? Hnot Hnd]; subst.
  - intros Hin. apply Hnot. apply in_map. exact Hin.
  - apply IH. exact Hnd.
Qed.

(** ** [strings.Contains] *)

Lemma prefix_app (p s : string) : prefix p (p ++ s) = true.
Proof.
  induction p as [|c p IH]; cbn.
  - destruct s; reflexivity.
  - destruct (ascii_dec c c) as [_|n]; [exact IH|contradiction].
Qed.

Lemma strings_Contains_app_r (a b substr : string) :
  strings_Contains b substr = true ->
  strings_Contains (a ++ b) substr = true.
Proof.
  intros H. induction a as [|c a IH]; cbn; [exact H|].
  rewrite IH. apply orb_true_r.
Qed.

Lemma strings_Contains_self_app (substr s : string) :
  strings_Contains (substr ++ s) substr = true.
Proof.
  destruct substr as [|c p].
  - cbn. destruct s; reflexivity.
  - cbn [append strings_Contains].
    change (String c (p ++ s)) with (String c p ++ s).
    rewrite prefix_app. reflexivity.
Qed.

(** The fallback of [NewExporter] always leaves a string with a scheme
    separator. *)
Lemma tcp_prefixed_has_scheme (rawUri : string) :
  strings_Contains ("tcp://" ++ rawUri) "://" = true.
Proof.
  change ("tcp://" ++ rawUri) with ("tcp" ++ ("://" ++ rawUri)).
  apply strings_Contains_app_r, strings_Contains_self_app.
Qed.

(** ** Descriptors *)

(** Whatever it finds, [NewDesc] returns a descriptor holding the name and
    the help text. *)
Lemma NewDesc_returns (fq h : string) (vl : list string) (cl : Labels) :
  exists d, NewDesc fq h vl cl = Some d /\ fqName d = fq /\ help d = h.
Proof.
  unfold NewDesc. cbv zeta.
  destruct (negb (IsValidMetricName fq));
    [eexists; split; [reflexivity|split; reflexivity]|].
  destruct (find _ cl);
    [eexists; split; [reflexivity|split; reflexivity]|].
  destruct (validateLabelValues _ _);
    [eexists; split; [reflexivity|split; reflexivity]|].
  destruct (find _ vl);
    [eexists; split; [reflexivity|split; reflexivity]|].
  destruct (negb (distinct_names _));
    eexists; (split; [reflexivity|split; reflexivity]).
Qed.

Lemma newMetric_returns (metricName metricDesc fcgiURI : string) :
  exists d, newMetric metricName metricDesc fcgiURI = Some d /\
    fqName d = BuildFQName namespace "" metricName.
Proof.
  unfold newMetric.
  destruct (NewDesc_returns (BuildFQName namespace "" metricName) metricDesc
              [] [("fcgi_uri", fcgiURI)]) as (d & Hd & Hn & _).
  exists d. split; assumption.
Qed.

Lemma newMetric_not_nil (metricName metricDesc fcgiURI : string) :
  newMetric metricName metricDesc fcgiURI <> None.
Proof.
  destruct (newMetric_returns metricName metricDesc fcgiURI) as (d & -> & _).
  discriminate.
Qed.

Lemma newMetric_prefixed (metricName metricDesc fcgiURI : string) :
  prefix "opcache_" (BuildFQName namespace "" metricName) = true ->
  exists d, newMetric metricName metricDesc fcgiURI = Some d /\
    prefix "opcache_" (fqName d) = true.
Proof.
  intros H.
  destruct (newMetric_returns metricName metricDesc fcgiURI) as (d & Hd & Hn).
  exists d. rewrite Hn. split; assumption.
Qed.

Lemma desc_name_newMetric (metricName metricDesc fcgiURI : string) :
  desc_name (newMetric metricName metricDesc fcgiURI)
    = BuildFQName namespace "" metricName.
Proof.
  destruct (newMetric_returns metricName metricDesc fcgiURI) as (d & -> & Hn).
  exact Hn.
Qed.

(** The descriptor [newMetric] builds for a valid metric name: with the
    label and a nil error when the URI is valid UTF-8, with the error and
    no label otherwise. *)
Lemma newMetric_cases (metricName metricDesc fcgiURI : string) :
  IsValidMetricName (BuildFQName namespace "" metricName) = true ->
  utf8_ValidString (BuildFQName namespace "" metricName) = true ->
  newMetric metricName metricDesc fcgiURI =
  Some (if utf8_ValidString fcgiURI
        then mkDesc (BuildFQName namespace "" metricName) metricDesc []
               [("fcgi_uri", fcgiURI)] None
        else mkDesc (BuildFQName namespace "" metricName) metricDesc [] []
               (Some (errors_New ("label value " ++ fcgiURI
                                  ++ " is not valid UTF-8")))).
Proof.
  intros Hname Hutf. unfold newMetric, NewDesc. rewrite Hname.
  cbn [negb find fst snd map List.length].
  replace (checkLabelName "fcgi_uri") with true by (vm_compute; reflexivity).
  cbn [negb]. unfold validateLabelValues.
  cbn [List.length Nat.eqb negb find]. rewrite Hutf. cbn [negb].
  destruct (utf8_ValidString fcgiURI); reflexivity.
Qed.

(** ** Construction *)

(** C10: for every input string and every URL parser, [NewExporter] returns
    a non-nil exporter together with whatever error the parser gave; the
    exporter holds the parser's URL pointer, its 25 descriptor fields are
    all non-nil, and when the URL pointer is nil the exporter cannot be
    polled: [Collect] panics on the nil dereference. *)
Theorem NewExporter_always_constructs
  (url_Parse : string -> ptr URL * option error)
  (rawUri scriptPath : string) :
  let normalized :=
    if strings_Contains rawUri "://" then rawUri else "tcp://" ++ rawUri in
  exists e : Exporter,
    fst (NewExporter url_Parse rawUri scriptPath) = Some e /\
    snd (NewExporter url_Parse rawUri scriptPath)
      = snd (url_Parse normalized) /\
    uri e = fst (url_Parse normalized) /\
    List.length (desc_fields e) = 25%nat /\
    Forall (fun d => d <> None) (desc_fields e) /\
    (uri e = None ->
     forall json_Unmarshal net,
       exists msg, fst (Collect json_Unmarshal net e) = Panic msg).
Proof.
  intros normalized. unfold NewExporter.
  replace (if negb (strings_Contains rawUri "://")
           then "tcp://" ++ rawUri else rawUri) with normalized
    by (unfold normalized; destruct (strings_Contains rawUri "://");
        reflexivity).
  destruct (url_Parse normalized) as [parsedUri parseErr].
  eexists. split; [reflexivity|]. cbn [fst snd uri].
  repeat split.
  - cbn -[newMetric].
    repeat (apply Forall_cons; [apply newMetric_not_nil|]).
    apply Forall_nil.
  - intros ->. intros. eexists. reflexivity.
Qed.

Lemma NewExporter_always_fst
  (url_Parse : string -> ptr URL * option error)
  (rawUri script : string) :
  exists e : Exporter, fst (NewExporter url_Parse rawUri script) = Some e.
Proof.
  unfold NewExporter. destruct (url_Parse _). eexists. reflexivity.
Qed.

(** What [NewExporter] builds, field by field: every descriptor comes from
    [newMetric] applied to the string [rawUri] holds after the fallback. *)
Lemma NewExporter_fields
  (url_Parse : string -> ptr URL * option error)
  (rawUri script : string) (e : Exporter) :
  fst (NewExporter url_Parse rawUri script) = Some e ->
  let normalized :=
    if strings_Contains rawUri "://" then rawUri else "tcp://" ++ rawUri in
  scriptPath e = script /\
  uri e = fst (url_Parse normalized) /\
  desc_fields e =
    map (fun nh => newMetric (fst nh) (snd nh) normalized)
      [ ("enabled", "Is OPcache enabled.");
        ("cache_full", "Is OPcache full.");
        ("restart_pending", "Is restart pending.");
        ("restart_in_progress", "Is restart in progress.");
        ("memory_usage_used_memory", "OPcache used memory.");
        ("memory_usage_free_memory", "OPcache free memory.");
        ("memory_usage_wasted_memory", "OPcache wasted memory.");
        ("memory_usage_current_wasted_percentage",
         "OPcache current wasted percentage.");
        ("interned_strings_usage_buffer_size",
         "OPcache interned string buffer size.");
        ("interned_strings_usage_used_memory",
         "OPcache interned string used memory.");
        ("interned_strings_usage_free_memory",
         "OPcache interned string free memory.");
        ("interned_strings_usage_number_of_strings",
         "OPcache interned string number of strings.");
        ("statistics_num_cached_scripts",
         "OPcache statistics, number of cached scripts.");
        ("statistics_num_cached_keys",
         "OPcache statistics, number of cached keys.");
        ("statistics_max_cached_keys",
         "OPcache statistics, max cached keys.");
        ("statistics_hits", "OPcache statistics, hits.");
        ("statistics_start_time", "OPcache statistics, start time.");
        ("statistics_last_restart_time",
         "OPcache statistics, last restart time");
        ("statistics_oom_restarts", "OPcache statistics, oom restarts");
        ("statistics_hash_restarts", "OPcache statistics, hash restarts");
        ("statistics_manual_restarts",
         "OPcache statistics, manual restarts");
        ("statistics_misses", "OPcache statistics, misses");
        ("statistics_blacklist_misses",
         "OPcache statistics, blacklist misses");
        ("statistics_blacklist_miss_ratio",
         "OPcache statistics, blacklist miss ratio");
        ("statistics_hit_rate", "OPcache statistics, opcache hit rate") ].
Proof.
  intros H normalized. unfold NewExporter in H.
  replace (if negb (strings_Contains rawUri "://")
           then "tcp://" ++ rawUri else rawUri) with normalized in H
    by (unfold normalized; destruct (strings_Contains rawUri "://");
        reflexivity).
  destruct (url_Parse normalized) as [parsedUri parseErr].
  cbn [fst] in H. injection H as <-.
  repeat split.
Qed.

(** The 25 descriptor names are pairwise distinct. *)
Lemma desc_fields_distinct
  (url_Parse : string -> ptr URL * option error)
  (rawUri script : string) (e : Exporter) :
  fst (NewExporter url_Parse rawUri script) = Some e ->
  NoDup (desc_fields e).
Proof.
  intros H. apply NewExporter_fields in H as (_ & _ & ->).
  apply (NoDup_of_map desc_name). rewrite map_map.
  rewrite (map_ext _ (fun nh => BuildFQName namespace "" (fst nh)))
    by (intros nh; apply desc_name_newMetric).
  apply distinct_names_NoDup. reflexivity.
Qed.

(** The descriptors of an exporter whose URI, after the fallback, is valid
    UTF-8: valid, without variable labels, with the URI as their label. *)
Lemma desc_fields_valid
  (url_Parse : string -> ptr URL * option error)
  (rawUri script : string) (e : Exporter) :
  fst (NewExporter url_Parse rawUri script) = Some e ->
  utf8_ValidString
    (if strings_Contains rawUri "://" then rawUri else "tcp://" ++ rawUri)
    = true ->
  Forall (fun d => exists d', d = Some d' /\ err d' = None /\
                     variableLabels d' = [] /\
                     constLabels d'
                       = [("fcgi_uri",
                           if strings_Contains rawUri "://" then rawUri
                           else "tcp://" ++ rawUri)])
    (desc_fields e).
Proof.
  intros H Hutf. apply NewExporter_fields in H as (_ & _ & ->).
  cbn [map fst snd].
  repeat (apply Forall_cons;
          [rewrite newMetric_cases by (vm_compute; reflexivity);
           rewrite Hutf; eexists; split; [reflexivity|];
           split; [reflexivity|]; split; reflexivity|]).
  apply Forall_nil.
Qed.

(** The descriptors of an exporter whose URI is not valid UTF-8: each
    carries an error and no label. *)
Lemma desc_fields_invalid
  (url_Parse : string -> ptr URL * option error)
  (rawUri script : string) (e : Exporter) :
  fst (NewExporter url_Parse rawUri script) = Some e ->
  utf8_ValidString
    (if strings_Contains rawUri "://" then rawUri else "tcp://" ++ rawUri)
    = false ->
  Forall (fun d => exists d', d = Some d' /\ err d' <> None /\
                     constLabels d' = [])
    (desc_fields e).
Proof.
  intros H Hutf. apply NewExporter_fields in H as (_ & _ & ->).
  cbn [map fst snd].
  repeat (apply Forall_cons;
          [rewrite newMetric_cases by (vm_compute; reflexivity);
           rewrite Hutf; eexists; split; [reflexivity|];
           split; [discriminate|reflexivity]|]).
  apply Forall_nil.
Qed.

(** ** [Describe] *)

Lemma Describe_trace (e : Exporter) :
  Describe e = (Returned tt, map EvSendDesc (desc_fields e)).
Proof. reflexivity. Qed.

Lemma described_map_EvSendDesc (l : list (ptr Desc)) :
  described (map EvSendDesc l) = l.
Proof. induction l as [|d l IH]; cbn; [|rewrite IH]; reflexivity. Qed.

(** C7: for every exporter [NewExporter] built, [Describe] returns after
    sending exactly the 25 descriptor fields of the struct, each non-nil,
    pairwise distinct, named [opcache_...] and built at construction; it
    performs no other event (no dial, no request), so it does not depend on
    the target, and a second call sends the same descriptors again. *)
Theorem Describe_sends_25
  (url_Parse : string -> ptr URL * option error)
  (rawUri script : string) (e : Exporter) :
  fst (NewExporter url_Parse rawUri script) = Some e ->
  fst (Describe e) = Returned tt /\
  snd (Describe e) = map EvSendDesc (desc_fields e) /\
  List.length (described (snd (Describe e))) = 25%nat /\
  NoDup (described (snd (Describe e))) /\
  Forall (fun d => exists d', d = Some d' /\ prefix "opcache_" (fqName d') = true)
    (described (snd (Describe e))) /\
  described (snd (Describe e ;; Describe e))
    = (described (snd (Describe e)) ++ described (snd (Describe e)))%list.
Proof.
  intros H. rewrite Describe_trace. cbn [fst snd].
  rewrite described_map_EvSendDesc.
  split; [reflexivity|]. split; [reflexivity|]. split; [reflexivity|].
  split; [exact (desc_fields_distinct _ _ _ _ H)|]. split.
  - apply NewExporter_fields in H as (_ & _ & ->). cbn [map fst snd].
    repeat (apply Forall_cons; [apply newMetric_prefixed; reflexivity|]).
    apply Forall_nil.
  - unfold bind. cbn [fst snd]. rewrite described_app.
    rewrite described_map_EvSendDesc. reflexivity.
Qed.

Lemma example_exporter_constructed :
  fst (NewExporter example_url_Parse "127.0.0.1:9000" "/opcache.php")
    = Some example_exporter.
Proof. reflexivity. Qed.

Lemma Describe_sends_25_witness :
  fst (NewExporter example_url_Parse "127.0.0.1:9000" "/opcache.php")
    = Some example_exporter /\
  fst (Describe example_exporter) = Returned tt /\
  snd (Describe example_exporter)
    = map EvSendDesc (desc_fields example_exporter) /\
  List.length (described (snd (Describe example_exporter))) = 25%nat.
Proof.
  split; [exact example_exporter_constructed|].
  pose proof (Describe_sends_25 example_url_Parse "127.0.0.1:9000"
                "/opcache.php" example_exporter
                example_exporter_constructed) as (H1 & H2 & H3 & _).
  split; [exact H1|]. split; [exact H2|exact H3].
Defined.

(** ** The label *)

(** C2, as the code has it: for a bare [host:port], [NewExporter] returns
    exactly what it returns for [tcp://host:port] (the same parsed URL, so
    the same dial and the same request).  When the URI is valid UTF-8 the
    [fcgi_uri] label of all 25 descriptors is the string with the [tcp://]
    prefix; when it is not, [NewDesc] refuses the label value, and the 25
    descriptors carry an error and no label, for either form. *)
Theorem bare_uri_is_tcp_uri
  (url_Parse : string -> ptr URL * option error)
  (rawUri script : string) :
  strings_Contains rawUri "://" = false ->
  NewExporter url_Parse rawUri script
    = NewExporter url_Parse ("tcp://" ++ rawUri) script /\
  exists e : Exporter,
    fst (NewExporter url_Parse rawUri script) = Some e /\
    (utf8_ValidString rawUri = true ->
     Forall (fun d => fcgi_uri_label d = Some ("tcp://" ++ rawUri))
       (desc_fields e)) /\
    (utf8_ValidString rawUri = false ->
     Forall (fun d => fcgi_uri_label d = None /\
                      exists d', d = Some d' /\ err d' <> None)
       (desc_fields e)) /\
    forall json_Unmarshal net (e' : Exporter),
      fst (NewExporter url_Parse ("tcp://" ++ rawUri) script) = Some e' ->
      getOpcacheStatus json_Unmarshal net e
        = getOpcacheStatus json_Unmarshal net e'.
Proof.
  intros Hbare.
  assert (NewExporter url_Parse rawUri script
          = NewExporter url_Parse ("tcp://" ++ rawUri) script) as E.
  { unfold NewExporter. rewrite Hbare, tcp_prefixed_has_scheme. reflexivity. }
  split; [exact E|].
  destruct (NewExporter_always_fst url_Parse rawUri script) as [e He].
  exists e. split; [exact He|].
  assert (utf8_ValidString ("tcp://" ++ rawUri) = utf8_ValidString rawUri)
    as Hpre by reflexivity.
  split; [|split].
  - intros Hutf.
    pose proof (desc_fields_valid url_Parse rawUri script e He) as Hall.
    rewrite Hbare, Hpre in Hall. specialize (Hall Hutf).
    apply (Forall_impl _ (P := fun d => exists d', d = Some d' /\
             err d' = None /\ variableLabels d' = [] /\
             constLabels d' = [("fcgi_uri", "tcp://" ++ rawUri)]));
      [|exact Hall].
    intros d (d' & -> & _ & _ & Hl). unfold fcgi_uri_label. rewrite Hl.
    reflexivity.
  - intros Hutf.
    pose proof (desc_fields_invalid url_Parse rawUri script e He) as Hall.
    rewrite Hbare, Hpre in Hall. specialize (Hall Hutf).
    apply (Forall_impl _ (P := fun d => exists d', d = Some d' /\
             err d' <> None /\ constLabels d' = []));
      [|exact Hall].
    intros d (d' & -> & Herr & Hl). unfold fcgi_uri_label. rewrite Hl.
    split; [reflexivity|]. exists d'. split; [reflexivity|exact Herr].
  - intros unm net e' He'. rewrite <- E in He'. congruence.
Qed.

Lemma bare_uri_is_tcp_uri_witness :
  strings_Contains "127.0.0.1:9000" "://" = false /\
  NewExporter example_url_Parse "127.0.0.1:9000" "/opcache.php"
    = NewExporter example_url_Parse "tcp://127.0.0.1:9000" "/opcache.php".
Proof.
  split; [reflexivity|].
  exact (proj1 (bare_uri_is_tcp_uri example_url_Parse "127.0.0.1:9000"
                  "/opcache.php" eq_refl)).
Defined.

(** C2, as the claim has it, fails on the old default value: the label of
    the exporter built from [127.0.0.1:9000] is [tcp://127.0.0.1:9000], not
    the string passed in, and it is the label the [tcp://] form gets. *)
Lemma bare_uri_label_not_original :
  strings_Contains "127.0.0.1:9000" "://" = false /\
  exists e e' : Exporter,
    fst (NewExporter example_url_Parse "127.0.0.1:9000" "/opcache.php")
      = Some e /\
    fst (NewExporter example_url_Parse "tcp://127.0.0.1:9000" "/opcache.php")
      = Some e' /\
    Forall (fun d => fcgi_uri_label d <> Some "127.0.0.1:9000")
      (desc_fields e) /\
    map fcgi_uri_label (desc_fields e) = map fcgi_uri_label (desc_fields e').
Proof.
  split; [reflexivity|]. eexists. eexists.
  split; [reflexivity|]. split; [reflexivity|]. split.
  - repeat constructor; discriminate.
  - reflexivity.
Qed.

(** ** [getOpcacheStatus] *)

Section Poll.

Variable json_Unmarshal : bytes -> OPcacheStatus -> OPcacheStatus * option error.
Variable net : Network.
Variable e : Exporter.
Variable u : URL.
Hypothesis uri_set : uri e = Some u.

(** The poll, stage by stage. *)
Lemma getOpcacheStatus_stages :
  getOpcacheStatus json_Unmarshal net e =
  match Dial net (Scheme u) (dial_address u) with
  | inr err => (Returned (None, Some err), [EvDial (Scheme u) (dial_address u)])
  | inl client =>
      match Get net client [("SCRIPT_FILENAME", scriptPath e)] with
      | inr err =>
          (Returned (None, Some err),
           [EvDial (Scheme u) (dial_address u); EvRequest client (Get_params [("SCRIPT_FILENAME", scriptPath e)]) None])
      | inl resp =>
          (Returned
             match stream_err (Body resp) with
             | Some err => (None, Some err)
             | None =>
                 match snd (json_Unmarshal (stream (Body resp)) new_OPcacheStatus) with
                 | Some _ => (None, Some (errors_New (stream (Body resp))))
                 | None =>
                     (Some (fst (json_Unmarshal (stream (Body resp))
                                   new_OPcacheStatus)), None)
                 end
             end,
           [EvDial (Scheme u) (dial_address u); EvRequest client (Get_params [("SCRIPT_FILENAME", scriptPath e)]) None;
            EvReadAll (Body resp)])
      end
  end.
Proof.
  unfold getOpcacheStatus, dial_address, Get. rewrite uri_set. cbn.
  destruct (Dial net _ _) as [client|err]; [|reflexivity]. cbn.
  destruct (Request net client _ None) as [resp|err]; [|reflexivity]. cbn.
  destruct (stream_err (Body resp)); [reflexivity|].
  destruct (json_Unmarshal _ _) as [s [derr|]]; reflexivity.
Qed.

Lemma getOpcacheStatus_returns :
  exists r, fst (getOpcacheStatus json_Unmarshal net e) = Returned r /\
    ((exists s, r = (Some s, None)) \/ (exists err, r = (None, Some err))).
Proof.
  rewrite getOpcacheStatus_stages.
  destruct (Dial net _ _) as [client|err];
    [|eexists; split; [reflexivity|right; eexists; reflexivity]].
  destruct (Get net client [("SCRIPT_FILENAME", scriptPath e)]) as [resp|err];
    [|eexists; split; [reflexivity|right; eexists; reflexivity]].
  cbn [fst]. eexists. split; [reflexivity|].
  destruct (stream_err (Body resp)); [right; eexists; reflexivity|].
  destruct (snd (json_Unmarshal _ _));
    [right|left]; eexists; reflexivity.
Qed.

Lemma getOpcacheStatus_quiet :
  sent (snd (getOpcacheStatus json_Unmarshal net e)) = [] /\
  logged (snd (getOpcacheStatus json_Unmarshal net e)) = [].
Proof.
  rewrite getOpcacheStatus_stages.
  destruct (Dial net _ _) as [client|err]; [|split; reflexivity].
  destruct (Get net client [("SCRIPT_FILENAME", scriptPath e)]) as [resp|err]; split; reflexivity.
Qed.

End Poll.

(** C5: with a parsed URL, [getOpcacheStatus] always returns, and what it
    returns is either a snapshot with a nil error or a nil snapshot with an
    error, never a snapshot together with an error.  It returns the decoded
    snapshot exactly when the dial, the request, the read and the decoding
    all succeed, and the error of the first stage that fails otherwise;
    when the decoding fails the message of the returned error is the
    response body, byte for byte. *)
Theorem getOpcacheStatus_all_or_nothing
  (json_Unmarshal : bytes -> OPcacheStatus -> OPcacheStatus * option error)
  (net : Network) (e : Exporter) (u : URL) :
  uri e = Some u ->
  exists r : ptr OPcacheStatus * option error,
    fst (getOpcacheStatus json_Unmarshal net e) = Returned r /\
    ((exists s, r = (Some s, None)) \/ (exists err, r = (None, Some err))) /\
    (forall err, Dial net (Scheme u) (dial_address u) = inr err ->
       r = (None, Some err)) /\
    (forall client err,
       Dial net (Scheme u) (dial_address u) = inl client ->
       Get net client [("SCRIPT_FILENAME", scriptPath e)] = inr err ->
       r = (None, Some err)) /\
    (forall client resp,
       Dial net (Scheme u) (dial_address u) = inl client ->
       Get net client [("SCRIPT_FILENAME", scriptPath e)] = inl resp ->
       let content := stream (Body resp) in
       (forall err, stream_err (Body resp) = Some err ->
          r = (None, Some err)) /\
       (forall status' err,
          stream_err (Body resp) = None ->
          json_Unmarshal content new_OPcacheStatus = (status', Some err) ->
          exists err', r = (None, Some err') /\ Error err' = content) /\
       (forall status',
          stream_err (Body resp) = None ->
          json_Unmarshal content new_OPcacheStatus = (status', None) ->
          r = (Some status', None))).
Proof.
  intros Huri.
  destruct (getOpcacheStatus_returns json_Unmarshal net e u Huri)
    as (r & Hr & Hshape).
  exists r. split; [exact Hr|]. split; [exact Hshape|].
  rewrite (getOpcacheStatus_stages json_Unmarshal net e u Huri) in Hr.
  split; [|split; [|intros client resp Hd Hg content; repeat split]].
  - intros err Hd. rewrite Hd in Hr. cbn in Hr. congruence.
  - intros client err Hd Hg. rewrite Hd, Hg in Hr. cbn in Hr. congruence.
  - intros err Hs. rewrite Hd, Hg in Hr. cbn [fst] in Hr.
    rewrite Hs in Hr. congruence.
  - intros status' err Hs Hj. rewrite Hd, Hg in Hr. cbn [fst] in Hr.
    fold content in Hr. rewrite Hs, Hj in Hr. cbn in Hr.
    injection Hr as <-. eexists. split; reflexivity.
  - intros status' Hs Hj. rewrite Hd, Hg in Hr. cbn [fst] in Hr.
    fold content in Hr. rewrite Hs, Hj in Hr. cbn in Hr. congruence.
Qed.

Lemma getOpcacheStatus_all_or_nothing_witness :
  uri example_exporter = Some (mkURL "tcp" "127.0.0.1:9000" "") /\
  exists r : ptr OPcacheStatus * option error,
    fst (getOpcacheStatus example_json_Unmarshal
           (net_serving "<html>502</html>") example_exporter) = Returned r /\
    ((exists s, r = (Some s, None)) \/ (exists err, r = (None, Some err))).
Proof.
  split; [reflexivity|].
  destruct (getOpcacheStatus_all_or_nothing example_json_Unmarshal
              (net_serving "<html>502</html>") example_exporter
              (mkURL "tcp" "127.0.0.1:9000" "") eq_refl)
    as (r & Hr & Hshape & _).
  exists r. split; [exact Hr|exact Hshape].
Defined.

(** The four failures and the success, on the example exporter. *)
Example getOpcacheStatus_outcomes :
  fst (getOpcacheStatus example_json_Unmarshal net_refusing example_exporter)
    = Returned (None, Some (errors_New "dial tcp: connection refused")) /\
  fst (getOpcacheStatus example_json_Unmarshal net_resetting example_exporter)
    = Returned (None, Some (errors_New "connection reset by peer")) /\
  fst (getOpcacheStatus example_json_Unmarshal (net_truncating "{")
         example_exporter)
    = Returned (None, Some (errors_New "unexpected EOF")) /\
  fst (getOpcacheStatus example_json_Unmarshal
         (net_serving "<html>502</html>") example_exporter)
    = Returned (None, Some (errors_New "<html>502</html>")) /\
  fst (getOpcacheStatus example_json_Unmarshal (net_serving "{}")
         example_exporter)
    = Returned (Some new_OPcacheStatus, None).
Proof. repeat split. Qed.

(** ** [Collect] *)

(** One [ch <-] line of [Collect] for a valid descriptor. *)
Lemma gauge_step (status : OPcacheStatus) (d : ptr Desc) (d' : Desc)
  (v : OPcacheStatus -> float64) :
  d = Some d' -> err d' = None -> variableLabels d' = [] ->
  (s <- deref (Some status) ;;
   m <- MustNewConstMetric d GaugeValue (v s) [] ;;
   send m)
  = (Returned tt, [EvSend (constMetric d' GaugeValue (v status))]).
Proof.
  intros -> He Hv. unfold MustNewConstMetric, bind, deref, ret, send, emit.
  cbn [fst snd]. rewrite He, Hv. reflexivity.
Qed.

Lemma publish_trace (e : Exporter) (s : OPcacheStatus) :
  Forall (fun d => exists d', d = Some d' /\ err d' = None /\
                     variableLabels d' = [])
    (desc_fields e) ->
  exists ms : list Metric,
    publish e (Some s) = (Returned tt, map EvSend ms) /\
    map sample_view ms = map row_view (collected_fields e s).
Proof.
  intros H. unfold desc_fields in H.
  repeat match goal with
  | H : Forall _ (_ :: _) |- _ =>
      let H1 := fresh "H" in
      pose proof (Forall_inv H) as H1; cbn beta in H1;
      apply Forall_inv_tail in H
  end.
  clear H.
  repeat match goal with
  | H : exists d', _ = Some d' /\ _ |- _ =>
      let d := fresh "d" in
      let Hd := fresh "Hd" in
      let He := fresh "He" in
      let Hv := fresh "Hv" in
      destruct H as (d & Hd & He & Hv)
  end.
  unfold publish. cbv zeta.
  repeat match goal with
  | Hd : ?f e = Some ?d, He : err ?d = None, Hv : variableLabels ?d = [] |- _ =>
      rewrite (gauge_step s (f e) d _ Hd He Hv); clear He Hv
  end.
  match goal with
  | |- exists ms, ?p = _ /\ _ => exists (sent (snd p))
  end.
  split; [reflexivity|].
  unfold collected_fields.
  repeat match goal with
  | Hd : _ e = Some _ |- _ => try rewrite Hd; clear Hd
  end.
  reflexivity.
Qed.

(** With an invalid first descriptor the first [MustNewConstMetric] panics:
    nothing is sent. *)
Lemma publish_panics (e : Exporter) (s : OPcacheStatus) (d : Desc)
  (er : error) :
  enabledDesc e = Some d -> err d = Some er ->
  publish e (Some s) = (Panic (Error er), []).
Proof.
  intros Hd He. unfold publish. cbv zeta.
  match goal with
  | |- bind ?c _ = _ => assert (c = (Panic (Error er), [])) as ->
  end.
  { rewrite Hd. unfold MustNewConstMetric, bind, deref, ret.
    cbn [fst snd]. rewrite He. reflexivity. }
  reflexivity.
Qed.

Lemma sent_map_EvSend (ms : list Metric) : sent (map EvSend ms) = ms.
Proof. induction ms as [|m ms IH]; cbn; [|rewrite IH]; reflexivity. Qed.

Lemma logged_map_EvSend (ms : list Metric) : logged (map EvSend ms) = [].
Proof. induction ms as [|m ms IH]; cbn; [reflexivity|exact IH]. Qed.

(** [Collect] once the poll has returned [r]: the lock, the events of the
    poll, the log line when [r] carries an error, the sends for the
    snapshot published, the unlock. *)
Lemma Collect_trace
  (json_Unmarshal : bytes -> OPcacheStatus -> OPcacheStatus * option error)
  (net : Network) (e : Exporter) (r : ptr OPcacheStatus * option error) :
  fst (getOpcacheStatus json_Unmarshal net e) = Returned r ->
  Collect json_Unmarshal net e =
  (fst (publish e (substituted r)),
   [EvLock] ++ snd (getOpcacheStatus json_Unmarshal net e)
     ++ match snd r with Some err => [EvLog err] | None => [] end
     ++ snd (publish e (substituted r)) ++ [EvUnlock])%list.
Proof.
  intros Hr. unfold Collect, locked, bind, log_Print, emit, ret.
  rewrite Hr.
  destruct r as [status [err|]]; unfold substituted; cbn [fst snd app];
    rewrite ?app_nil_r, <- ?app_assoc; reflexivity.
Qed.

(** A poll that returned [r], of a constructed exporter whose URI is valid
    UTF-8: [Collect] returns, logs the error of [r] if there is one, and
    sends one gauge per row of the table, for the snapshot of [r] or for
    the zero snapshot. *)
Lemma Collect_samples
  (url_Parse : string -> ptr URL * option error)
  (json_Unmarshal : bytes -> OPcacheStatus -> OPcacheStatus * option error)
  (net : Network) (rawUri script : string) (e : Exporter)
  (r : ptr OPcacheStatus * option error) (s : OPcacheStatus) :
  fst (NewExporter url_Parse rawUri script) = Some e ->
  utf8_ValidString
    (if strings_Contains rawUri "://" then rawUri else "tcp://" ++ rawUri)
    = true ->
  fst (getOpcacheStatus json_Unmarshal net e) = Returned r ->
  substituted r = Some s ->
  fst (Collect json_Unmarshal net e) = Returned tt /\
  map sample_view (sent (snd (Collect json_Unmarshal net e)))
    = map row_view (collected_fields e s) /\
  logged (snd (Collect json_Unmarshal net e))
    = match snd r with Some err => [err] | None => [] end.
Proof.
  intros He Hutf Hr Hs.
  assert (Forall (fun d => exists d', d = Some d' /\ err d' = None /\
                             variableLabels d' = [])
            (desc_fields e)) as Hnn.
  { apply (Forall_impl _ (P := fun d => exists d', d = Some d' /\
             err d' = None /\ variableLabels d' = [] /\
             constLabels d'
               = [("fcgi_uri",
                   if strings_Contains rawUri "://" then rawUri
                   else "tcp://" ++ rawUri)]));
      [|exact (desc_fields_valid url_Parse rawUri script e He Hutf)].
    intros d (d' & Hd & Herr & Hv & _). exists d'.
    split; [exact Hd|]. split; assumption. }
  destruct (publish_trace e s Hnn) as (ms & Hp & Hv).
  assert (exists u, uri e = Some u) as [u Hu].
  { destruct (uri e) as [u|] eqn:Hu; [eauto|].
    unfold getOpcacheStatus in Hr. rewrite Hu in Hr. discriminate. }
  destruct (getOpcacheStatus_quiet json_Unmarshal net e u Hu) as [Hq1 Hq2].
  rewrite (Collect_trace _ _ _ _ Hr), Hs, Hp. cbn [fst snd].
  split; [reflexivity|].
  rewrite !sent_app, !logged_app, Hq1, Hq2, sent_map_EvSend,
    logged_map_EvSend.
  split.
  - destruct (snd r); cbn; rewrite app_nil_r; exact Hv.
  - destruct (snd r); reflexivity.
Qed.

(** A poll that returned [r], of a constructed exporter whose URI is not
    valid UTF-8: [Collect] logs the error of [r] if there is one, then
    panics in the first [MustNewConstMetric], having sent nothing. *)
Lemma Collect_invalid
  (url_Parse : string -> ptr URL * option error)
  (json_Unmarshal : bytes -> OPcacheStatus -> OPcacheStatus * option error)
  (net : Network) (rawUri script : string) (e : Exporter)
  (r : ptr OPcacheStatus * option error) (s : OPcacheStatus) :
  fst (NewExporter url_Parse rawUri script) = Some e ->
  utf8_ValidString
    (if strings_Contains rawUri "://" then rawUri else "tcp://" ++ rawUri)
    = false ->
  fst (getOpcacheStatus json_Unmarshal net e) = Returned r ->
  substituted r = Some s ->
  (exists msg, fst (Collect json_Unmarshal net e) = Panic msg) /\
  sent (snd (Collect json_Unmarshal net e)) = [] /\
  logged (snd (Collect json_Unmarshal net e))
    = match snd r with Some err => [err] | None => [] end.
Proof.
  intros He Hutf Hr Hs.
  pose proof (desc_fields_invalid url_Parse rawUri script e He Hutf) as Hall.
  apply Forall_inv in Hall. destruct Hall as (d & Hd & Herr & _).
  destruct (err d) as [er|] eqn:Her; [clear Herr|congruence].
  pose proof (publish_panics e s d er Hd Her) as Hp.
  assert (exists u, uri e = Some u) as [u Hu].
  { destruct (uri e) as [u|] eqn:Hu; [eauto|].
    unfold getOpcacheStatus in Hr. rewrite Hu in Hr. discriminate. }
  destruct (getOpcacheStatus_quiet json_Unmarshal net e u Hu) as [Hq1 Hq2].
  rewrite (Collect_trace _ _ _ _ Hr), Hs, Hp. cbn [fst snd].
  split; [eexists; reflexivity|].
  rewrite !sent_app, !logged_app, Hq1, Hq2.
  split; destruct (snd r); reflexivity.
Qed.

(** C9: when two polls of one exporter return results that stand for the
    same snapshot (the same decoded snapshot, or an error either time),
    the two [Collect] calls send the same samples: the same descriptors
    with the same values, in the same order. *)
Theorem Collect_deterministic
  (json_Unmarshal : bytes -> OPcacheStatus -> OPcacheStatus * option error)
  (net1 net2 : Network) (e : Exporter)
  (r1 r2 : ptr OPcacheStatus * option error) :
  fst (getOpcacheStatus json_Unmarshal net1 e) = Returned r1 ->
  fst (getOpcacheStatus json_Unmarshal net2 e) = Returned r2 ->
  substituted r1 = substituted r2 ->
  fst (Collect json_Unmarshal net1 e) = fst (Collect json_Unmarshal net2 e) /\
  sent (snd (Collect json_Unmarshal net1 e))
    = sent (snd (Collect json_Unmarshal net2 e)).
Proof.
  intros H1 H2 Hs.
  assert (exists u, uri e = Some u) as [u Hu].
  { destruct (uri e) as [u|] eqn:Hu; [eauto|].
    unfold getOpcacheStatus in H1. rewrite Hu in H1. discriminate. }
  destruct (getOpcacheStatus_quiet json_Unmarshal net1 e u Hu) as [Hq1 _].
  destruct (getOpcacheStatus_quiet json_Unmarshal net2 e u Hu) as [Hq2 _].
  rewrite (Collect_trace _ _ _ _ H1), (Collect_trace _ _ _ _ H2), Hs.
  cbn [fst snd]. split; [reflexivity|].
  rewrite !sent_app, Hq1, Hq2.
  destruct (snd r1), (snd r2); reflexivity.
Qed.

Lemma Collect_deterministic_witness :
  fst (getOpcacheStatus example_json_Unmarshal (net_serving "{}")
         example_exporter)
    = Returned (Some new_OPcacheStatus, None) /\
  fst (getOpcacheStatus example_json_Unmarshal net_refusing example_exporter)
    = Returned (None, Some (errors_New "dial tcp: connection refused")) /\
  substituted (Some new_OPcacheStatus, None)
    = substituted (None, Some (errors_New "dial tcp: connection refused")) /\
  sent (snd (Collect example_json_Unmarshal (net_serving "{}")
               example_exporter))
    = sent (snd (Collect example_json_Unmarshal net_refusing
                   example_exporter)).
Proof.
  split; [reflexivity|]. split; [reflexivity|]. split; [reflexivity|].
  exact (proj2 (Collect_deterministic example_json_Unmarshal
                  (net_serving "{}") net_refusing example_exporter
                  (Some new_OPcacheStatus, None)
                  (None, Some (errors_New "dial tcp: connection refused"))
                  eq_refl eq_refl eq_refl)).
Defined.

(** ** Values *)

Lemma digits2_pos_bounds (m : positive) :
  2 ^ (Zpos (digits2_pos m) - 1) <= Zpos m < 2 ^ Zpos (digits2_pos m).
Proof.
  induction m as [m IH|m IH|]; cbn [digits2_pos].
  - rewrite Pos2Z.inj_succ.
    replace (Z.succ (Zpos (digits2_pos m)) - 1)
      with (Zpos (digits2_pos m) - 1 + 1) by lia.
    rewrite Z.pow_succ_r by lia.
    rewrite Z.pow_add_r by lia. lia.
  - rewrite Pos2Z.inj_succ.
    replace (Z.succ (Zpos (digits2_pos m)) - 1)
      with (Zpos (digits2_pos m) - 1 + 1) by lia.
    rewrite Z.pow_succ_r by lia.
    rewrite Z.pow_add_r by lia. lia.
  - cbn. lia.
Qed.

Lemma iter_xO_value (m k : positive) :
  Zpos (Pos.iter xO m k) = Zpos m * 2 ^ Zpos k.
Proof.
  induction k as [|k IH] using Pos.peano_ind.
  - cbn. lia.
  - rewrite Pos.iter_succ, Pos2Z.inj_xO, IH, Pos2Z.inj_succ,
      Z.pow_succ_r by lia.
    lia.
Qed.

Lemma iter_xO_digits (m k : positive) :
  digits2_pos (Pos.iter xO m k) = (digits2_pos m + k)%positive.
Proof.
  induction k as [|k IH] using Pos.peano_ind.
  - cbn. lia.
  - rewrite Pos.iter_succ. cbn [digits2_pos]. rewrite IH. lia.
Qed.

(** A mantissa of full width at an exponent in range is already rounded. *)
Lemma binary_round_aux_canonical (s : bool) (m : positive) (e : Z) :
  Zpos (digits2_pos m) = 53 -> -1074 <= e <= 971 ->
  binary_round_aux 53 1024 s (Zpos m) e loc_Exact = S754_finite s m e.
Proof.
  intros Hd He.
  assert (fexp 53 1024 (53 + e) - e = 0) as Hf.
  { unfold fexp, emin. lia. }
  unfold binary_round_aux, shr_fexp. cbn [Zdigits2 shr_record_of_loc].
  rewrite Hd, Hf.
  cbn [shr shr_m loc_of_shr_record round_nearest_even Zdigits2].
  rewrite Hd, Hf. cbn [shr shr_m].
  replace (e <=? 1024 - 53)%Z with true by (symmetry; apply Z.leb_le; lia).
  reflexivity.
Qed.

(** Below [2^53] rounding only shifts the mantissa to full width. *)
Lemma binary_round_small (s : bool) (m : positive) :
  Zpos m < 2 ^ 53 ->
  exists m' e, binary_round 53 1024 s m 0 = S754_finite s m' e /\
    -1074 <= e /\ Zpos m' * 2 ^ (e + 1074) = Zpos m * 2 ^ 1074.
Proof.
  intros Hm.
  pose proof (digits2_pos_bounds m) as [Hlo Hhi].
  assert (Zpos (digits2_pos m) <= 53) as Hd.
  { destruct (Z_le_gt_dec (Zpos (digits2_pos m)) 53) as [|Hgt];
      [assumption|].
    exfalso. assert (2 ^ 53 <= 2 ^ (Zpos (digits2_pos m) - 1)).
    { apply Z.pow_le_mono_r; lia. }
    lia. }
  unfold binary_round, shl_align.
  assert (fexp 53 1024 (Zpos (digits2_pos m) + 0)
          = Zpos (digits2_pos m) - 53) as Hf.
  { unfold fexp, emin. lia. }
  rewrite Hf.
  destruct (Zpos (digits2_pos m) - 53 - 0) as [|p|p] eqn:Hp; [| lia |].
  - exists m, 0. rewrite binary_round_aux_canonical by lia.
    split; [reflexivity|]. split; [lia|]. reflexivity.
  - exists (Pos.iter xO m p), (Zpos (digits2_pos m) - 53).
    rewrite binary_round_aux_canonical.
    + split; [reflexivity|]. split; [lia|].
      rewrite iter_xO_value. rewrite <- Z.mul_assoc, <- Z.pow_add_r by lia.
      f_equal. f_equal. lia.
    + rewrite iter_xO_digits. lia.
    + lia.
Qed.

(** [float64(v)] is [v] itself for every integer of magnitude at most
    [2^53]. *)
Lemma float64_of_int64_exact (v : int64) :
  - 2 ^ 53 <= v <= 2 ^ 53 -> float64_is_int (float64_of_int64 v) v.
Proof.
  intros Hv. unfold float64_of_int64, float64_prec, float64_emax.
  destruct v as [|m|m]; cbn [binary_normalize float64_is_int].
  - reflexivity.
  - destruct (Z.eq_dec (Zpos m) (2 ^ 53)) as [E|N].
    + injection E as ->. vm_compute. split; [discriminate|reflexivity].
    + destruct (binary_round_small false m) as (m' & e & -> & He & Hval);
        [lia|].
      cbn [float64_is_int cond_Zopp]. split; assumption.
  - destruct (Z.eq_dec (Zpos m) (2 ^ 53)) as [E|N].
    + injection E as ->. vm_compute. split; [discriminate|reflexivity].
    + destruct (binary_round_small true m) as (m' & e & -> & He & Hval);
        [lia|].
      cbn [float64_is_int cond_Zopp]. split; [assumption|].
      rewrite Pos2Z.opp_pos. lia.
Qed.

(** ** Rounding above [2^53] *)

(** [iter_pos] is iteration by the number it stands for. *)
Lemma iter_pos_nat {A : Type} (f : A -> A) (p : positive) (x : A) :
  iter_pos f p x = Nat.iter (Pos.to_nat p) f x.
Proof.
  revert x. induction p as [p IH|p IH|]; intros x; cbn [iter_pos].
  - rewrite !IH, Pos2Nat.inj_xI.
    replace (S (2 * Pos.to_nat p))
      with (Pos.to_nat p + Pos.to_nat p + 1)%nat by lia.
    rewrite !Nat.iter_add. reflexivity.
  - rewrite !IH, Pos2Nat.inj_xO.
    replace (2 * Pos.to_nat p)%nat
      with (Pos.to_nat p + Pos.to_nat p)%nat by lia.
    rewrite Nat.iter_add. reflexivity.
  - reflexivity.
Qed.

(** After [k] shifts the mantissa is the quotient by [2^k], and the round
    and sticky bits locate the remainder. *)
Lemma shr_1_iter (x : Z) (k : nat) :
  0 <= x ->
  let mrs := Nat.iter k shr_1 (Build_shr_record x false false) in
  0 <= shr_m mrs /\
  exists t, 0 <= t < 2 ^ Z.of_nat k /\
    2 * x = 2 ^ (Z.of_nat k + 1) * shr_m mrs
            + (if shr_r mrs then 2 ^ Z.of_nat k else 0) + t /\
    (shr_s mrs = true <-> 0 < t).
Proof.
  intros Hx. induction k as [|k IH]; cbv zeta.
  - cbn. split; [exact Hx|]. exists 0. split; [lia|]. split; [lia|].
    split; [discriminate|lia].
  - rewrite Nat.iter_succ. cbv zeta in IH.
    destruct (Nat.iter k shr_1 _) as [m r s].
    cbn [shr_m shr_r shr_s] in IH. destruct IH as (Hm & t & Ht & Heq & Hs).
    rewrite Nat2Z.inj_succ.
    replace (Z.succ (Z.of_nat k) + 1) with (Z.of_nat k + 1 + 1) by lia.
    rewrite (Z.pow_add_r 2 (Z.of_nat k + 1) 1) by lia.
    rewrite Z.pow_succ_r by lia.
    rewrite (Z.pow_add_r 2 (Z.of_nat k) 1) in Heq |- * by lia.
    change (2 ^ 1) with 2 in *.
    assert (0 < 2 ^ Z.of_nat k) as HP by (apply Z.pow_pos_nonneg; lia).
    remember (2 ^ Z.of_nat k) as P eqn:EP. clear EP.
    assert (exists rho, 0 <= rho < 2 * P /\ 2 * x = P * 2 * m + rho /\
              (orb r s = true <-> 0 < rho)) as (rho & Hrho & Heq' & Hs').
    { exists ((if r then P else 0) + t). split; [destruct r; lia|].
      split; [lia|]. destruct r; cbn [orb]; [split; [lia|reflexivity]|].
      rewrite Hs. lia. }
    clear Heq Hs Ht t.
    destruct m as [|[m|m|]|m]; cbn [shr_1 shr_m shr_r shr_s];
      [| | | |exfalso; apply Hm; reflexivity].
    + split; [apply Z.le_refl|]. exists rho. split; [lia|].
      split; [lia|exact Hs'].
    + split; [apply Pos2Z.is_nonneg|]. exists rho. split; [lia|].
      split; [rewrite (Pos2Z.inj_xI m) in Heq'; lia|exact Hs'].
    + split; [apply Pos2Z.is_nonneg|]. exists rho. split; [lia|].
      split; [rewrite (Pos2Z.inj_xO m) in Heq'; lia|exact Hs'].
    + split; [apply Z.le_refl|]. exists rho. split; [lia|].
      split; [lia|exact Hs'].
Qed.

(** A number between [2^(k-1)] and [2^k] has [k] binary digits. *)
Lemma digits2_pos_of_range (a : positive) (k : Z) :
  2 ^ (k - 1) <= Zpos a < 2 ^ k -> Zpos (digits2_pos a) = k.
Proof.
  intros [Hlo Hhi]. pose proof (digits2_pos_bounds a) as [Dlo Dhi].
  assert (0 <= k) as Hk.
  { destruct (Z_lt_le_dec k 0) as [Hneg|]; [|assumption].
    rewrite (Z.pow_neg_r 2 k Hneg) in Hhi. lia. }
  destruct (Z.lt_trichotomy (Zpos (digits2_pos a)) k) as [Hlt|[Heq|Hgt]].
  - exfalso. assert (2 ^ Zpos (digits2_pos a) <= 2 ^ (k - 1))
      by (apply Z.pow_le_mono_r; lia). lia.
  - exact Heq.
  - exfalso. assert (2 ^ k <= 2 ^ (Zpos (digits2_pos a) - 1))
      by (apply Z.pow_le_mono_r; lia). lia.
Qed.

(** Above [2^53] the conversion shifts the mantissa right by [n] bits and
    rounds it to nearest, ties to even: the result is within half of
    [2^n] of the integer. *)
Lemma binary_round_large (s : bool) (m : positive) :
  2 ^ 53 <= Zpos m < 2 ^ 63 ->
  exists (m' : positive) (e n : Z),
    binary_round 53 1024 s m 0 = S754_finite s m' e /\
    1 <= n <= 10 /\ n <= e <= n + 1 /\
    2 ^ (n + 52) <= Zpos m /\
    2 * Z.abs (Zpos m' * 2 ^ e - Zpos m) <= 2 ^ n /\
    Zpos (digits2_pos m') = 53.
Proof.
  intros [Hlo Hhi].
  pose proof (digits2_pos_bounds m) as [Dlo Dhi].
  set (d := Zpos (digits2_pos m)) in *.
  assert (54 <= d <= 63) as Hd.
  { split.
    - destruct (Z_lt_le_dec d 54) as [Hlt|]; [|assumption]. exfalso.
      assert (2 ^ d <= 2 ^ 53) by (apply Z.pow_le_mono_r; lia). lia.
    - destruct (Z_lt_le_dec 63 d) as [Hlt|]; [|assumption]. exfalso.
      assert (2 ^ 63 <= 2 ^ (d - 1)) by (apply Z.pow_le_mono_r; lia). lia. }
  assert (exists p, d - 53 = Zpos p) as [p Hp].
  { destruct (d - 53) as [|p|p] eqn:E; [lia|exists p; reflexivity|lia]. }
  (* the powers of two in play, in terms of P = 2^n *)
  assert (2 ^ (d - 1) = 2 ^ 52 * 2 ^ Zpos p) as E1.
  { rewrite <- Z.pow_add_r by lia. f_equal. lia. }
  assert (2 ^ d = 2 ^ 53 * 2 ^ Zpos p) as E2.
  { rewrite <- Z.pow_add_r by lia. f_equal. lia. }
  assert (2 ^ (Zpos p + 1) = 2 * 2 ^ Zpos p) as E3.
  { rewrite Z.pow_add_r by lia. lia. }
  assert (0 < 2 ^ Zpos p) as HP by (apply Z.pow_pos_nonneg; lia).
  (* the first shift *)
  unfold binary_round, shl_align.
  assert (fexp 53 1024 (d + 0) = Zpos p) as Hf.
  { unfold fexp, emin. lia. }
  fold d. rewrite Hf. change (Zpos p - 0) with (Zpos p). cbv iota beta.
  unfold binary_round_aux, shr_fexp.
  cbn [Zdigits2 shr_record_of_loc]. fold d. rewrite Hf.
  change (Zpos p - 0) with (Zpos p). cbn [shr]. rewrite iter_pos_nat.
  destruct (shr_1_iter (Zpos m) (Pos.to_nat p) (Pos2Z.is_nonneg m))
    as (Hq & t & Ht & Heq & Hs).
  rewrite positive_nat_Z in Ht, Heq. rewrite E3 in Heq.
  destruct (Nat.iter (Pos.to_nat p) shr_1 _) as [q r s0].
  cbn [shr_m shr_r shr_s] in Hq, Heq, Hs.
  rewrite E1 in Dlo. rewrite E2 in Dhi.
  remember (2 ^ Zpos p) as P eqn:EP.
  assert (2 ^ 52 <= q < 2 ^ 53) as Hqr.
  { change (2 ^ 52) with 4503599627370496 in *.
    change (2 ^ 53) with 9007199254740992 in *.
    assert (0 <= (if r then P else 0) + t < 2 * P) as Hrho
      by (destruct r; lia).
    split; nia. }
  (* rounding to nearest, ties to even *)
  set (q' := round_nearest_even q
               (loc_of_shr_record (Build_shr_record q r s0))).
  assert (q <= q' <= q + 1 /\ 2 * Z.abs (q' * P - Zpos m) <= P) as [Hq' Herr].
  { unfold q'. destruct r, s0; cbn [loc_of_shr_record round_nearest_even].
    - assert (0 < t) by (apply Hs; reflexivity). split; [lia|nia].
    - assert (t = 0).
      { destruct (Z.eq_dec t 0) as [|N]; [assumption|].
        assert (false = true) by (apply Hs; lia). discriminate. }
      destruct (Z.even q); split; try lia; nia.
    - split; [lia|nia].
    - split; [lia|nia]. }
  cbn [shr_m]. fold q'.
  assert (1 <= Zpos p <= 10) as Hn by lia.
  destruct (Z.eq_dec q' (2 ^ 53)) as [Ecarry|Hnocarry].
  - (* the rounded mantissa is 2^53: one more shift *)
    rewrite Ecarry. change (Zdigits2 (2 ^ 53)) with 54.
    assert (fexp 53 1024 (54 + (0 + Zpos p)) - (0 + Zpos p) = 1) as Hf2.
    { unfold fexp, emin. lia. }
    rewrite Hf2. change (2 ^ 53) with 9007199254740992.
    cbn [shr iter_pos shr_1 shr_record_of_loc shr_m orb].
    replace (0 + Zpos p + 1 <=? 1024 - 53)%Z with true
      by (symmetry; apply Z.leb_le; lia).
    exists 4503599627370496%positive, (Zpos p + 1), (Zpos p).
    split; [f_equal; lia|]. split; [exact Hn|]. split; [lia|].
    split; [rewrite Z.pow_add_r by lia; rewrite <- EP; lia|].
    split; [|reflexivity].
    rewrite Z.pow_add_r by lia. rewrite <- EP.
    rewrite Ecarry in Herr.
    change (2 ^ 53) with 9007199254740992 in Herr.
    change (2 ^ 1) with 2. lia.
  - destruct q' as [|a|a] eqn:Eq'; [lia| |lia].
    assert (Zpos (digits2_pos a) = 53) as Hda.
    { apply digits2_pos_of_range.
      change (2 ^ (53 - 1)) with (2 ^ 52). lia. }
    cbn [Zdigits2]. rewrite Hda.
    assert (fexp 53 1024 (53 + (0 + Zpos p)) - (0 + Zpos p) = 0) as Hf2.
    { unfold fexp, emin. lia. }
    rewrite Hf2. cbn [shr shr_record_of_loc shr_m].
    replace (0 + Zpos p <=? 1024 - 53)%Z with true
      by (symmetry; apply Z.leb_le; lia).
    exists a, (Zpos p), (Zpos p).
    split; [reflexivity|]. split; [exact Hn|]. split; [lia|].
    split; [rewrite Z.pow_add_r by lia; rewrite <- EP; lia|].
    split; [|exact Hda]. rewrite <- EP. exact Herr.
Qed.


(** ** [float64(v)] is a binary64 number, and the nearest one *)

Lemma bounded_full_width (m : positive) (e : Z) :
  Zpos (digits2_pos m) = 53 -> -1074 <= e <= 971 ->
  bounded 53 1024 m e = true.
Proof.
  intros Hd He. unfold bounded, canonical_mantissa, fexp, emin. rewrite Hd.
  apply andb_true_intro. split; [apply Z.eqb_eq|apply Z.leb_le]; lia.
Qed.

(** What the format allows: an exponent from [-1074] and a mantissa below
    [2^53]. *)
Lemma valid_binary_bounds (s : bool) (m : positive) (e : Z) :
  valid_binary 53 1024 (S754_finite s m e) = true ->
  -1074 <= e /\ Zpos m < 2 ^ 53.
Proof.
  unfold valid_binary, bounded, canonical_mantissa, fexp, emin.
  intros H. apply andb_prop in H as [Hc _]. apply Z.eqb_eq in Hc.
  pose proof (digits2_pos_bounds m) as [_ Hhi].
  split; [lia|].
  assert (2 ^ Zpos (digits2_pos m) <= 2 ^ 53)
    by (apply Z.pow_le_mono_r; lia).
  lia.
Qed.

Lemma binary_round_small_valid (s : bool) (m : positive) :
  Zpos m < 2 ^ 53 ->
  valid_binary 53 1024 (binary_round 53 1024 s m 0) = true.
Proof.
  intros Hm.
  pose proof (digits2_pos_bounds m) as [Hlo Hhi].
  assert (Zpos (digits2_pos m) <= 53) as Hd.
  { destruct (Z_le_gt_dec (Zpos (digits2_pos m)) 53) as [|Hgt];
      [assumption|].
    exfalso. assert (2 ^ 53 <= 2 ^ (Zpos (digits2_pos m) - 1)).
    { apply Z.pow_le_mono_r; lia. }
    lia. }
  unfold binary_round, shl_align.
  assert (fexp 53 1024 (Zpos (digits2_pos m) + 0)
          = Zpos (digits2_pos m) - 53) as Hf.
  { unfold fexp, emin. lia. }
  rewrite Hf.
  destruct (Zpos (digits2_pos m) - 53 - 0) as [|p|p] eqn:Hp; [| lia |].
  - rewrite binary_round_aux_canonical by lia.
    apply bounded_full_width; lia.
  - rewrite binary_round_aux_canonical.
    + apply bounded_full_width; [rewrite iter_xO_digits|]; lia.
    + rewrite iter_xO_digits. lia.
    + lia.
Qed.

(** [float64(v)] is a float the format holds. *)
Lemma float64_of_int64_valid (v : int64) :
  is_int64 v -> is_float64 (float64_of_int64 v) = true.
Proof.
  intros [Hlo Hhi]. unfold int64_min, int64_max in Hlo, Hhi.
  unfold is_float64, float64_of_int64, float64_prec, float64_emax.
  assert (forall (s : bool) (m : positive),
            Zpos m <= 2 ^ 63 ->
            valid_binary 53 1024 (binary_round 53 1024 s m 0) = true) as H.
  { intros s m Hm.
    destruct (Z_lt_le_dec (Zpos m) (2 ^ 53)) as [Hs|Hl];
      [apply binary_round_small_valid; exact Hs|].
    destruct (Z.eq_dec (Zpos m) (2 ^ 63)) as [E|N].
    - injection E as ->. destruct s; vm_compute; reflexivity.
    - destruct (binary_round_large s m)
        as (m' & e & n & -> & Hn & He & _ & _ & Hd); [lia|].
      apply bounded_full_width; [exact Hd|lia]. }
  destruct v as [|m|m]; cbn [binary_normalize]; [reflexivity| |];
    apply H; lia.
Qed.

(** A multiple of [P] within half of [P] of [V] is at least as near to [V]
    as any other multiple of [P]. *)
Lemma multiple_nearest (a b P V : Z) :
  0 < P -> 2 * Z.abs (a * P - V) <= P ->
  Z.abs (a * P - V) <= Z.abs (b * P - V).
Proof.
  intros HP Ha. destruct (Z.eq_dec a b) as [->|Hne]; [apply Z.le_refl|].
  assert (b * P <= a * P - P \/ a * P + P <= b * P) as [H|H].
  { destruct (Z_lt_le_dec b a) as [Hlt|Hge]; [left|right]; nia. }
  - lia.
  - lia.
Qed.

(** Above [2^53]: with the rounded value a multiple of [2^n] within half
    of [2^n] of the integer, no float (mantissa below [2^53]) is nearer. *)
Lemma nearest_large (m m' : positive) (e n M E : Z) :
  1 <= n -> n <= e ->
  2 ^ (n + 52) <= Zpos m ->
  2 * Z.abs (Zpos m' * 2 ^ e - Zpos m) <= 2 ^ n ->
  Z.abs M < 2 ^ 53 -> -1074 <= E ->
  Z.abs (Zpos m' * 2 ^ (e + 1074) - Zpos m * 2 ^ 1074)
  <= Z.abs (M * 2 ^ (E + 1074) - Zpos m * 2 ^ 1074).
Proof.
  intros Hn He Hm Herr HM HE.
  assert (0 < 2 ^ 1074) as HK by (apply Z.pow_pos_nonneg; lia).
  assert (0 < 2 ^ n) as HN by (apply Z.pow_pos_nonneg; lia).
  assert (2 ^ e = 2 ^ (e - n) * 2 ^ n) as Ee
    by (rewrite <- Z.pow_add_r by lia; f_equal; lia).
  assert (0 < 2 ^ (e - n)) as Hen by (apply Z.pow_pos_nonneg; lia).
  rewrite Z.pow_add_r in Hm by lia.
  rewrite (Z.pow_add_r 2 e 1074) by lia. rewrite Ee in Herr |- *.
  remember (2 ^ 1074) as K eqn:EK.
  remember (2 ^ n) as N eqn:EN.
  remember (2 ^ (e - n)) as A eqn:EA.
  change (2 ^ 52) with 4503599627370496 in Hm.
  change (2 ^ 53) with 9007199254740992 in HM.
  assert (2 * Z.abs (Zpos m' * A * (N * K) - Zpos m * K) <= N * K) as Hhalf.
  { replace (Zpos m' * A * (N * K) - Zpos m * K)
      with ((Zpos m' * (A * N) - Zpos m) * K) by ring.
    rewrite Z.abs_mul, (Z.abs_eq K) by lia. nia. }
  replace (Zpos m' * (A * N * K)) with (Zpos m' * A * (N * K)) by ring.
  assert (0 < N * K) as HP by nia.
  destruct (Z_le_gt_dec n E) as [HnE|HEn].
  - (* the float is a multiple of 2^n *)
    assert (2 ^ (E + 1074) = 2 ^ (E - n) * (N * K)) as EE.
    { rewrite EN, EK, <- !Z.pow_add_r by lia. f_equal. lia. }
    rewrite EE.
    replace (M * (2 ^ (E - n) * (N * K))) with (M * 2 ^ (E - n) * (N * K))
      by ring.
    apply multiple_nearest; assumption.
  - (* the float is below 2^(n+52) *)
    assert (2 ^ (E + 1074) * 2 <= N * K) as EE.
    { rewrite EN, EK, <- Z.pow_add_r by lia.
      replace (2 ^ (E + 1074) * 2) with (2 ^ (E + 1074 + 1))
        by (rewrite (Z.pow_add_r 2 (E + 1074) 1) by lia; reflexivity).
      apply Z.pow_le_mono_r; lia. }
    assert (0 < 2 ^ (E + 1074)) as HX by (apply Z.pow_pos_nonneg; lia).
    remember (2 ^ (E + 1074)) as X eqn:EX.
    pose proof (multiple_nearest (Zpos m' * A) 4503599627370496 (N * K)
                  (Zpos m * K) HP Hhalf) as Hb.
    assert (M * X < 4503599627370496 * (N * K)) by nia.
    assert (4503599627370496 * (N * K) <= Zpos m * K) by nia.
    lia.
Qed.

(** No binary64 number is nearer to [v] than [float64(v)].  Distances are
    compared after scaling by [2^1074]. *)
Lemma float64_of_int64_nearest (v : int64) (g : float64) (x : Z) :
  is_int64 v -> is_float64 g = true -> float64_scaled g = Some x ->
  exists y, float64_scaled (float64_of_int64 v) = Some y /\
    Z.abs (y - v * 2 ^ 1074) <= Z.abs (x - v * 2 ^ 1074).
Proof.
  intros [Hlo Hhi] Hg Hx. unfold int64_min, int64_max in Hlo, Hhi.
  destruct (Z_le_gt_dec (Z.abs v) (2 ^ 53)) as [Hsmall|Hlarge].
  - (* exact *)
    pose proof (float64_of_int64_exact v) as Hex.
    destruct (float64_of_int64 v) as [s| | |s m e];
      cbn [float64_is_int float64_scaled] in Hex |- *.
    + exists 0. split; [reflexivity|]. rewrite Hex by lia. cbn. lia.
    + exfalso. apply Hex. lia.
    + exfalso. apply Hex. lia.
    + destruct Hex as [_ Hval]; [lia|]. eexists. split; [reflexivity|].
      rewrite Hval, Z.sub_diag. cbn. lia.
  - (* the float as a signed mantissa at an exponent *)
    assert (exists M E, Z.abs M < 2 ^ 53 /\ -1074 <= E /\
              x = M * 2 ^ (E + 1074)) as (M & E & HM & HE & ->).
    { unfold is_float64, float64_prec, float64_emax in Hg.
      destruct g as [s| | |s m e]; cbn [float64_scaled] in Hx;
        try discriminate; injection Hx as <-.
      - exists 0, 0. split; [cbn; lia|]. split; [lia|reflexivity].
      - apply valid_binary_bounds in Hg as [He Hm].
        exists (cond_Zopp s (Zpos m)), e.
        split; [destruct s; cbn; lia|]. split; [exact He|reflexivity]. }
    unfold float64_of_int64, float64_prec, float64_emax.
    destruct v as [|m|m]; cbn [binary_normalize].
    + cbn in Hlarge. lia.
    + destruct (binary_round_large false m)
        as (m' & e & n & -> & Hn & He & Hm & Herr & _); [lia|].
      cbn [float64_scaled cond_Zopp]. eexists. split; [reflexivity|].
      apply (nearest_large m m' e n M E); lia.
    + destruct (Z.eq_dec (Zpos m) (2 ^ 63)) as [E63|N].
      * injection E63 as ->. eexists. split; [vm_compute; reflexivity|].
        match goal with
        | |- Z.abs ?d <= _ => replace d with 0 by (vm_compute; reflexivity)
        end.
        apply Z.abs_nonneg.
      * destruct (binary_round_large true m)
          as (m' & e & n & -> & Hn & He & Hm & Herr & _); [lia|].
        cbn [float64_scaled cond_Zopp]. eexists. split; [reflexivity|].
        pose proof (nearest_large m m' e n (- M) E) as Hnear.
        rewrite Z.abs_opp in Hnear.
        specialize (Hnear ltac:(lia) ltac:(lia) Hm Herr HM HE).
        replace (- Zpos m' * 2 ^ (e + 1074) - Zneg m * 2 ^ 1074)
          with (- (Zpos m' * 2 ^ (e + 1074) - Zpos m * 2 ^ 1074))
          by (rewrite <- (Pos2Z.opp_pos m); ring).
        replace (M * 2 ^ (E + 1074) - Zneg m * 2 ^ 1074)
          with (- (- M * 2 ^ (E + 1074) - Zpos m * 2 ^ 1074))
          by (rewrite <- (Pos2Z.opp_pos m); ring).
        rewrite !Z.abs_opp. exact Hnear.
Qed.

Lemma boolMetric_values :
  boolMetric true = float64_one /\ boolMetric false = float64_zero /\
  float64_is_int float64_one 1 /\ float64_is_int float64_zero 0.
Proof.
  repeat split; vm_compute; congruence.
Qed.

Lemma samples_are_gauges (ms : list Metric) (rows : list (ptr Desc * field)) :
  map sample_view ms = map row_view rows ->
  Forall (fun m => valType m = GaugeValue) ms.
Proof.
  revert rows. induction ms as [|m ms IH]; intros [|r rows] H;
    try discriminate; constructor.
  - cbn in H. unfold sample_view, row_view in H. congruence.
  - apply (IH rows). cbn in H. congruence.
Qed.

Lemma samples_descs (ms : list Metric) (rows : list (ptr Desc * field)) :
  map sample_view ms = map row_view rows ->
  map (fun m => Some (desc m)) ms = map fst rows.
Proof.
  revert rows. induction ms as [|m ms IH]; intros [|r rows] H;
    try discriminate; [reflexivity|].
  cbn in H |- *. unfold sample_view, row_view in H.
  injection H as Hd _ _ Hrest. rewrite Hd. f_equal. apply IH. exact Hrest.
Qed.

(** C6, as the code has it, for a successful poll of a constructed
    exporter.  When the URI is valid UTF-8, [Collect] returns and the
    samples it sends are, row by row, the descriptor and the value of the
    table [collected_fields], every one a gauge; when it is not, the
    descriptors are invalid, and [Collect] panics before the first sample.
    A boolean field gives 1.0 for true and 0.0 for false; an integer
    counter gives [float64(v)], which is a binary64 number, [v] itself
    whenever [|v| <= 2^53], and for every [int64] a binary64 number nearest
    to [v]; a ratio field is sent as decoded. *)
Theorem Collect_value_rule
  (url_Parse : string -> ptr URL * option error)
  (json_Unmarshal : bytes -> OPcacheStatus -> OPcacheStatus * option error)
  (net : Network) (rawUri script : string) (e : Exporter)
  (s : OPcacheStatus) :
  fst (NewExporter url_Parse rawUri script) = Some e ->
  fst (getOpcacheStatus json_Unmarshal net e) = Returned (Some s, None) ->
  (utf8_ValidString
     (if strings_Contains rawUri "://" then rawUri else "tcp://" ++ rawUri)
   = true ->
   fst (Collect json_Unmarshal net e) = Returned tt /\
   map sample_view (sent (snd (Collect json_Unmarshal net e)))
     = map row_view (collected_fields e s) /\
   Forall (fun m => valType m = GaugeValue)
     (sent (snd (Collect json_Unmarshal net e)))) /\
  (utf8_ValidString
     (if strings_Contains rawUri "://" then rawUri else "tcp://" ++ rawUri)
   = false ->
   (exists msg, fst (Collect json_Unmarshal net e) = Panic msg) /\
   sent (snd (Collect json_Unmarshal net e)) = []) /\
  (forall b : bool,
     gauge_of (BoolField b) = if b then float64_one else float64_zero) /\
  float64_is_int float64_one 1 /\ float64_is_int float64_zero 0 /\
  (forall v : int64, gauge_of (CounterField v) = float64_of_int64 v) /\
  (forall v : int64,
     - 2 ^ 53 <= v <= 2 ^ 53 -> float64_is_int (gauge_of (CounterField v)) v) /\
  (forall v : int64,
     is_int64 v ->
     is_float64 (gauge_of (CounterField v)) = true /\
     forall (g : float64) (x : Z),
       is_float64 g = true -> float64_scaled g = Some x ->
       exists y, float64_scaled (gauge_of (CounterField v)) = Some y /\
         Z.abs (y - v * 2 ^ 1074) <= Z.abs (x - v * 2 ^ 1074)) /\
  (forall r : float64, gauge_of (RatioField r) = r).
Proof.
  intros He Hr.
  split; [|split].
  - intros Hutf.
    destruct (Collect_samples url_Parse json_Unmarshal net rawUri script e
                (Some s, None) s He Hutf Hr eq_refl) as (Hret & Hv & _).
    split; [exact Hret|]. split; [exact Hv|].
    exact (samples_are_gauges _ _ Hv).
  - intros Hutf.
    destruct (Collect_invalid url_Parse json_Unmarshal net rawUri script e
                (Some s, None) s He Hutf Hr eq_refl) as (Hp & Hs & _).
    split; assumption.
  - split; [intros [|]; reflexivity|].
    split; [exact (proj1 (proj2 (proj2 boolMetric_values)))|].
    split; [reflexivity|]. split; [reflexivity|].
    split; [exact float64_of_int64_exact|].
    split; [|reflexivity].
    intros v Hv. split; [exact (float64_of_int64_valid v Hv)|].
    intros g x Hg Hx. exact (float64_of_int64_nearest v g x Hv Hg Hx).
Qed.

Lemma Collect_value_rule_witness :
  fst (NewExporter example_url_Parse "127.0.0.1:9000" "/opcache.php")
    = Some example_exporter /\
  fst (getOpcacheStatus example_json_Unmarshal (net_serving enabled_document)
         example_exporter)
    = Returned (Some (mkStatus true false false false MemoryUsage.zero
                        InternedStringsUsage.zero OPcacheStatistics.zero),
                None) /\
  utf8_ValidString "tcp://127.0.0.1:9000" = true /\
  map sample_view
    (sent (snd (Collect example_json_Unmarshal (net_serving enabled_document)
                  example_exporter)))
    = map row_view
        (collected_fields example_exporter
           (mkStatus true false false false MemoryUsage.zero
              InternedStringsUsage.zero OPcacheStatistics.zero)).
Proof.
  split; [reflexivity|]. split; [reflexivity|]. split; [reflexivity|].
  exact (proj1 (proj2
    (proj1
       (Collect_value_rule example_url_Parse example_json_Unmarshal
          (net_serving enabled_document) "127.0.0.1:9000" "/opcache.php"
          example_exporter _ eq_refl eq_refl)
       eq_refl))).
Defined.

(** C6, as the claim has it, fails on a counter above [2^53]: the snapshot
    with [2^53 + 1] hits, a value of type [int64], is published with the
    hits sample at [2^53]. *)
Lemma counter_above_2_53_not_exact :
  is_int64 9007199254740993 /\
  OPcacheStatistics.Hits (OPcacheStatistics busy_status)
    = 9007199254740993 /\
  fst (getOpcacheStatus (json_yielding busy_status) (net_serving "{}")
         example_exporter)
    = Returned (Some busy_status, None) /\
  exists m : Metric,
    In m (sent (snd (Collect (json_yielding busy_status) (net_serving "{}")
                       example_exporter))) /\
    Some (desc m) = statisticsHits example_exporter /\
    val m = intMetric 9007199254740993 /\
    val m = S754_finite false 4503599627370496 1 /\
    float64_is_int (val m) 9007199254740992 /\
    ~ float64_is_int (val m) 9007199254740993.
Proof.
  split; [unfold is_int64, int64_min, int64_max; lia|].
  split; [reflexivity|]. split; [reflexivity|].
  eexists. split.
  - cbn. do 14 right. left. reflexivity.
  - cbn [desc val]. split; [reflexivity|]. split; [reflexivity|].
    split; [reflexivity|]. split.
    + split; [discriminate|]. vm_compute. reflexivity.
    + intros [_ H]. vm_compute in H. discriminate.
Qed.

(** The example of section 8 of the specification. *)
Example section8_example :
  let samples :=
    map (fun m => (fqName (desc m), val m))
      (sent (snd (Collect (json_yielding section8_status) (net_serving "{}")
                    example_exporter))) in
  In ("opcache_enabled", float64_one) samples /\
  In ("opcache_cache_full", float64_zero) samples /\
  In ("opcache_memory_usage_used_memory", float64_100) samples /\
  In ("opcache_memory_usage_current_wasted_percentage", float64_6_67)
    samples /\
  In ("opcache_statistics_hit_rate", float64_90) samples /\
  float64_is_int float64_100 100.
Proof.
  cbv zeta.
  repeat (split; [vm_compute; tauto|]).
  split; [discriminate|reflexivity].
Qed.

(** ** Descriptors described and samples sent *)

(** The descriptors of the samples one call of [Collect] sends: those of
    its 24 lines when the exporter has a URL and its URI is valid UTF-8,
    none otherwise (the call then panics before the first send). *)
Lemma Collect_sent_descs
  (url_Parse : string -> ptr URL * option error)
  (json_Unmarshal : bytes -> OPcacheStatus -> OPcacheStatus * option error)
  (net : Network) (rawUri script : string) (e : Exporter) :
  fst (NewExporter url_Parse rawUri script) = Some e ->
  (uri e <> None /\
   utf8_ValidString
     (if strings_Contains rawUri "://" then rawUri else "tcp://" ++ rawUri)
   = true /\
   map (fun m => Some (desc m)) (sent (snd (Collect json_Unmarshal net e)))
     = (firstn 11 (desc_fields e) ++ skipn 12 (desc_fields e))%list) \/
  ((uri e = None \/
    utf8_ValidString
      (if strings_Contains rawUri "://" then rawUri else "tcp://" ++ rawUri)
    = false) /\
   sent (snd (Collect json_Unmarshal net e)) = []).
Proof.
  intros He. destruct (uri e) as [u|] eqn:Hu.
  - destruct (getOpcacheStatus_returns json_Unmarshal net e u Hu)
      as (r & Hr & Hshape).
    assert (exists s, substituted r = Some s) as [s Hs].
    { destruct Hshape as [[s ->]|[err ->]]; eexists; reflexivity. }
    destruct (utf8_ValidString _) eqn:Hutf.
    + left. split; [discriminate|]. split; [reflexivity|].
      destruct (Collect_samples url_Parse json_Unmarshal net rawUri script e
                  r s He Hutf Hr Hs) as (_ & Hv & _).
      rewrite (samples_descs _ _ Hv). reflexivity.
    + right. split; [right; reflexivity|].
      exact (proj1 (proj2 (Collect_invalid url_Parse json_Unmarshal net
                             rawUri script e r s He Hutf Hr Hs))).
  - right. split; [left; reflexivity|].
    unfold Collect, locked, bind, getOpcacheStatus. rewrite Hu.
    reflexivity.
Qed.

(** C1, evaluated on the code: whatever the URI, the target and the
    decoder, the exporter [NewExporter] builds describes 25 descriptors and
    one call of [Collect] sends at most 24 samples: exactly 24 when the
    URI parsed and is valid UTF-8, and none when it is not valid UTF-8
    (the descriptors are then invalid and the call panics).  The
    descriptor of the field [internedStringsUsageUsedNumerOfStrings] is
    described and no sample is ever sent for it. *)
Theorem Collect_omits_number_of_strings
  (url_Parse : string -> ptr URL * option error)
  (json_Unmarshal : bytes -> OPcacheStatus -> OPcacheStatus * option error)
  (net : Network) (rawUri script : string) :
  exists e : Exporter,
    fst (NewExporter url_Parse rawUri script) = Some e /\
    List.length (described (snd (Describe e))) = 25%nat /\
    (List.length (sent (snd (Collect json_Unmarshal net e))) <= 24)%nat /\
    (uri e <> None ->
     utf8_ValidString
       (if strings_Contains rawUri "://" then rawUri else "tcp://" ++ rawUri)
     = true ->
     List.length (sent (snd (Collect json_Unmarshal net e))) = 24%nat) /\
    (utf8_ValidString
       (if strings_Contains rawUri "://" then rawUri else "tcp://" ++ rawUri)
     = false ->
     sent (snd (Collect json_Unmarshal net e)) = []) /\
    In (internedStringsUsageUsedNumerOfStrings e)
      (described (snd (Describe e))) /\
    ~ In (internedStringsUsageUsedNumerOfStrings e)
        (map (fun m => Some (desc m))
           (sent (snd (Collect json_Unmarshal net e)))).
Proof.
  destruct (NewExporter_always_fst url_Parse rawUri script) as [e He].
  exists e. split; [exact He|].
  rewrite Describe_trace. cbn [snd]. rewrite described_map_EvSendDesc.
  split; [reflexivity|].
  assert (In (internedStringsUsageUsedNumerOfStrings e) (desc_fields e))
    as Hin by (cbn; do 11 right; left; reflexivity).
  destruct (Collect_sent_descs url_Parse json_Unmarshal net rawUri script e
              He) as [(Hu & Hutf & Hd)|(Hc & Hs)].
  - assert (List.length (sent (snd (Collect json_Unmarshal net e)))
            = 24%nat) as Hlen.
    { rewrite <- (length_map (fun m => Some (desc m))), Hd. reflexivity. }
    split; [rewrite Hlen; apply le_n|]. split; [intros _ _; exact Hlen|].
    split; [intros Hno; congruence|]. split; [exact Hin|].
    rewrite Hd.
    pose proof (desc_fields_distinct _ _ _ _ He) as Hnd.
    change (desc_fields e)
      with (firstn 11 (desc_fields e)
            ++ internedStringsUsageUsedNumerOfStrings e
               :: skipn 12 (desc_fields e))%list in Hnd.
    apply NoDup_remove_2 in Hnd. exact Hnd.
  - rewrite Hs. cbn [List.length map].
    split; [apply Nat.le_0_l|].
    split; [intros Hu Hutf; destruct Hc; congruence|].
    split; [reflexivity|]. split; [exact Hin|]. intros [].
Qed.

(** The interned-strings count of the snapshot reaches no sample: a
    snapshot that counts seven strings is published exactly as the same
    snapshot with none. *)
Example number_of_strings_not_published :
  InternedStringsUsage.NumberOfStrings
    (InternedStringsUsage seven_strings_status) = 7 /\
  sent (snd (Collect (json_yielding seven_strings_status) (net_serving "{}")
               example_exporter))
    = sent (snd (Collect
                   (json_yielding
                      (mkStatus true false false false MemoryUsage.zero
                         InternedStringsUsage.zero OPcacheStatistics.zero))
                   (net_serving "{}") example_exporter)).
Proof. split; [reflexivity|]. vm_compute. reflexivity. Qed.

(** X1: after a failed poll of a constructed exporter [Collect] logs the
    error once.  When the URI is valid UTF-8 it then returns, sends what it
    sends for the zero snapshot, and every sample it sends is a
    zero-valued gauge; when the URI is not valid UTF-8 the descriptors are
    invalid, and it panics in the first [MustNewConstMetric], having sent
    nothing. *)
Lemma Collect_recovers
  (url_Parse : string -> ptr URL * option error)
  (json_Unmarshal : bytes -> OPcacheStatus -> OPcacheStatus * option error)
  (net : Network) (rawUri script : string) (e : Exporter) (failure : error) :
  fst (NewExporter url_Parse rawUri script) = Some e ->
  fst (getOpcacheStatus json_Unmarshal net e)
    = Returned (None, Some failure) ->
  logged (snd (Collect json_Unmarshal net e)) = [failure] /\
  (utf8_ValidString
     (if strings_Contains rawUri "://" then rawUri else "tcp://" ++ rawUri)
   = true ->
   fst (Collect json_Unmarshal net e) = Returned tt /\
   sent (snd (Collect json_Unmarshal net e))
     = sent (snd (publish e (Some new_OPcacheStatus))) /\
   Forall (fun m => valType m = GaugeValue /\ val m = float64_zero)
     (sent (snd (Collect json_Unmarshal net e)))) /\
  (utf8_ValidString
     (if strings_Contains rawUri "://" then rawUri else "tcp://" ++ rawUri)
   = false ->
   (exists msg, fst (Collect json_Unmarshal net e) = Panic msg) /\
   sent (snd (Collect json_Unmarshal net e)) = []).
Proof.
  intros He Hr.
  assert (exists u, uri e = Some u) as [u Hu].
  { destruct (uri e) as [u|] eqn:Hu; [eauto|].
    unfold getOpcacheStatus in Hr. rewrite Hu in Hr. discriminate. }
  destruct (getOpcacheStatus_quiet json_Unmarshal net e u Hu) as [Hq Hql].
  split; [|split].
  - rewrite (Collect_trace _ _ _ _ Hr). cbn [fst snd substituted].
    rewrite !logged_app, Hql.
    destruct (utf8_ValidString
                (if strings_Contains rawUri "://" then rawUri
                 else "tcp://" ++ rawUri)) eqn:Hutf.
    + destruct (Collect_samples url_Parse json_Unmarshal net rawUri script e
                  (None, Some failure) new_OPcacheStatus He Hutf Hr eq_refl)
        as (_ & _ & Hlog).
      rewrite (Collect_trace _ _ _ _ Hr) in Hlog.
      cbn [fst snd substituted] in Hlog.
      rewrite !logged_app, Hql in Hlog. exact Hlog.
    + destruct (Collect_invalid url_Parse json_Unmarshal net rawUri script e
                  (None, Some failure) new_OPcacheStatus He Hutf Hr eq_refl)
        as (_ & _ & Hlog).
      rewrite (Collect_trace _ _ _ _ Hr) in Hlog.
      cbn [fst snd substituted] in Hlog.
      rewrite !logged_app, Hql in Hlog. exact Hlog.
  - intros Hutf.
    destruct (Collect_samples url_Parse json_Unmarshal net rawUri script e
                (None, Some failure) new_OPcacheStatus He Hutf Hr eq_refl)
      as (Hret & Hv & _).
    split; [exact Hret|]. split.
    + rewrite (Collect_trace _ _ _ _ Hr). cbn [fst snd substituted].
      rewrite !sent_app, Hq. cbn. rewrite app_nil_r. reflexivity.
    + revert Hv. generalize (sent (snd (Collect json_Unmarshal net e))).
      intros ms Hv.
      assert (Forall (fun v => snd (fst v) = GaugeValue /\
                               snd v = float64_zero)
                (map sample_view ms)) as Hall.
      { rewrite Hv. repeat constructor. }
      rewrite Forall_map in Hall. exact Hall.
  - intros Hutf.
    destruct (Collect_invalid url_Parse json_Unmarshal net rawUri script e
                (None, Some failure) new_OPcacheStatus He Hutf Hr eq_refl)
      as (Hp & Hs & _).
    split; assumption.
Qed.

Lemma Collect_recovers_witness :
  fst (NewExporter example_url_Parse "127.0.0.1:9000" "/opcache.php")
    = Some example_exporter /\
  fst (getOpcacheStatus example_json_Unmarshal net_resetting example_exporter)
    = Returned (None, Some (errors_New "connection reset by peer")) /\
  utf8_ValidString "tcp://127.0.0.1:9000" = true /\
  logged (snd (Collect example_json_Unmarshal net_resetting example_exporter))
    = [errors_New "connection reset by peer"] /\
  fst (Collect example_json_Unmarshal net_resetting example_exporter)
    = Returned tt.
Proof.
  split; [exact example_exporter_constructed|]. split; [reflexivity|].
  split; [reflexivity|].
  pose proof (Collect_recovers example_url_Parse example_json_Unmarshal
                net_resetting "127.0.0.1:9000" "/opcache.php"
                example_exporter (errors_New "connection reset by peer")
                example_exporter_constructed eq_refl) as (H1 & H2 & _).
  split; [exact H1|exact (proj1 (H2 eq_refl))].
Defined.

(** The same failed poll of an exporter whose URI is not valid UTF-8: the
    URI parses, the descriptors carry no label, and [Collect] logs the dial
    error and panics without a sample. *)
Example Collect_on_invalid_uri :
  utf8_ValidString ("tcp://" ++ latin1_uri) = false /\
  NewExporter example_url_Parse latin1_uri "/opcache.php"
    = (Some latin1_exporter, None) /\
  uri latin1_exporter = Some (mkURL "tcp" latin1_uri "") /\
  Forall (fun d => fcgi_uri_label d = None) (desc_fields latin1_exporter) /\
  (exists msg,
     fst (Collect example_json_Unmarshal net_refusing latin1_exporter)
       = Panic msg) /\
  logged (snd (Collect example_json_Unmarshal net_refusing latin1_exporter))
    = [errors_New "dial tcp: connection refused"] /\
  sent (snd (Collect example_json_Unmarshal net_refusing latin1_exporter))
    = [].
Proof.
  split; [reflexivity|]. split; [vm_compute; reflexivity|].
  split; [reflexivity|]. split; [vm_compute; repeat constructor|].
  split; [eexists; vm_compute; reflexivity|].
  split; vm_compute; reflexivity.
Qed.

(** C3, evaluated on the code: polling a target that refuses the
    connection, [Collect] returns without a panic, logs the dial error and
    sends zero-valued gauges for the zero snapshot, but 24 of them: of the
    25 descriptors [Describe] sends, the one named
    [opcache_interned_strings_usage_number_of_strings] gets no sample. *)
Theorem Collect_on_refused_connection :
  let poll :=
    getOpcacheStatus example_json_Unmarshal net_refusing example_exporter in
  let run := Collect example_json_Unmarshal net_refusing example_exporter in
  fst poll = Returned (None, Some (errors_New "dial tcp: connection refused")) /\
  fst run = Returned tt /\
  logged (snd run) = [errors_New "dial tcp: connection refused"] /\
  Forall (fun m => valType m = GaugeValue /\ val m = float64_zero)
    (sent (snd run)) /\
  List.length (sent (snd run)) = 24%nat /\
  List.length (described (snd (Describe example_exporter))) = 25%nat /\
  In "opcache_interned_strings_usage_number_of_strings"
    (map desc_name (described (snd (Describe example_exporter)))) /\
  ~ In "opcache_interned_strings_usage_number_of_strings"
      (map (fun m => fqName (desc m)) (sent (snd run))).
Proof.
  cbv zeta.
  split; [reflexivity|]. split; [reflexivity|]. split; [reflexivity|].
  split; [repeat constructor|]. split; [reflexivity|].
  split; [reflexivity|]. split.
  - cbn. do 11 right. left. reflexivity.
  - cbn. intuition discriminate.
Qed.

(** A body that is not JSON is handled the same way, and the log line is
    the body. *)
Example Collect_on_malformed_body :
  let run :=
    Collect example_json_Unmarshal (net_serving "<html>502</html>")
      example_exporter in
  fst run = Returned tt /\
  logged (snd run) = [errors_New "<html>502</html>"] /\
  sent (snd run)
    = sent (snd (Collect example_json_Unmarshal net_refusing example_exporter)).
Proof.
  cbv zeta. split; [reflexivity|]. split; vm_compute; reflexivity.
Qed.

(** ** The request *)




(** A TCP target is dialled at its host and port, a Unix-domain socket at
    its path. *)
Example getOpcacheStatus_dials :
  snd (getOpcacheStatus example_json_Unmarshal net_refusing example_exporter)
    = [EvDial "tcp" "127.0.0.1:9000"] /\
  snd (getOpcacheStatus example_json_Unmarshal net_refusing unix_exporter)
    = [EvDial "unix" "/run/php-fpm.sock"].
Proof. split; reflexivity. Qed.

(** ** Concurrent scrapes *)

Lemma lock_free_app (t1 t2 : list Event) :
  lock_free t1 -> lock_free t2 -> lock_free (t1 ++ t2).
Proof. intros H1 H2. apply Forall_app. split; assumption. Qed.

Lemma lock_free_bind {A B : Type} (c : Go A) (k : A -> Go B) :
  lock_free (snd c) -> (forall a, lock_free (snd (k a))) ->
  lock_free (snd (bind c k)).
Proof.
  intros Hc Hk. unfold bind. destruct (fst c) as [a|msg]; cbn [snd].
  - apply lock_free_app; [exact Hc|apply Hk].
  - exact Hc.
Qed.

Lemma lock_free_deref {A : Type} (p : ptr A) : lock_free (snd (deref p)).
Proof. destruct p; constructor. Qed.

Lemma lock_free_ret {A : Type} (a : A) : lock_free (snd (ret a)).
Proof. constructor. Qed.

Lemma lock_free_getOpcacheStatus
  (json_Unmarshal : bytes -> OPcacheStatus -> OPcacheStatus * option error)
  (net : Network) (e : Exporter) :
  lock_free (snd (getOpcacheStatus json_Unmarshal net e)).
Proof.
  unfold getOpcacheStatus.
  apply lock_free_bind; [apply lock_free_deref|]. intros u.
  apply lock_free_bind; [repeat constructor|]. intros [client|err];
    [|constructor].
  apply lock_free_bind; [repeat constructor|]. intros [resp|err];
    [|constructor].
  apply lock_free_bind; [repeat constructor|]. intros [content [err|]];
    [constructor|].
  destruct (json_Unmarshal _ _) as [s [err|]]; constructor.
Qed.

Lemma lock_free_publish (e : Exporter) (status : ptr OPcacheStatus) :
  lock_free (snd (publish e status)).
Proof.
  assert (forall d v,
    lock_free (snd (s <- deref status ;;
                    m <- MustNewConstMetric d GaugeValue (v s) [] ;;
                    send m))) as Hgauge.
  { intros d v. apply lock_free_bind; [apply lock_free_deref|]. intros s.
    apply lock_free_bind; [|intros m; repeat constructor].
    unfold MustNewConstMetric.
    apply lock_free_bind; [apply lock_free_deref|]. intros d'.
    destruct (err d'); [constructor|].
    destruct (validateLabelValues _ _); constructor. }
  unfold publish.
  repeat (apply lock_free_bind; [apply Hgauge|intros _]).
  apply Hgauge.
Qed.

(** Every call of [Collect], whatever it meets (a nil URL, a failed poll,
    a panic), takes the mutex first, releases it last, and polls, logs and
    sends in between. *)
Lemma Collect_bracketed
  (json_Unmarshal : bytes -> OPcacheStatus -> OPcacheStatus * option error)
  (net : Network) (e : Exporter) :
  exists body,
    snd (Collect json_Unmarshal net e) = (EvLock :: body ++ [EvUnlock])%list /\
    lock_free body.
Proof.
  unfold Collect, locked. cbn [snd app]. eexists. split; [reflexivity|].
  apply lock_free_bind; [apply lock_free_getOpcacheStatus|].
  intros [status [err|]].
  - apply lock_free_bind; [|intros; apply lock_free_publish].
    apply lock_free_bind; [repeat constructor|intros; constructor].
  - apply lock_free_bind; [constructor|intros; apply lock_free_publish].
Qed.

Lemma remaining_replace_nth (st : Scheduler) (i j : nat)
  (ev : Event) (rest : list Event) :
  remaining st i = ev :: rest ->
  nth j (replace_nth i rest (pending st)) []
    = if Nat.eqb j i then rest else remaining st j.
Proof.
  unfold remaining. generalize (pending st). intros l. revert i j.
  induction l as [|t l IH]; intros i j H.
  - destruct i; discriminate.
  - destruct i as [|i], j as [|j]; cbn in H |- *; try reflexivity.
    apply IH. exact H.
Qed.

Lemma serialized_start (calls : list (list Event)) :
  serialized calls (start calls).
Proof.
  exists [], []. cbn. repeat split; intros; try tauto. constructor.
Qed.

Lemma serialized_step (calls : list (list Event)) (st st' : Scheduler) :
  (forall i, bracketed (nth i calls [])) ->
  serialized calls st -> step st st' -> serialized calls st'.
Proof.
  intros Hcalls (finished & running & Hhist & Hnd & Hfin & Hhold) Hstep.
  destruct Hstep as [st i st' Hadv]. unfold advance in Hadv.
  destruct (remaining st i) as [|ev rest] eqn:Hpend; [discriminate|].
  destruct (can_run (holder st) ev) eqn:Hrun; [|discriminate].
  injection Hadv as <-.
  pose proof (fun j => remaining_replace_nth st i j ev rest Hpend) as Hnew.
  assert (~ In i finished) as Hnotfin.
  { intros Hin. rewrite (proj1 (Hfin i Hin)) in Hpend. discriminate. }
  unfold serialized, remaining. cbn [holder pending history].
  destruct (holder st) as [k|] eqn:Hk.
  - destruct Hhold as (Hkfin & (done & rest' & Hrunning & Hpk & Hck & Hlf)
                       & Hothers).
    destruct (Nat.eq_dec i k) as [->|Hik].
    + rewrite Hpk in Hpend. destruct rest' as [|ev' rest''].
      * (* the holder unlocks *)
        cbn in Hpend. injection Hpend as <- <-.
        exists (finished ++ [k])%list, [].
        cbn [holder_after].
        split; [|split; [|split; [|split; [reflexivity|]]]].
        -- rewrite Hhist, Hrunning, flat_map_app. cbn [flat_map].
           rewrite Hck, !app_nil_r. unfold tag. cbn [map app].
           rewrite map_app, <- app_assoc. reflexivity.
        -- apply NoDup_app; [exact Hnd|repeat constructor; intros []|].
           intros j Hj [<-|[]]. contradiction.
        -- intros j Hj. rewrite Hnew.
           apply in_app_or in Hj as [Hj|[<-|[]]].
           ++ split; [|apply Hfin, Hj].
              destruct (Nat.eqb j k) eqn:E; [reflexivity|apply Hfin, Hj].
           ++ rewrite Nat.eqb_refl. split; [reflexivity|].
              rewrite Hck. discriminate.
        -- intros j Hj. rewrite Hnew. destruct (Nat.eqb j k) eqn:E.
           ++ apply Nat.eqb_eq in E as ->. exfalso. apply Hj.
              apply in_or_app. right. left. reflexivity.
           ++ apply Hothers.
              ** intros ->. rewrite Nat.eqb_refl in E. discriminate.
              ** intros Hin. apply Hj. apply in_or_app. left. exact Hin.
      * (* the holder goes on *)
        cbn in Hpend. injection Hpend as <- <-.
        pose proof (Forall_inv Hlf) as Hev.
        pose proof (Forall_inv_tail Hlf) as Hlf'. cbn beta in Hev.
        exists finished, (tag k (EvLock :: done ++ [ev']))%list.
        assert (holder_after (Some k) k ev' = Some k) as ->.
        { destruct ev'; try reflexivity; discriminate Hev. }
        split; [|split; [exact Hnd|split; [|split; [exact Hkfin|split]]]].
        -- rewrite Hhist, Hrunning. unfold tag. cbn [map].
           rewrite map_app, <- !app_assoc. reflexivity.
        -- intros j Hj. rewrite Hnew. split; [|apply Hfin, Hj].
           destruct (Nat.eqb j k) eqn:E; [|apply Hfin, Hj].
           apply Nat.eqb_eq in E as ->. contradiction.
        -- exists (done ++ [ev'])%list, rest''. rewrite Hnew, Nat.eqb_refl.
           split; [reflexivity|]. split; [reflexivity|].
           split; [|exact Hlf'].
           rewrite Hck, <- !app_assoc. reflexivity.
        -- intros j Hjk Hj. rewrite Hnew. destruct (Nat.eqb j k) eqn:E.
           ++ apply Nat.eqb_eq in E. contradiction.
           ++ apply Hothers; assumption.
    + (* another goroutine could only lock, and the mutex is held *)
      rewrite (Hothers i Hik Hnotfin) in Hpend.
      destruct (Hcalls i) as [E|(body & E & _)]; rewrite E in Hpend;
        [discriminate|].
      injection Hpend as <- _. cbn in Hrun. discriminate.
  - (* the mutex is free: the event is the lock of a call not yet begun *)
    destruct Hhold as (-> & Hothers).
    rewrite (Hothers i Hnotfin) in Hpend.
    destruct (Hcalls i) as [E|(body & E & Hbody)];
      [rewrite E in Hpend; discriminate|].
    assert (ev = EvLock /\ rest = (body ++ [EvUnlock])%list) as [-> ->].
    { rewrite E in Hpend. injection Hpend as <- <-. split; reflexivity. }
    exists finished, (tag i [EvLock]).
    cbn [holder_after].
    split; [|split; [exact Hnd|split; [|split; [exact Hnotfin|split]]]].
    + rewrite Hhist, app_nil_r. reflexivity.
    + intros j Hj. rewrite Hnew. split; [|apply Hfin, Hj].
      destruct (Nat.eqb j i) eqn:Eji; [|apply Hfin, Hj].
      apply Nat.eqb_eq in Eji as ->. contradiction.
    + exists [], body. rewrite Hnew, Nat.eqb_refl.
      split; [reflexivity|]. split; [reflexivity|].
      split; [exact E|exact Hbody].
    + intros j Hji Hj. rewrite Hnew. destruct (Nat.eqb j i) eqn:Eji.
      * apply Nat.eqb_eq in Eji. contradiction.
      * apply Hothers. exact Hj.
Qed.

Lemma reachable_serialized (calls : list (list Event)) (st : Scheduler) :
  (forall i, bracketed (nth i calls [])) ->
  reachable (start calls) st -> serialized calls st.
Proof.
  intros Hcalls Hreach. induction Hreach as [|st st' _ IH Hstep].
  - apply serialized_start.
  - exact (serialized_step calls st st' Hcalls IH Hstep).
Qed.

Lemma flat_map_ext_in {A B : Type} (f g : A -> list B) (l : list A) :
  (forall a, In a l -> f a = g a) -> flat_map f l = flat_map g l.
Proof.
  induction l as [|a l IH]; intros H; [reflexivity|]. cbn.
  rewrite (H a (or_introl eq_refl)), IH; [reflexivity|].
  intros b Hb. apply H. right. exact Hb.
Qed.

Lemma scrapes_bracketed
  (json_Unmarshal : bytes -> OPcacheStatus -> OPcacheStatus * option error)
  (e : Exporter) (nets : list Network) (i : nat) :
  bracketed (nth i (scrapes json_Unmarshal e nets) []).
Proof.
  unfold scrapes. revert i. induction nets as [|net nets IH]; intros i.
  - left. destruct i; reflexivity.
  - destruct i as [|i]; cbn [map nth]; [|apply IH].
    right. apply Collect_bracketed.
Qed.

(** The [i]-th scrape is the call of [Collect] answered by the [i]-th
    network. *)
Lemma scrapes_nth
  (json_Unmarshal : bytes -> OPcacheStatus -> OPcacheStatus * option error)
  (e : Exporter) (nets : list Network) (i : nat) (net : Network) :
  nth_error nets i = Some net ->
  nth i (scrapes json_Unmarshal e nets) []
    = snd (Collect json_Unmarshal net e).
Proof.
  unfold scrapes. revert i. induction nets as [|n nets IH]; intros i H.
  - destruct i; discriminate.
  - destruct i as [|i]; cbn in H |- *; [congruence|apply IH, H].
Qed.

Lemma scrapes_nth_nonempty
  (json_Unmarshal : bytes -> OPcacheStatus -> OPcacheStatus * option error)
  (e : Exporter) (nets : list Network) (i : nat) :
  nth i (scrapes json_Unmarshal e nets) [] <> [] ->
  (i < List.length nets)%nat.
Proof.
  intros H. destruct (Nat.lt_ge_cases i (List.length nets)) as [|Hge];
    [assumption|].
  exfalso. apply H. apply nth_overflow. unfold scrapes.
  rewrite length_map. exact Hge.
Qed.

(** C4: let one goroutine per element of [nets] call [Collect] on the same
    exporter, under any schedule that respects the mutex.  At every moment
    the events that have happened are a sequence of whole [Collect] calls,
    each scrape at most once, each with its lock, poll, log line, sends and
    unlock together, followed by the events the holder of the mutex has run
    so far of its own call; a goroutine that does not hold the mutex has
    run all of its call or none of it.  So the dials, requests and reads of
    two scrapes never interleave, and the sends between a lock and its
    unlock are those of one call, made from the one snapshot that call
    polled. *)
Theorem Collect_calls_serialized
  (json_Unmarshal : bytes -> OPcacheStatus -> OPcacheStatus * option error)
  (e : Exporter) (nets : list Network) (st : Scheduler) :
  let call i := nth i (scrapes json_Unmarshal e nets) [] in
  reachable (start (scrapes json_Unmarshal e nets)) st ->
  exists (finished : list nat) (running : list (nat * Event)),
    history st = (flat_map (fun i => tag i (call i)) finished ++ running)%list /\
    NoDup finished /\
    Forall (fun i => (i < List.length nets)%nat /\ remaining st i = [])
      finished /\
    match holder st with
    | None => running = []
    | Some k =>
        (k < List.length nets)%nat /\ ~ In k finished /\
        exists done,
          running = tag k done /\ (done ++ remaining st k)%list = call k
    end /\
    (forall i, holder st <> Some i -> ~ In i finished ->
       remaining st i = call i) /\
    (forall i net, nth_error nets i = Some net ->
       call i = snd (Collect json_Unmarshal net e)).
Proof.
  intros call Hreach.
  apply reachable_serialized in Hreach;
    [|intros i; apply scrapes_bracketed].
  destruct Hreach as (finished & running & Hhist & Hnd & Hfin & Hhold).
  exists finished, running.
  split; [exact Hhist|]. split; [exact Hnd|].
  split; [|split; [|split]].
  - apply Forall_forall. intros i Hi. split; [|apply Hfin, Hi].
    apply (scrapes_nth_nonempty json_Unmarshal e), Hfin, Hi.
  - destruct (holder st) as [k|]; [|apply Hhold].
    destruct Hhold as (Hk & (done & rest & Hrun & Hpk & Hck & _) & _).
    split; [|split; [exact Hk|]].
    + apply (scrapes_nth_nonempty json_Unmarshal e). rewrite Hck.
      discriminate.
    + exists (EvLock :: done)%list. split; [exact Hrun|].
      unfold call. rewrite Hpk, Hck. reflexivity.
  - intros i Hnot Hnf. destruct (holder st) as [k|].
    + destruct Hhold as (_ & _ & Hothers). apply Hothers; congruence.
    + destruct Hhold as (_ & Hothers). apply Hothers. exact Hnf.
  - intros i net Hi. apply scrapes_nth. exact Hi.
Qed.

Lemma run_reachable (init : Scheduler) (schedule : list nat)
  (st st' : Scheduler) :
  reachable init st -> run schedule st = Some st' -> reachable init st'.
Proof.
  revert st. induction schedule as [|i schedule IH]; intros st Hst Hrun.
  - cbn in Hrun. injection Hrun as <-. exact Hst.
  - cbn in Hrun. destruct (advance st i) as [st1|] eqn:Hadv; [|discriminate].
    apply (IH st1); [|exact Hrun].
    exact (reach_step init st st1 Hst (step_run st i st1 Hadv)).
Qed.

Lemma first_scrape_dialling_reachable :
  reachable (start two_scrapes) first_scrape_dialling.
Proof.
  apply (run_reachable _ second_then_first (start two_scrapes));
    [apply reach_init|].
  vm_compute. reflexivity.
Qed.

(** While the second scrape holds the mutex the first cannot begin. *)
Example first_scrape_waits :
  exists st, run [1%nat; 1%nat; 1%nat] (start two_scrapes) = Some st /\
    holder st = Some 1%nat /\ advance st 0 = None.
Proof.
  eexists. split; [vm_compute; reflexivity|]. split; reflexivity.
Qed.

Example first_scrape_dialling_history :
  history first_scrape_dialling
    = (tag 1 (snd (Collect example_json_Unmarshal (net_serving "{}")
                     example_exporter))
       ++ [(0%nat, EvLock); (0%nat, EvDial "tcp" "127.0.0.1:9000")])%list.
Proof. vm_compute. reflexivity. Qed.

Lemma Collect_calls_serialized_witness :
  reachable (start two_scrapes) first_scrape_dialling /\
  exists (finished : list nat) (running : list (nat * Event)),
    history first_scrape_dialling
      = (flat_map (fun i => tag i (nth i two_scrapes [])) finished
         ++ running)%list /\
    NoDup finished.
Proof.
  split; [exact first_scrape_dialling_reachable|].
  destruct (Collect_calls_serialized example_json_Unmarshal example_exporter
              two_nets first_scrape_dialling
              first_scrape_dialling_reachable)
    as (finished & running & Hhist & Hnd & _).
  exists finished, running. split; assumption.
Defined.

(** ** [run] *)

Section RunFacts.

Variable url_Parse : string -> ptr URL * option error.
Variable host : Main.Host.

(** The error [NewExporter] returns does not depend on the script path. *)
Lemma NewExporter_error_any_script (uri script1 script2 : string) :
  snd (NewExporter url_Parse uri script1)
    = snd (NewExporter url_Parse uri script2).
Proof.
  unfold NewExporter. destruct (url_Parse _). reflexivity.
Qed.

Lemma NewExporter_scriptPath (uri script : string) :
  exists e, fst (NewExporter url_Parse uri script) = Some e /\
    scriptPath e = script.
Proof.
  unfold NewExporter. destruct (url_Parse _). eexists.
  split; reflexivity.
Qed.

Lemma bind_run {A B : Type} (c : Main.Boot A) (k : A -> Main.Boot B)
  (t : list Main.Call) :
  Main.bind c k t =
  match c t with
  | (Returned a, t') => k a t'
  | (Panic msg, t') => (Panic msg, t')
  end.
Proof. reflexivity. Qed.

Lemma MustRegister_run (c : Main.Collector) (t : list Main.Call) :
  Main.MustRegister host c t =
  (match Main.prometheus_Register host t c with
   | Some err => Panic (Error err)
   | None => Returned tt
   end, t ++ [Main.Register c])%list.
Proof.
  unfold Main.MustRegister, Main.bind, Main.call, Main.panic, Main.ret.
  destruct (Main.prometheus_Register host t c); reflexivity.
Qed.

Lemma http_Handle_run (pattern : string) (h : Main.Handler)
  (t : list Main.Call) :
  Main.http_Handle host pattern h t =
  (match Main.mux_refuses host t pattern with
   | Some msg => Panic msg
   | None => Returned tt
   end, t ++ [Main.Handle pattern h])%list.
Proof.
  unfold Main.http_Handle, Main.bind, Main.call, Main.panic, Main.ret.
  destruct (Main.mux_refuses host t pattern); reflexivity.
Qed.

(** The loop registers the exporters of a prefix of the URIs, in order, and
    nothing else; it ends the prefix at the first URI that does not parse,
    returning its error, or at a registration that is refused, panicking;
    it returns nil only after registering them all. *)
Lemma register_exporters_run (script : string) (uris : list string)
  (t : list Main.Call) :
  exists n : nat,
    (n <= List.length uris)%nat /\
    snd (Main.register_exporters url_Parse host uris script t)
      = (t ++ map (fun uri => Main.Register
                                (Main.collector_of url_Parse script uri))
                (firstn n uris))%list /\
    match fst (Main.register_exporters url_Parse host uris script t) with
    | Returned None =>
        n = List.length uris /\
        Forall (fun uri => snd (NewExporter url_Parse uri script) = None) uris
    | Returned (Some err) =>
        exists uri, nth_error uris n = Some uri /\
          snd (NewExporter url_Parse uri script) = Some err
    | Panic _ => (0 < n)%nat
    end.
Proof.
  revert t. induction uris as [|uri uris IH]; intros t.
  - exists 0%nat. cbn. rewrite app_nil_r.
    split; [apply le_n|]. split; [reflexivity|].
    split; [reflexivity|constructor].
  - cbn [Main.register_exporters].
    destruct (NewExporter url_Parse uri script) as [exporter [err|]] eqn:HN.
    + exists 0%nat. cbn. rewrite app_nil_r.
      split; [apply Nat.le_0_l|]. split; [reflexivity|].
      exists uri. rewrite HN. split; reflexivity.
    + rewrite bind_run, MustRegister_run.
      assert (Main.collector_of url_Parse script uri
              = Main.ExporterCollector exporter) as Hc.
      { unfold Main.collector_of. rewrite HN. reflexivity. }
      destruct (Main.prometheus_Register host t
                  (Main.ExporterCollector exporter)) as [err|].
      * exists 1%nat. cbn [fst snd firstn map List.length]. rewrite Hc.
        split; [apply le_n_S, Nat.le_0_l|]. split; [reflexivity|].
        apply Nat.lt_0_succ.
      * destruct (IH (t ++ [Main.Register (Main.ExporterCollector exporter)])%list)
          as (n & Hn & Ht & Hr).
        exists (S n). cbn [firstn map List.length]. rewrite Hc.
        split; [apply le_n_S, Hn|]. split.
        -- rewrite Ht, <- app_assoc. reflexivity.
        -- destruct (fst (Main.register_exporters url_Parse host uris script _))
             as [[err|]|msg].
           ++ exact Hr.
           ++ destruct Hr as [-> Hall]. split; [reflexivity|].
              constructor; [rewrite HN; reflexivity|exact Hall].
           ++ apply Nat.lt_0_succ.
Qed.

(** [serve], case by case: the calls it adds are the registration of the
    version collector, the registrations of the exporters of the first [n]
    URIs, and a tail of server calls that is empty unless all URIs were
    registered. *)
Lemma serve_run (listenAddress metricsPath fcgiURI script : string)
  (t : list Main.Call) :
  let uris := strings_Split fcgiURI ";" in
  let registrations n :=
    (Main.Register (Main.VersionCollector "opcache_exporter")
     :: map (fun uri => Main.Register (Main.collector_of url_Parse script uri))
          (firstn n uris))%list in
  let mounts :=
    [Main.Handle metricsPath Main.MetricsHandler;
     Main.Handle "/" (Main.PageHandler (Main.html metricsPath))] in
  exists (n : nat) (tail : list Main.Call),
    (n <= List.length uris)%nat /\
    snd (Main.serve url_Parse host listenAddress metricsPath fcgiURI script t)
      = (t ++ registrations n ++ tail)%list /\
    ((tail = [] /\
      match fst (Main.serve url_Parse host listenAddress metricsPath fcgiURI
                   script t) with
      | Returned None => False
      | Returned (Some err) =>
          exists uri, nth_error uris n = Some uri /\
            snd (NewExporter url_Parse uri script) = Some err
      | Panic _ => True
      end) \/
     (n = List.length uris /\
      Forall (fun uri => snd (NewExporter url_Parse uri script) = None) uris /\
      ((tail = firstn 1 mounts /\
        exists msg,
          fst (Main.serve url_Parse host listenAddress metricsPath fcgiURI
                 script t) = Panic msg) \/
       (tail = mounts /\
        exists msg,
          fst (Main.serve url_Parse host listenAddress metricsPath fcgiURI
                 script t) = Panic msg) \/
       (tail = (mounts ++ [Main.ListenAndServe listenAddress])%list /\
        fst (Main.serve url_Parse host listenAddress metricsPath fcgiURI
               script t)
          = Returned (Main.http_ListenAndServe host
                        (t ++ registrations n ++ mounts)%list
                        listenAddress))))).
Proof.
  intros uris registrations mounts. unfold Main.serve. fold uris.
  rewrite bind_run, MustRegister_run.
  destruct (Main.prometheus_Register host t _) as [err|].
  { exists 0%nat, []. split; [apply Nat.le_0_l|].
    cbn [fst snd]. unfold registrations. cbn [firstn map].
    split; [reflexivity|]. left. split; [reflexivity|exact I]. }
  rewrite bind_run.
  destruct (register_exporters_run script uris
              (t ++ [Main.Register (Main.VersionCollector "opcache_exporter")])%list)
    as (n & Hn & Ht & Hr).
  destruct (Main.register_exporters url_Parse host uris script _)
    as [[[err|]|msg] t2]; cbn [fst snd] in Ht, Hr; subst t2.
  - exists n, []. split; [exact Hn|]. cbn [fst snd Main.ret].
    unfold registrations. rewrite <- app_assoc. cbn [app].
    rewrite app_nil_r.
    split; [reflexivity|]. left. split; [reflexivity|exact Hr].
  - destruct Hr as [-> Hall].
    set (t2 := ((t ++ [Main.Register (Main.VersionCollector "opcache_exporter")]) ++
                map (fun uri => Main.Register
                                  (Main.collector_of url_Parse script uri))
                  (firstn (List.length uris) uris))%list).
    assert (t2 = (t ++ registrations (List.length uris))%list) as Ht2.
    { unfold t2, registrations. rewrite <- app_assoc. reflexivity. }
    rewrite bind_run, http_Handle_run.
    destruct (Main.mux_refuses host t2 metricsPath) as [msg|].
    { exists (List.length uris), (firstn 1 mounts).
      split; [apply le_n|]. cbn [fst snd]. split.
      - rewrite Ht2, <- app_assoc. reflexivity.
      - right. split; [reflexivity|]. split; [exact Hall|].
        left. split; [reflexivity|]. exists msg. reflexivity. }
    rewrite bind_run, http_Handle_run.
    destruct (Main.mux_refuses host _ "/") as [msg|].
    { exists (List.length uris), mounts.
      split; [apply le_n|]. cbn [fst snd]. split.
      - rewrite Ht2, <- !app_assoc. reflexivity.
      - right. split; [reflexivity|]. split; [exact Hall|].
        right. left. split; [reflexivity|]. exists msg. reflexivity. }
    exists (List.length uris), (mounts ++ [Main.ListenAndServe listenAddress])%list.
    split; [apply le_n|]. unfold Main.call. cbn [fst snd]. split.
    + rewrite Ht2, <- !app_assoc. reflexivity.
    + right. split; [reflexivity|]. split; [exact Hall|].
      right. right. split; [reflexivity|].
      rewrite Ht2, <- !app_assoc. reflexivity.
  - exists n, []. split; [exact Hn|]. cbn [fst snd].
    unfold registrations. rewrite <- app_assoc. cbn [app].
    rewrite app_nil_r.
    split; [reflexivity|]. left. split; [reflexivity|exact I].
Qed.

(** [run], by the way it settles the script path. *)
Lemma run_run (listenAddress metricsPath fcgiURI script scriptDir : string)
  (t : list Main.Call) :
  Main.run url_Parse host listenAddress metricsPath fcgiURI script scriptDir t =
  if Nat.eqb (String.length script) 0 then
    match Main.os_CreateTemp host t scriptDir "opcache.*.php" with
    | inr err =>
        (Returned (Some err),
         t ++ [Main.CreateTemp scriptDir "opcache.*.php"])%list
    | inl file =>
        let written :=
          (t ++ [Main.CreateTemp scriptDir "opcache.*.php";
                 Main.Chmod file 511;
                 Main.WriteString file Main.payload])%list in
        match Main.file_WriteString host
                (t ++ [Main.CreateTemp scriptDir "opcache.*.php";
                       Main.Chmod file 511])%list file Main.payload with
        | Some err => (Returned (Some err), written)
        | None =>
            let r := Main.serve url_Parse host listenAddress metricsPath
                       fcgiURI (Main.Name file) written in
            (fst r,
             snd r ++ [Main.Remove (Main.Name file); Main.Close file])%list
        end
    end
  else Main.serve url_Parse host listenAddress metricsPath fcgiURI script t.
Proof.
  unfold Main.run. destruct (Nat.eqb (String.length script) 0); [|reflexivity].
  unfold Main.bind at 1. unfold Main.call at 1.
  destruct (Main.os_CreateTemp host t scriptDir "opcache.*.php")
    as [file|err]; [|reflexivity].
  unfold Main.bind, Main.call, Main.ret, Main.deferring.
  cbn [fst snd]. rewrite <- !app_assoc. cbn [app].
  destruct (Main.file_WriteString host _ file Main.payload);
    [reflexivity|].
  rewrite <- app_assoc. reflexivity.
Qed.

End RunFacts.

Lemma registered_app (t1 t2 : list Main.Call) :
  Main.registered (t1 ++ t2)
    = (Main.registered t1 ++ Main.registered t2)%list.
Proof.
  induction t1 as [|c t1 IH]; [reflexivity|].
  destruct c; cbn; rewrite ?IH; reflexivity.
Qed.

Lemma registered_map_Register (cs : list Main.Collector) :
  Main.registered (map Main.Register cs) = cs.
Proof. induction cs as [|c cs IH]; cbn; [|rewrite IH]; reflexivity. Qed.

Lemma no_file_call_in_registrations {A : Type} (f : A -> Main.Collector)
  (l : list A) :
  filter Main.is_file_call (map (fun a => Main.Register (f a)) l) = [].
Proof. induction l as [|a l IH]; cbn; [reflexivity|exact IH]. Qed.

Lemma no_server_call_in_registrations {A : Type} (f : A -> Main.Collector)
  (l : list A) :
  filter Main.is_server_call (map (fun a => Main.Register (f a)) l) = [].
Proof. induction l as [|a l IH]; cbn; [reflexivity|exact IH]. Qed.

Lemma exporters_of_collectors
  (url_Parse : string -> ptr URL * option error) (script : string)
  (uris : list string) :
  Forall (fun e => exists e', e = Some e' /\ scriptPath e' = script)
    (Main.exporters (map (Main.collector_of url_Parse script) uris)).
Proof.
  induction uris as [|uri uris IH]; cbn; constructor; [|exact IH].
  destruct (NewExporter_scriptPath url_Parse uri script) as (e & He & Hs).
  exists e. split; assumption.
Qed.

(** What [serve] adds to the calls: no file call, and exporters that all
    hold the script path it was given. *)
Lemma serve_calls
  (url_Parse : string -> ptr URL * option error) (host : Main.Host)
  (listenAddress metricsPath fcgiURI script : string) (t : list Main.Call) :
  exists added : list Main.Call,
    snd (Main.serve url_Parse host listenAddress metricsPath fcgiURI script t)
      = (t ++ added)%list /\
    filter Main.is_file_call added = [] /\
    Forall (fun e => exists e', e = Some e' /\ scriptPath e' = script)
      (Main.exporters (Main.registered added)).
Proof.
  destruct (serve_run url_Parse host listenAddress metricsPath fcgiURI script t)
    as (n & tail & _ & Ht & Hcases).
  eexists. split; [exact Ht|].
  assert (filter Main.is_file_call tail = [] /\ Main.registered tail = [])
    as [Hf Hr].
  { destruct Hcases as [[-> _]|(_ & _ & [[-> _]|[[-> _]|[-> _]]])];
      split; reflexivity. }
  split.
  - cbn [app filter Main.is_file_call]. rewrite filter_app, Hf, app_nil_r.
    apply no_file_call_in_registrations.
  - cbn [app Main.registered Main.exporters].
    rewrite registered_app, Hr, app_nil_r.
    rewrite <- (map_map (Main.collector_of url_Parse script) Main.Register).
    rewrite registered_map_Register. apply exporters_of_collectors.
Qed.

(** X2: if one of the semicolon-separated URIs does not parse, [run] never
    starts the server: it mounts no handler and never calls
    [ListenAndServe], whatever the host does, and it does not return nil. *)
Theorem run_never_serves_with_a_bad_uri
  (url_Parse : string -> ptr URL * option error) (host : Main.Host)
  (listenAddress metricsPath fcgiURI script scriptDir : string) :
  Exists (fun uri => snd (NewExporter url_Parse uri script) <> None)
    (strings_Split fcgiURI ";") ->
  filter Main.is_server_call
    (snd (Main.run url_Parse host listenAddress metricsPath fcgiURI script
            scriptDir [])) = [] /\
  fst (Main.run url_Parse host listenAddress metricsPath fcgiURI script
         scriptDir []) <> Returned None.
Proof.
  intros Hbad.
  assert (forall script' t,
    filter Main.is_server_call t = [] ->
    filter Main.is_server_call
      (snd (Main.serve url_Parse host listenAddress metricsPath fcgiURI
              script' t)) = [] /\
    fst (Main.serve url_Parse host listenAddress metricsPath fcgiURI
           script' t) <> Returned None) as Hserve.
  { intros script' t Ht.
    destruct (serve_run url_Parse host listenAddress metricsPath fcgiURI
                script' t) as (n & tail & _ & Htr & Hcases).
    destruct Hcases as [[-> Hout]|(_ & Hall & _)].
    - split.
      + rewrite Htr, app_nil_r, filter_app, Ht. cbn [app filter
          Main.is_server_call]. apply no_server_call_in_registrations.
      + intros E. rewrite E in Hout. exact Hout.
    - exfalso. apply Exists_exists in Hbad as (uri & Hin & Hne).
      rewrite Forall_forall in Hall. apply Hne.
      rewrite (NewExporter_error_any_script url_Parse uri script script').
      apply Hall, Hin. }
  rewrite run_run. destruct (Nat.eqb (String.length script) 0).
  - destruct (Main.os_CreateTemp host [] scriptDir "opcache.*.php")
      as [file|err]; [|split; [reflexivity|discriminate]].
    cbv zeta.
    destruct (Main.file_WriteString host _ file Main.payload) as [err|];
      [split; [reflexivity|discriminate]|].
    cbn [fst snd].
    destruct (Hserve (Main.Name file)
                ([] ++ [Main.CreateTemp scriptDir "opcache.*.php";
                        Main.Chmod file 511;
                        Main.WriteString file Main.payload])%list eq_refl)
      as [H1 H2].
    split; [|exact H2]. rewrite filter_app, H1. reflexivity.
  - apply Hserve. reflexivity.
Qed.

Lemma run_never_serves_with_a_bad_uri_witness :
  Exists (fun uri => snd (NewExporter example_url_Parse uri "") <> None)
    (strings_Split "127.0.0.1:9000;a b;unix:///run/php.sock" ";") /\
  filter Main.is_server_call
    (snd (Main.run example_url_Parse Main.host_ok ":9101" "/metrics"
            "127.0.0.1:9000;a b;unix:///run/php.sock" "" "/tmp" [])) = [] /\
  fst (Main.run example_url_Parse Main.host_ok ":9101" "/metrics"
         "127.0.0.1:9000;a b;unix:///run/php.sock" "" "/tmp" [])
    <> Returned None.
Proof.
  assert (Exists (fun uri => snd (NewExporter example_url_Parse uri "") <> None)
            (strings_Split "127.0.0.1:9000;a b;unix:///run/php.sock" ";"))
    as Hbad.
  { replace (strings_Split "127.0.0.1:9000;a b;unix:///run/php.sock" ";")
      with ["127.0.0.1:9000"; "a b"; "unix:///run/php.sock"]
      by (vm_compute; reflexivity).
    apply Exists_cons_tl, Exists_cons_hd.
    intros H. vm_compute in H. discriminate H. }
  split; [exact Hbad|].
  exact (run_never_serves_with_a_bad_uri example_url_Parse Main.host_ok
           ":9101" "/metrics" "127.0.0.1:9000;a b;unix:///run/php.sock" ""
           "/tmp" Hbad).
Defined.

(** X3: given a script path that is not empty, [run] makes no file call (it
    creates, writes, closes and removes nothing), whatever the host does,
    and every exporter it registers holds that script path. *)
Theorem run_keeps_the_given_script
  (url_Parse : string -> ptr URL * option error) (host : Main.Host)
  (listenAddress metricsPath fcgiURI script scriptDir : string) :
  String.length script <> 0%nat ->
  filter Main.is_file_call
    (snd (Main.run url_Parse host listenAddress metricsPath fcgiURI script
            scriptDir [])) = [] /\
  Forall (fun e => exists e', e = Some e' /\ scriptPath e' = script)
    (Main.exporters
       (Main.registered
          (snd (Main.run url_Parse host listenAddress metricsPath fcgiURI
                  script scriptDir [])))).
Proof.
  intros Hlen. rewrite run_run.
  destruct (Nat.eqb (String.length script) 0) eqn:E;
    [apply Nat.eqb_eq in E; contradiction|].
  destruct (serve_calls url_Parse host listenAddress metricsPath fcgiURI
              script []) as (added & -> & Hf & He).
  cbn [app]. split; assumption.
Qed.

Lemma run_keeps_the_given_script_witness :
  String.length "/srv/opcache.php" <> 0%nat /\
  filter Main.is_file_call
    (snd (Main.run example_url_Parse Main.host_ok ":9101" "/metrics"
            "127.0.0.1:9000;unix:///run/php.sock" "/srv/opcache.php"
            "/tmp" [])) = [].
Proof.
  split; [discriminate|].
  exact (proj1 (run_keeps_the_given_script example_url_Parse Main.host_ok
                  ":9101" "/metrics" "127.0.0.1:9000;unix:///run/php.sock"
                  "/srv/opcache.php" "/tmp"
                  (fun H : String.length "/srv/opcache.php" = 0%nat =>
                     O_S _ (eq_sym H)))).
Defined.

(** X4: given the empty script path, [run] first creates a temporary file
    [opcache.*.php] in the script directory.  If that fails it returns the
    error and does nothing else.  Otherwise it makes the file accessible to
    all (mode 0777) and writes the PHP script; if the write fails it
    returns the error leaving the file open and on disk.  If the write
    succeeds, then however the rest goes, by a return or by a panic, [run]
    ends by removing the file and then closing it, touches no other file,
    and every exporter it registers holds the name of that file as its
    script path. *)
Theorem run_temporary_script
  (url_Parse : string -> ptr URL * option error) (host : Main.Host)
  (listenAddress metricsPath fcgiURI scriptDir : string) :
  let result :=
    Main.run url_Parse host listenAddress metricsPath fcgiURI "" scriptDir []
  in
  let create := Main.CreateTemp scriptDir "opcache.*.php" in
  match Main.os_CreateTemp host [] scriptDir "opcache.*.php" with
  | inr err => result = (Returned (Some err), [create])
  | inl file =>
      let written :=
        [create; Main.Chmod file 511; Main.WriteString file Main.payload] in
      match Main.file_WriteString host [create; Main.Chmod file 511] file
              Main.payload with
      | Some err => result = (Returned (Some err), written)
      | None =>
          exists middle : list Main.Call,
            snd result
              = (written ++ middle
                 ++ [Main.Remove (Main.Name file); Main.Close file])%list /\
            filter Main.is_file_call middle = [] /\
            Forall (fun e => exists e', e = Some e' /\
                                scriptPath e' = Main.Name file)
              (Main.exporters (Main.registered middle)) /\
            fst result
              = fst (Main.serve url_Parse host listenAddress metricsPath
                       fcgiURI (Main.Name file) written)
      end
  end.
Proof.
  cbv zeta. rewrite run_run. cbn [String.length Nat.eqb app].
  destruct (Main.os_CreateTemp host [] scriptDir "opcache.*.php")
    as [file|err]; [|reflexivity].
  destruct (Main.file_WriteString host _ file Main.payload) as [err|];
    [reflexivity|].
  destruct (serve_calls url_Parse host listenAddress metricsPath fcgiURI
              (Main.Name file)
              [Main.CreateTemp scriptDir "opcache.*.php";
               Main.Chmod file 511; Main.WriteString file Main.payload])
    as (added & Ht & Hf & He).
  exists added. cbn [fst snd]. rewrite Ht.
  split; [rewrite <- app_assoc; reflexivity|].
  split; [exact Hf|]. split; [exact He|reflexivity].
Qed.

(** ** Splitting at semicolons *)

Lemma append_assoc (a b c : string) : ((a ++ b) ++ c = a ++ (b ++ c))%string.
Proof. induction a as [|x a IH]; cbn; [|rewrite IH]; reflexivity. Qed.

Lemma append_nil_r (a : string) : (a ++ "" = a)%string.
Proof. induction a as [|x a IH]; cbn; [|rewrite IH]; reflexivity. Qed.

Lemma prefix_semicolon (c : ascii) (s : string) :
  prefix ";" (String c s) = if ascii_dec ";" c then true else false.
Proof.
  cbn [prefix]. destruct (ascii_dec ";" c); [destruct s|]; reflexivity.
Qed.

Lemma strings_Contains_semicolon_app (a b : string) :
  strings_Contains (a ++ b) ";"
    = strings_Contains a ";" || strings_Contains b ";".
Proof.
  induction a as [|c a IH].
  - cbn [append]. destruct b; reflexivity.
  - cbn [append strings_Contains]. rewrite !prefix_semicolon, IH.
    destruct (ascii_dec ";" c); [reflexivity|].
    destruct a; reflexivity.
Qed.

Lemma split_from_not_empty (sep s : string) (skip : nat) (cur : string) :
  split_from sep s skip cur <> [].
Proof.
  revert skip cur. induction s as [|c s IH]; intros skip cur;
    cbn [split_from].
  - intros H. discriminate H.
  - destruct skip; [|apply IH]. destruct (prefix sep (String c s));
      [intros H; discriminate H|apply IH].
Qed.

Lemma strings_Join_cons (x : string) (elems : list string) (sep : string) :
  elems <> [] ->
  strings_Join (x :: elems) sep = (x ++ sep ++ strings_Join elems sep)%string.
Proof. destruct elems; [contradiction|reflexivity]. Qed.

(** Joining the pieces with semicolons gives the string back, and no piece
    holds a semicolon. *)
Lemma split_semicolon_join (s cur : string) :
  strings_Join (split_from ";" s 0 cur) ";" = (cur ++ s)%string.
Proof.
  revert cur. induction s as [|c s IH]; intros cur.
  - cbn. rewrite append_nil_r. reflexivity.
  - cbn [split_from]. rewrite prefix_semicolon.
    destruct (ascii_dec ";" c) as [<-|Hc].
    + cbn [String.length Nat.sub].
      rewrite strings_Join_cons by apply split_from_not_empty.
      rewrite IH. reflexivity.
    + rewrite IH, append_assoc. reflexivity.
Qed.

Lemma split_semicolon_pieces (s cur : string) :
  strings_Contains cur ";" = false ->
  Forall (fun piece => strings_Contains piece ";" = false)
    (split_from ";" s 0 cur).
Proof.
  revert cur. induction s as [|c s IH]; intros cur Hcur.
  - repeat constructor. exact Hcur.
  - cbn [split_from]. rewrite prefix_semicolon.
    destruct (ascii_dec ";" c) as [<-|Hc].
    + constructor; [exact Hcur|]. apply IH. reflexivity.
    + apply IH. rewrite strings_Contains_semicolon_app, Hcur.
      cbn [strings_Contains orb]. rewrite prefix_semicolon.
      destruct (ascii_dec ";" c); [contradiction|reflexivity].
Qed.

(** When every URI parses and every registration is accepted the loop
    registers them all and returns nil. *)
Lemma register_exporters_all
  (url_Parse : string -> ptr URL * option error) (host : Main.Host)
  (script : string) (uris : list string) :
  (forall t c, Main.prometheus_Register host t c = None) ->
  Forall (fun uri => snd (NewExporter url_Parse uri script) = None) uris ->
  forall t,
    Main.register_exporters url_Parse host uris script t
      = (Returned None,
         t ++ map (fun uri => Main.Register
                                (Main.collector_of url_Parse script uri))
                uris)%list.
Proof.
  intros Hreg Hall. induction uris as [|uri uris IH]; intros t.
  - cbn. rewrite app_nil_r. reflexivity.
  - cbn [Main.register_exporters map].
    pose proof (Forall_inv Hall) as Huri. cbn beta in Huri.
    unfold Main.collector_of at 1.
    destruct (NewExporter url_Parse uri script) as [exporter err].
    cbn [snd] in Huri. subst err. cbn [fst].
    rewrite bind_run, (MustRegister_run host), Hreg.
    rewrite (IH (Forall_inv_tail Hall)), <- app_assoc. reflexivity.
Qed.

(** X5: on a host that accepts every registration and every handler, with
    a script path given and every semicolon-separated URI parsing, [run]
    registers the version collector and then one exporter per URI, in the
    order of the list, mounts the metrics handler at the metrics path and
    the page at [/], calls [ListenAndServe] last and returns what it
    returns.  The URIs are the pieces of the flag: none holds a semicolon,
    and joined with semicolons they give the flag back, so an empty flag,
    a doubled or a trailing semicolon each gives an exporter for the empty
    URI. *)
Theorem run_registers_each_uri
  (url_Parse : string -> ptr URL * option error) (host : Main.Host)
  (listenAddress metricsPath fcgiURI script scriptDir : string) :
  String.length script <> 0%nat ->
  (forall t c, Main.prometheus_Register host t c = None) ->
  (forall t pattern, Main.mux_refuses host t pattern = None) ->
  Forall (fun uri => snd (NewExporter url_Parse uri script) = None)
    (strings_Split fcgiURI ";") ->
  let uris := strings_Split fcgiURI ";" in
  let before :=
    (Main.Register (Main.VersionCollector "opcache_exporter")
     :: map (fun uri => Main.Register (Main.collector_of url_Parse script uri))
          uris
     ++ [Main.Handle metricsPath Main.MetricsHandler;
         Main.Handle "/" (Main.PageHandler (Main.html metricsPath))])%list in
  Main.run url_Parse host listenAddress metricsPath fcgiURI script scriptDir []
    = (Returned (Main.http_ListenAndServe host before listenAddress),
       (before ++ [Main.ListenAndServe listenAddress])%list) /\
  strings_Join uris ";" = fcgiURI /\
  Forall (fun uri => strings_Contains uri ";" = false) uris.
Proof.
  intros Hlen Hreg Hmux Hall uris before.
  split; [|split].
  - rewrite run_run.
    destruct (Nat.eqb (String.length script) 0) eqn:E;
      [apply Nat.eqb_eq in E; contradiction|].
    pose proof (register_exporters_all url_Parse host script uris Hreg Hall)
      as Hloop.
    unfold Main.serve. fold uris.
    rewrite bind_run, (MustRegister_run host), Hreg, bind_run, Hloop.
    rewrite bind_run, (http_Handle_run host), Hmux, bind_run,
      (http_Handle_run host), Hmux.
    unfold Main.call, before. cbn [app].
    rewrite <- !app_assoc. reflexivity.
  - unfold uris, strings_Split. apply split_semicolon_join.
  - unfold uris, strings_Split. apply split_semicolon_pieces. reflexivity.
Qed.

Lemma run_registers_each_uri_witness :
  String.length "/srv/opcache.php" <> 0%nat /\
  Forall (fun uri => snd (NewExporter example_url_Parse uri "/srv/opcache.php")
                     = None)
    (strings_Split "127.0.0.1:9000;;unix:///run/php.sock" ";") /\
  Main.registered
    (snd (Main.run example_url_Parse Main.host_ok ":9101" "/metrics"
            "127.0.0.1:9000;;unix:///run/php.sock" "/srv/opcache.php"
            "/tmp" []))
    = Main.VersionCollector "opcache_exporter"
      :: map (Main.collector_of example_url_Parse "/srv/opcache.php")
           ["127.0.0.1:9000"; ""; "unix:///run/php.sock"].
Proof.
  assert (Forall
            (fun uri => snd (NewExporter example_url_Parse uri
                               "/srv/opcache.php") = None)
            (strings_Split "127.0.0.1:9000;;unix:///run/php.sock" ";"))
    as Hall.
  { replace (strings_Split "127.0.0.1:9000;;unix:///run/php.sock" ";")
      with ["127.0.0.1:9000"; ""; "unix:///run/php.sock"]
      by (vm_compute; reflexivity).
    repeat constructor. }
  split; [discriminate|]. split; [exact Hall|].
  rewrite (proj1 (run_registers_each_uri example_url_Parse Main.host_ok
                    ":9101" "/metrics" "127.0.0.1:9000;;unix:///run/php.sock"
                    "/srv/opcache.php" "/tmp"
                    (fun H : String.length "/srv/opcache.php" = 0%nat =>
                       O_S _ (eq_sym H))
                    (fun _ _ => eq_refl) (fun _ _ => eq_refl) Hall)).
  vm_compute. reflexivity.
Defined.

(** ** [intMetric] above [2^53] *)

(** X6: for every [int64] value [intMetric] yields a finite float that
    stands for an integer [w]: [w] is the value itself up to magnitude
    [2^53]; beyond, [w] is within 512 of the value and within the fraction
    [2^-53] of its magnitude. *)
Theorem intMetric_accuracy (v : int64) :
  is_int64 v ->
  exists w : Z,
    float64_is_int (intMetric v) w /\
    (Z.abs v <= 2 ^ 53 -> w = v) /\
    Z.abs (w - v) <= 512 /\
    2 ^ 53 * Z.abs (w - v) <= Z.abs v.
Proof.
  intros [Hlo Hhi]. unfold int64_min, int64_max in Hlo, Hhi.
  destruct (Z_le_gt_dec (Z.abs v) (2 ^ 53)) as [Hsmall|Hlarge].
  - exists v. split; [apply float64_of_int64_exact; lia|].
    split; [reflexivity|]. rewrite Z.sub_diag. cbn [Z.abs]. lia.
  - assert (forall (s : bool) (m : positive),
              2 ^ 53 < Zpos m < 2 ^ 63 ->
              exists w, float64_is_int (binary_round 53 1024 s m 0)
                          (cond_Zopp s w) /\
                Z.abs (w - Zpos m) <= 512 /\
                2 ^ 53 * Z.abs (w - Zpos m) <= Zpos m) as Hround.
    { intros s m Hm.
      destruct (binary_round_large s m)
        as (m' & e & n & -> & Hn & He & Hm' & Herr & _); [lia|].
      exists (Zpos m' * 2 ^ e). cbn [float64_is_int].
      assert (2 ^ n <= 2 ^ 10) as Hpow by (apply Z.pow_le_mono_r; lia).
      change (2 ^ 10) with 1024 in Hpow.
      rewrite Z.pow_add_r in Hm' by lia.
      change (2 ^ 52) with 4503599627370496 in Hm'.
      change (2 ^ 53) with 9007199254740992.
      split; [|split; lia].
      split; [lia|]. rewrite Z.pow_add_r by lia.
      destruct s; cbn [cond_Zopp]; lia. }
    unfold intMetric, float64_of_int64, float64_prec, float64_emax.
    destruct v as [|m|m]; cbn [binary_normalize].
    + cbn in Hlarge. lia.
    + destruct (Hround false m) as (w & Hw & Habs & Hrel); [lia|].
      exists w. cbn [cond_Zopp] in Hw. split; [exact Hw|].
      split; [lia|]. split; [exact Habs|exact Hrel].
    + destruct (Z.eq_dec (Zpos m) (2 ^ 63)) as [E|N].
      * injection E as ->. exists (- 2 ^ 63).
        split; [vm_compute; split; [discriminate|reflexivity]|].
        split; [reflexivity|]. vm_compute. split; discriminate.
      * destruct (Hround true m) as (w & Hw & Habs & Hrel); [lia|].
        exists (- w). cbn [cond_Zopp] in Hw. split; [exact Hw|].
        split; [lia|].
        replace (- w - Zneg m) with (- (w - Zpos m)) by lia.
        rewrite Z.abs_opp. split; [exact Habs|exact Hrel].
Qed.

Lemma intMetric_accuracy_witness :
  is_int64 int64_max /\
  exists w : Z,
    float64_is_int (intMetric int64_max) w /\
    (Z.abs int64_max <= 2 ^ 53 -> w = int64_max) /\
    Z.abs (w - int64_max) <= 512 /\
    2 ^ 53 * Z.abs (w - int64_max) <= Z.abs int64_max.
Proof.
  assert (is_int64 int64_max) as H
    by (unfold is_int64, int64_min, int64_max; lia).
  split; [exact H|exact (intMetric_accuracy int64_max H)].
Defined.

(** ** Descriptors and targets *)

(** X7: whatever the poll meets, the samples one call of [Collect] sends
    for a constructed exporter carry pairwise distinct descriptors, each of
    them one of those [Describe] sends. *)
Theorem Collect_sends_described_once
  (url_Parse : string -> ptr URL * option error)
  (json_Unmarshal : bytes -> OPcacheStatus -> OPcacheStatus * option error)
  (net : Network) (rawUri script : string) (e : Exporter) :
  fst (NewExporter url_Parse rawUri script) = Some e ->
  NoDup (map (fun m => Some (desc m))
           (sent (snd (Collect json_Unmarshal net e)))) /\
  incl (map (fun m => Some (desc m))
          (sent (snd (Collect json_Unmarshal net e))))
       (described (snd (Describe e))).
Proof.
  intros He. rewrite Describe_trace. cbn [snd].
  rewrite described_map_EvSendDesc.
  destruct (Collect_sent_descs url_Parse json_Unmarshal net rawUri script e
              He) as [(_ & _ & ->)|(_ & ->)].
  - pose proof (desc_fields_distinct _ _ _ _ He) as Hnd.
    assert (desc_fields e
            = (firstn 11 (desc_fields e)
               ++ internedStringsUsageUsedNumerOfStrings e
                  :: skipn 12 (desc_fields e))%list) as Hsplit
      by reflexivity.
    split.
    + rewrite Hsplit in Hnd. apply NoDup_remove_1 in Hnd. exact Hnd.
    + intros d Hd. rewrite Hsplit. apply in_app_or in Hd. apply in_or_app.
      destruct Hd as [Hd|Hd]; [left|right; right]; exact Hd.
  - split; [constructor|]. intros d [].
Qed.

Lemma Collect_sends_described_once_witness :
  fst (NewExporter example_url_Parse "127.0.0.1:9000" "/opcache.php")
    = Some example_exporter /\
  NoDup (map (fun m => Some (desc m))
           (sent (snd (Collect example_json_Unmarshal net_resetting
                         example_exporter)))) /\
  incl (map (fun m => Some (desc m))
          (sent (snd (Collect example_json_Unmarshal net_resetting
                        example_exporter))))
       (described (snd (Describe example_exporter))).
Proof.
  split; [reflexivity|].
  exact (Collect_sends_described_once example_url_Parse
           example_json_Unmarshal net_resetting "127.0.0.1:9000"
           "/opcache.php" example_exporter eq_refl).
Defined.

Lemma length_append (a b : string) :
  String.length (a ++ b) = (String.length a + String.length b)%nat.
Proof. induction a as [|c a IH]; cbn; [|rewrite IH]; reflexivity. Qed.

Lemma append_inj_r (a b s : string) : (a ++ s = b ++ s)%string -> a = b.
Proof.
  revert b. induction a as [|c a IH]; intros [|c' b] H; cbn in H.
  - reflexivity.
  - exfalso. apply (f_equal String.length) in H. cbn in H.
    rewrite length_append in H. lia.
  - exfalso. apply (f_equal String.length) in H. cbn in H.
    rewrite length_append in H. lia.
  - injection H as -> H. f_equal. exact (IH b H).
Qed.

(** Two descriptors [newMetric] builds are equal only for equal URIs: a
    valid descriptor holds the URI as its label, an invalid one names it in
    its error. *)
Lemma newMetric_inj_uri (n1 h1 n2 h2 u1 u2 : string) :
  IsValidMetricName (BuildFQName namespace "" n1) = true ->
  utf8_ValidString (BuildFQName namespace "" n1) = true ->
  IsValidMetricName (BuildFQName namespace "" n2) = true ->
  utf8_ValidString (BuildFQName namespace "" n2) = true ->
  newMetric n1 h1 u1 = newMetric n2 h2 u2 -> u1 = u2.
Proof.
  intros Hn1 Hu1 Hn2 Hu2 E.
  rewrite (newMetric_cases n1 h1 u1 Hn1 Hu1) in E.
  rewrite (newMetric_cases n2 h2 u2 Hn2 Hu2) in E.
  destruct (utf8_ValidString u1), (utf8_ValidString u2);
    try discriminate E.
  - injection E as _ _ E. exact E.
  - injection E as _ _ E. exact (append_inj_r _ _ _ E).
Qed.

(** X8: the descriptors tell the targets apart and nothing else.  Two
    exporters whose URIs are the same after the [tcp://] fallback have the
    same 25 descriptors, whatever their script paths; two exporters whose
    URIs differ after the fallback have no descriptor in common. *)
Theorem descriptors_identify_the_target
  (url_Parse : string -> ptr URL * option error)
  (rawUri1 rawUri2 script1 script2 : string) (e1 e2 : Exporter) :
  fst (NewExporter url_Parse rawUri1 script1) = Some e1 ->
  fst (NewExporter url_Parse rawUri2 script2) = Some e2 ->
  ((if strings_Contains rawUri1 "://" then rawUri1 else "tcp://" ++ rawUri1)
   = (if strings_Contains rawUri2 "://" then rawUri2 else "tcp://" ++ rawUri2)
   -> desc_fields e1 = desc_fields e2) /\
  ((if strings_Contains rawUri1 "://" then rawUri1 else "tcp://" ++ rawUri1)
   <> (if strings_Contains rawUri2 "://" then rawUri2 else "tcp://" ++ rawUri2)
   -> forall d, In d (desc_fields e1) -> ~ In d (desc_fields e2)).
Proof.
  intros H1 H2.
  apply NewExporter_fields in H1 as (_ & _ & ->).
  apply NewExporter_fields in H2 as (_ & _ & ->).
  split.
  - intros ->. reflexivity.
  - intros Hne d Hd1 Hd2.
    apply in_map_iff in Hd1 as (r1 & <- & Hin1).
    apply in_map_iff in Hd2 as (r2 & E & Hin2).
    assert (forall r, In r
              ltac:(match type of Hin1 with In _ ?l => exact l end) ->
              IsValidMetricName (BuildFQName namespace "" (fst r)) = true /\
              utf8_ValidString (BuildFQName namespace "" (fst r)) = true)
      as Hnames.
    { apply Forall_forall.
      repeat (apply Forall_cons; [split; vm_compute; reflexivity|]).
      apply Forall_nil. }
    destruct (Hnames r1 Hin1) as [Hn1 Hu1].
    destruct (Hnames r2 Hin2) as [Hn2 Hu2].
    apply Hne. symmetry.
    exact (newMetric_inj_uri _ _ _ _ _ _ Hn2 Hu2 Hn1 Hu1 E).
Qed.

Lemma descriptors_identify_the_target_witness :
  fst (NewExporter example_url_Parse "127.0.0.1:9000" "/opcache.php")
    = Some example_exporter /\
  fst (NewExporter example_url_Parse "unix:///run/php-fpm.sock"
         "/opcache.php")
    = Some unix_exporter /\
  forall d, In d (desc_fields example_exporter) ->
            ~ In d (desc_fields unix_exporter).
Proof.
  split; [reflexivity|]. split; [reflexivity|].
  apply (proj2 (descriptors_identify_the_target example_url_Parse
                  "127.0.0.1:9000" "unix:///run/php-fpm.sock"
                  "/opcache.php" "/opcache.php"
                  example_exporter unix_exporter eq_refl eq_refl)).
  vm_compute. intros H. discriminate H.
Defined.

(** ** [run] and [Collect] together *)

Section Registered.

Variable url_Parse : string -> ptr URL * option error.
Variable host : Main.Host.

(** A property of collectors that holds of the version collector and of
    the exporter of every URI that parses. *)
Variable P : Main.Collector -> Prop.
Hypothesis P_version : P (Main.VersionCollector "opcache_exporter").
Hypothesis P_parsed :
  forall uri script, snd (NewExporter url_Parse uri script) = None ->
    P (Main.ExporterCollector (fst (NewExporter url_Parse uri script))).

Lemma Forall_registered_snoc (t : list Main.Call) (c : Main.Call) :
  Forall P (Main.registered t) ->
  match c with Main.Register c' => P c' | _ => True end ->
  Forall P (Main.registered (t ++ [c])).
Proof.
  intros Ht Hc. rewrite registered_app. apply Forall_app. split; [exact Ht|].
  destruct c; cbn; constructor; [exact Hc|constructor].
Qed.

Lemma register_exporters_registered (script : string) (uris : list string)
  (t : list Main.Call) :
  Forall P (Main.registered t) ->
  Forall P (Main.registered
              (snd (Main.register_exporters url_Parse host uris script t))).
Proof.
  revert t. induction uris as [|uri uris IH]; intros t Ht; [exact Ht|].
  cbn [Main.register_exporters].
  pose proof (P_parsed uri script) as Huri.
  destruct (NewExporter url_Parse uri script) as [exporter [err|]];
    [exact Ht|].
  cbn [fst snd] in Huri. specialize (Huri eq_refl).
  rewrite bind_run, MustRegister_run.
  assert (Forall P (Main.registered
                      (t ++ [Main.Register (Main.ExporterCollector exporter)])))
    as Ht' by (apply Forall_registered_snoc; assumption).
  destruct (Main.prometheus_Register host t _); [exact Ht'|].
  apply IH. exact Ht'.
Qed.

Lemma serve_registered (listenAddress metricsPath fcgiURI script : string)
  (t : list Main.Call) :
  Forall P (Main.registered t) ->
  Forall P (Main.registered
              (snd (Main.serve url_Parse host listenAddress metricsPath
                      fcgiURI script t))).
Proof.
  intros Ht. unfold Main.serve. rewrite bind_run, MustRegister_run.
  assert (Forall P (Main.registered
            (t ++ [Main.Register (Main.VersionCollector "opcache_exporter")])))
    as Ht' by (apply Forall_registered_snoc; assumption).
  destruct (Main.prometheus_Register host t _); [exact Ht'|].
  rewrite bind_run.
  pose proof (register_exporters_registered script
                (strings_Split fcgiURI ";") _ Ht') as Ht2.
  destruct (Main.register_exporters url_Parse host _ script _)
    as [[[err|]|msg] t2]; cbn [snd] in Ht2; [exact Ht2| |exact Ht2].
  rewrite bind_run, http_Handle_run.
  assert (forall c, match c with Main.Register _ => False | _ => True end ->
            forall t', Forall P (Main.registered t') ->
                       Forall P (Main.registered (t' ++ [c]))) as Hsnoc.
  { intros c Hc t' H'. apply Forall_registered_snoc; [exact H'|].
    destruct c; try exact I. destruct Hc. }
  destruct (Main.mux_refuses host t2 metricsPath);
    [apply Hsnoc; [exact I|exact Ht2]|].
  rewrite bind_run, http_Handle_run.
  destruct (Main.mux_refuses host _ "/");
    [apply Hsnoc; [exact I|]; apply Hsnoc; [exact I|exact Ht2]|].
  unfold Main.call. cbn [snd].
  repeat (apply Hsnoc; [exact I|]). exact Ht2.
Qed.

Lemma run_registered
  (listenAddress metricsPath fcgiURI script scriptDir : string) :
  Forall P (Main.registered
              (snd (Main.run url_Parse host listenAddress metricsPath
                      fcgiURI script scriptDir []))).
Proof.
  rewrite run_run. destruct (Nat.eqb (String.length script) 0);
    [|apply serve_registered; constructor].
  destruct (Main.os_CreateTemp host [] scriptDir "opcache.*.php")
    as [file|err]; [|constructor].
  cbv zeta. destruct (Main.file_WriteString host _ file Main.payload);
    [constructor|].
  cbn [snd]. rewrite registered_app. cbn [Main.registered]. rewrite app_nil_r.
  apply serve_registered. constructor.
Qed.

End Registered.

Lemma Forall_exporters (Q : ptr Exporter -> Prop) (cs : list Main.Collector) :
  Forall (fun c => match c with
                   | Main.ExporterCollector p => Q p
                   | Main.VersionCollector _ => True
                   end) cs ->
  Forall Q (Main.exporters cs).
Proof.
  induction 1 as [|c cs Hc _ IH]; [constructor|].
  destruct c; cbn [Main.exporters]; [exact IH|].
  constructor; assumption.
Qed.

(** X10: every exporter [run] registers was returned by [NewExporter] with
    a nil error.  So when [url.Parse] keeps its contract (a nil error comes
    with a URL), every exporter [run] registers has a URL, and no scrape of
    it panics on a nil URL; if moreover its URI is valid UTF-8, then
    whenever a poll of it returns, with a snapshot or with an error,
    [Collect] returns without a panic after sending 24 samples. *)
Theorem run_registers_scrapable_exporters
  (url_Parse : string -> ptr URL * option error) (host : Main.Host)
  (json_Unmarshal : bytes -> OPcacheStatus -> OPcacheStatus * option error)
  (listenAddress metricsPath fcgiURI script scriptDir : string) :
  (forall s, snd (url_Parse s) = None -> fst (url_Parse s) <> None) ->
  Forall (fun p =>
            exists (e : Exporter) (uri' script' : string),
              p = Some e /\
              NewExporter url_Parse uri' script' = (Some e, None) /\
              uri e <> None /\
              (utf8_ValidString
                 (if strings_Contains uri' "://" then uri'
                  else "tcp://" ++ uri') = true ->
               forall (net : Network) (r : ptr OPcacheStatus * option error),
                 fst (getOpcacheStatus json_Unmarshal net e) = Returned r ->
                 fst (Collect json_Unmarshal net e) = Returned tt /\
                 List.length (sent (snd (Collect json_Unmarshal net e)))
                   = 24%nat))
    (Main.exporters
       (Main.registered
          (snd (Main.run url_Parse host listenAddress metricsPath fcgiURI
                  script scriptDir [])))).
Proof.
  intros Hparse. apply Forall_exporters.
  apply run_registered; [exact I|].
  intros rawUri script' Herr.
  destruct (NewExporter_always_fst url_Parse rawUri script') as [e He].
  pose proof (NewExporter_fields url_Parse rawUri script' e He)
    as (_ & Huri & _).
  assert (snd (NewExporter url_Parse rawUri script')
          = snd (url_Parse
                   (if strings_Contains rawUri "://" then rawUri
                    else "tcp://" ++ rawUri))) as Hsnd.
  { unfold NewExporter. destruct (strings_Contains rawUri "://");
      cbn [negb]; destruct (url_Parse _); reflexivity. }
  assert (uri e <> None) as Hnn.
  { rewrite Huri. apply Hparse. rewrite <- Hsnd. exact Herr. }
  rewrite He. exists e, rawUri, script'. split; [reflexivity|]. split.
  - rewrite (surjective_pairing (NewExporter url_Parse rawUri script')).
    rewrite He, Herr. reflexivity.
  - split; [exact Hnn|]. intros Hutf net r Hr.
    assert (exists s, substituted r = Some s) as [s Hs].
    { destruct (uri e) as [u|] eqn:Hu; [|congruence].
      destruct (getOpcacheStatus_returns json_Unmarshal net e u Hu)
        as (r' & Hr' & Hshape).
      assert (r' = r) as -> by congruence.
      destruct Hshape as [[s ->]|[failure ->]]; eexists; reflexivity. }
    destruct (Collect_samples url_Parse json_Unmarshal net rawUri script' e
                r s He Hutf Hr Hs) as (Hret & Hv & _).
    split; [exact Hret|].
    rewrite <- (length_map sample_view), Hv, length_map. reflexivity.
Qed.

(** The example parser keeps the contract of [url.Parse]. *)
Lemma example_url_Parse_contract (s : string) :
  snd (example_url_Parse s) = None -> fst (example_url_Parse s) <> None.
Proof.
  unfold example_url_Parse.
  destruct (index 0 "://" s) as [i|]; [|discriminate].
  destruct (match index 0 "/" _ with Some j => _ | None => _ end)
    as [host path].
  destruct (strings_Contains host " "); discriminate.
Qed.

Lemma run_registers_scrapable_exporters_witness :
  (forall s, snd (example_url_Parse s) = None ->
             fst (example_url_Parse s) <> None) /\
  Forall (fun p =>
            exists (e : Exporter) (uri' script' : string),
              p = Some e /\
              NewExporter example_url_Parse uri' script' = (Some e, None) /\
              uri e <> None /\
              (utf8_ValidString
                 (if strings_Contains uri' "://" then uri'
                  else "tcp://" ++ uri') = true ->
               forall (net : Network) (r : ptr OPcacheStatus * option error),
                 fst (getOpcacheStatus example_json_Unmarshal net e)
                   = Returned r ->
                 fst (Collect example_json_Unmarshal net e) = Returned tt /\
                 List.length
                   (sent (snd (Collect example_json_Unmarshal net e)))
                   = 24%nat))
    (Main.exporters
       (Main.registered
          (snd (Main.run example_url_Parse Main.host_ok ":9101" "/metrics"
                  "127.0.0.1:9000;unix:///run/php.sock" "" "/tmp" [])))).
Proof.
  split; [exact example_url_Parse_contract|].
  exact (run_registers_scrapable_exporters example_url_Parse Main.host_ok
           example_json_Unmarshal ":9101" "/metrics"
           "127.0.0.1:9000;unix:///run/php.sock" "" "/tmp"
           example_url_Parse_contract).
Defined.
